(** * deepctr/sequence.py: sequence pooling, attention pooling and BiLSTM layers

    A shallow embedding of the four Keras layers of [deepctr/sequence.py]
    and of the TensorFlow operations they are built from.

    Conventions of the model.
    - A tensor is its static shape together with an indexing function; only
      indices inside the shape are ever read by the operations below.
    - Tensor entries are real numbers: float32 values are idealised as exact
      reals, so rounding, NaN and the infinities are outside the model.
      Where TensorFlow would produce a non-finite value from finite inputs
      (a maximum over an empty axis, a division by a zero width) the model
      stops with [NotFinite] instead of inventing a real number.
    - Python exceptions are values of [exn]; every fallible step returns a
      [result].
    - The Keras collaborators that live outside the module
      ([LocalActivationUnit], [LSTM], the base class [Layer]) are parameters. *)

From Stdlib Require Import Reals Lra Lia ZArith List String Bool Arith.
Import ListNotations.
Open Scope string_scope.

(** ** Python values and exceptions *)

#[warnings="-register-all"]
Inductive pyval : Type :=
| PNone
| PBool (b : bool)
| PInt (z : Z)
| PFloat (r : R)
| PStr (s : string)
| PTuple (l : list pyval).

Inductive exn : Type :=
| ValueError (msg : string)
| TypeError (msg : string)
| AttributeError (name : string)
| IndexError (msg : string)
| NameError (name : string)
| UnboundLocalError (name : string)
| InvalidArgument (op : string)
| NotFinite (op : string).

Inductive result (A : Type) : Type :=
| Ok (a : A)
| Raise (e : exn).
Arguments Ok {A} a.
Arguments Raise {A} e.

Definition bind {A B : Type} (c : result A) (k : A -> result B) : result B :=
  match c with
  | Ok a => k a
  | Raise e => Raise e
  end.

Notation "x <- c ;; k" := (bind c (fun x => k))
  (at level 61, c at next level, right associativity).
Notation "' p <- c ;; k" := (bind c (fun x => let p := x in k))
  (at level 61, p pattern, c at next level, right associativity).

(** Python's numeric tower: [True == 1 == 1.0]. *)
Definition as_number (v : pyval) : option R :=
  match v with
  | PBool b => Some (if b then 1%R else 0%R)
  | PInt z => Some (IZR z)
  | PFloat r => Some r
  | _ => None
  end.

(** [v == w] on Python values. *)
Fixpoint py_eqb (v w : pyval) {struct v} : bool :=
  match as_number v, as_number w with
  | Some a, Some b => if Req_dec_T a b then true else false
  | Some _, None | None, Some _ => false
  | None, None =>
      match v, w with
      | PNone, PNone => true
      | PStr s, PStr s' => String.eqb s s'
      | PTuple l, PTuple l' =>
          (fix all2 (xs ys : list pyval) {struct xs} : bool :=
             match xs, ys with
             | [], [] => true
             | x :: xs', y :: ys' => py_eqb x y && all2 xs' ys'
             | _, _ => false
             end) l l'
      | _, _ => false
      end
  end.

(** [v in l]. *)
Definition py_in (v : pyval) (l : list pyval) : bool :=
  existsb (fun w => py_eqb v w) l.

(** A Python [dict] with string keys: insertion-ordered, one entry per key. *)
Definition pydict : Type := list (string * pyval).

Fixpoint dict_set (k : string) (v : pyval) (d : pydict) : pydict :=
  match d with
  | [] => [(k, v)]
  | (k', v') :: d' =>
      if String.eqb k k' then (k', v) :: d' else (k', v') :: dict_set k v d'
  end.

Fixpoint dict_get (k : string) (d : pydict) : option pyval :=
  match d with
  | [] => None
  | (k', v') :: d' => if String.eqb k k' then Some v' else dict_get k d'
  end.

(** [dict(items)]: later pairs overwrite earlier ones. *)
Definition dict (items : list (string * pyval)) : pydict :=
  fold_left (fun d kv => dict_set (fst kv) (snd kv) d) items [].

(** [list(d.items())]. *)
Definition items (d : pydict) : list (string * pyval) := d.

(** ** Tensors *)

Record tensor2 (A : Type) : Type := T2 {
  rows2 : nat;
  cols2 : nat;
  at2 : nat -> nat -> A
}.
Arguments T2 {A} rows2 cols2 at2.
Arguments rows2 {A} t.
Arguments cols2 {A} t.
Arguments at2 {A} t _ _.

Record tensor3 (A : Type) : Type := T3 {
  dim0 : nat;
  dim1 : nat;
  dim2 : nat;
  at3 : nat -> nat -> nat -> A
}.
Arguments T3 {A} dim0 dim1 dim2 at3.
Arguments dim0 {A} t.
Arguments dim1 {A} t.
Arguments dim2 {A} t.
Arguments at3 {A} t _ _ _.

Definition shape2 {A} (x : tensor2 A) : nat * nat := (rows2 x, cols2 x).
Definition shape3 {A} (x : tensor3 A) : nat * nat * nat :=
  (dim0 x, dim1 x, dim2 x).

(** Tensors written as nested lists, for concrete inputs. *)
Definition of_list2 {A} (d : A) (l : list (list A)) : tensor2 A :=
  T2 (List.length l) (List.length (hd [] l)) (fun i j => nth j (nth i l []) d).

Definition of_list3 {A} (d : A) (l : list (list (list A))) : tensor3 A :=
  T3 (List.length l) (List.length (hd [] l)) (List.length (hd [] (hd [] l)))
     (fun i j k => nth k (nth j (nth i l []) []) d).

Module TF.

Open Scope R_scope.

(** Sum and maximum of [f 0 .. f (n-1)]; [max_to f n] is over [f 0 .. f n]. *)
Fixpoint sum_upto (f : nat -> R) (n : nat) : R :=
  match n with
  | O => 0
  | S k => sum_upto f k + f k
  end.

Fixpoint max_to (f : nat -> R) (n : nat) : R :=
  match n with
  | O => f O
  | S k => Rmax (max_to f k) (f (S k))
  end.

(** Broadcasting of one dimension, and the index read in an operand. *)
Definition bdim (a b : nat) : option nat :=
  if Nat.eqb a b then Some a
  else if Nat.eqb a 1 then Some b
  else if Nat.eqb b 1 then Some a
  else None.

Definition bix (d i : nat) : nat := if Nat.eqb d 1 then O else i.

(** An elementwise binary operation with broadcasting. *)
Definition binop2 {A B C} (op : string) (f : A -> B -> C)
    (x : tensor2 A) (y : tensor2 B) : result (tensor2 C) :=
  match bdim (rows2 x) (rows2 y), bdim (cols2 x) (cols2 y) with
  | Some r, Some c =>
      Ok (T2 r c (fun i j =>
            f (at2 x (bix (rows2 x) i) (bix (cols2 x) j))
              (at2 y (bix (rows2 y) i) (bix (cols2 y) j))))
  | _, _ => Raise (InvalidArgument op)
  end.

Definition binop3 {A B C} (op : string) (f : A -> B -> C)
    (x : tensor3 A) (y : tensor3 B) : result (tensor3 C) :=
  match bdim (dim0 x) (dim0 y), bdim (dim1 x) (dim1 y),
        bdim (dim2 x) (dim2 y) with
  | Some a, Some b, Some c =>
      Ok (T3 a b c (fun i j k =>
            f (at3 x (bix (dim0 x) i) (bix (dim1 x) j) (bix (dim2 x) k))
              (at3 y (bix (dim0 y) i) (bix (dim1 y) j) (bix (dim2 y) k))))
  | _, _, _ => Raise (InvalidArgument op)
  end.

Definition map2d {A B} (f : A -> B) (x : tensor2 A) : tensor2 B :=
  T2 (rows2 x) (cols2 x) (fun i j => f (at2 x i j)).

Definition map3d {A B} (f : A -> B) (x : tensor3 A) : tensor3 B :=
  T3 (dim0 x) (dim1 x) (dim2 x) (fun i j k => f (at3 x i j k)).

(** The machine epsilon of float32. *)
Definition machine_epsilon : R := / 2 ^ 23.

(** [tf.to_float] / [dtype=tf.float32] on a boolean. *)
Definition to_float (b : bool) : R := if b then 1 else 0.

(** The conversion of a float to [int32] that [tf.sequence_mask] applies to
    float lengths: truncation towards zero (outside the range of [int32] the
    conversion is unspecified, and not modelled). *)
Definition cast_int32 (r : R) : Z :=
  if Rle_dec 0 r then Int_part r else (- Int_part (- r))%Z.

(** [tf.sequence_mask(lengths, maxlen)]: a trailing axis of size [maxlen],
    true at [t] iff [t < lengths[...]]. *)
Definition sequence_mask (lengths : tensor2 Z) (maxlen : nat) : tensor3 bool :=
  T3 (rows2 lengths) (cols2 lengths) maxlen
     (fun i j t => Z.ltb (Z.of_nat t) (at2 lengths i j)).

(** [tf.transpose(x, (0, 2, 1))]. *)
Definition transpose_021 {A} (x : tensor3 A) : tensor3 A :=
  T3 (dim0 x) (dim2 x) (dim1 x) (fun i j k => at3 x i k j).

(** [tf.tile(x, [1, 1, m])]. *)
Definition tile_last {A} (x : tensor3 A) (m : nat) : tensor3 A :=
  T3 (dim0 x) (dim1 x) (dim2 x * m)
     (fun i j k => at3 x i j (Nat.modulo k (dim2 x))).

(** [tf.expand_dims(x, axis=1)] and [axis=2] on a rank-2 tensor. *)
Definition expand_dims_1 {A} (x : tensor2 A) : tensor3 A :=
  T3 (rows2 x) 1 (cols2 x) (fun i _ k => at2 x i k).

Definition expand_dims_2 {A} (x : tensor2 A) : tensor3 A :=
  T3 (rows2 x) (cols2 x) 1 (fun i j _ => at2 x i j).

(** [tf.reduce_sum(x, axis=-1, keep_dims=True)] on a rank-2 tensor. *)
Definition reduce_sum_last_keep (x : tensor2 R) : tensor2 R :=
  T2 (rows2 x) 1 (fun i _ => sum_upto (fun j => at2 x i j) (cols2 x)).

(** [tf.reduce_sum(x, 1, keep_dims=False)] on a rank-3 tensor. *)
Definition reduce_sum_1 (x : tensor3 R) : tensor2 R :=
  T2 (dim0 x) (dim2 x) (fun i k => sum_upto (fun j => at3 x i j k) (dim1 x)).

(** [tf.reduce_max(x, 1, keep_dims=True)]; over an empty axis TensorFlow
    answers [-inf], which is not a real. *)
Definition reduce_max_1_keep (x : tensor3 R) : result (tensor3 R) :=
  match dim1 x with
  | O => Raise (NotFinite "reduce_max")
  | S n => Ok (T3 (dim0 x) 1 (dim2 x)
                  (fun i _ k => max_to (fun j => at3 x i j k) n))
  end.

(** [tf.ones_like], [tf.zeros_like], and a tensor times or over a Python
    number. *)
Definition ones_like (x : tensor3 R) : tensor3 R := map3d (fun _ => 1) x.
Definition zeros_like (x : tensor3 R) : tensor3 R := map3d (fun _ => 0) x.
Definition scale (x : tensor3 R) (c : R) : tensor3 R :=
  map3d (fun v => v * c) x.

(** Division by the Python float [c]; by [0.0] the entries are infinite
    or NaN. *)
Definition div_scalar (x : tensor3 R) (c : R) : result (tensor3 R) :=
  if Req_dec_T c 0 then Raise (NotFinite "div")
  else Ok (map3d (fun v => v / c) x).

(** [tf.where(condition, x, y)] on three tensors of one shape. *)
Definition where3 {A} (c : tensor3 bool) (x y : tensor3 A)
    : result (tensor3 A) :=
  if (Nat.eqb (dim0 c) (dim0 x) && Nat.eqb (dim1 c) (dim1 x)
      && Nat.eqb (dim2 c) (dim2 x) && Nat.eqb (dim0 y) (dim0 x)
      && Nat.eqb (dim1 y) (dim1 x) && Nat.eqb (dim2 y) (dim2 x))%bool then
    Ok (T3 (dim0 x) (dim1 x) (dim2 x)
          (fun i j k => if at3 c i j k then at3 x i j k else at3 y i j k))
  else Raise (InvalidArgument "where").

(** [tf.nn.softmax], along the last axis. *)
Definition softmax (x : tensor3 R) : tensor3 R :=
  T3 (dim0 x) (dim1 x) (dim2 x)
     (fun i j k =>
        exp (at3 x i j k) / sum_upto (fun k' => exp (at3 x i j k')) (dim2 x)).

(** [tf.matmul] of two rank-3 tensors: a matrix product per batch row. *)
Definition matmul (x y : tensor3 R) : result (tensor3 R) :=
  if (Nat.eqb (dim0 x) (dim0 y) && Nat.eqb (dim2 x) (dim1 y))%bool then
    Ok (T3 (dim0 x) (dim1 x) (dim2 y)
          (fun i j k =>
             sum_upto (fun t => at3 x i j t * at3 y i t k) (dim2 x)))
  else Raise (InvalidArgument "matmul").

(** [K.reverse(x, 1)]. *)
Definition reverse_1 {A} (x : tensor3 A) : tensor3 A :=
  T3 (dim0 x) (dim1 x) (dim2 x)
     (fun i j k => at3 x i (dim1 x - 1 - j)%nat k).

(** [K.concatenate([x, y])], along the last axis. *)
Definition concatenate {A} (x y : tensor3 A) : result (tensor3 A) :=
  if (Nat.eqb (dim0 x) (dim0 y) && Nat.eqb (dim1 x) (dim1 y))%bool then
    Ok (T3 (dim0 x) (dim1 x) (dim2 x + dim2 y)
          (fun i j k =>
             if Nat.ltb k (dim2 x) then at3 x i j k
             else at3 y i j (k - dim2 x)%nat))
  else Raise (InvalidArgument "concat").

(** [K.repeat_elements(x, rep, 1)]. *)
Definition repeat_elements_1 {A} (x : tensor3 A) (rep : nat) : tensor3 A :=
  T3 (dim0 x) (dim1 x * rep) (dim2 x)
     (fun i j k => at3 x i (Nat.div j rep) k).

(** [K.l2_normalize(x, axis=-1)], that is [tf.nn.l2_normalize] with its
    default [epsilon=1e-12]:
    [x / sqrt(max(sum(x**2), epsilon))]. *)
Definition l2_normalize (x : tensor3 R) : tensor3 R :=
  T3 (dim0 x) (dim1 x) (dim2 x)
     (fun i j k =>
        at3 x i j k
        / sqrt (Rmax (sum_upto (fun k' => at3 x i j k' * at3 x i j k') (dim2 x))
                     (/ 1000000000000))).

(** [K.mean(x, axis=-1, keepdims=True)]; the mean of no entries is NaN. *)
Definition mean_last_keep (x : tensor3 R) : result (tensor3 R) :=
  match dim2 x with
  | O => Raise (NotFinite "mean")
  | S _ =>
      Ok (T3 (dim0 x) (dim1 x) 1
            (fun i j _ =>
               sum_upto (fun k => at3 x i j k) (dim2 x) / INR (dim2 x)))
  end.

End TF.

(** What [build] receives: one shape, or a list of shapes. *)
Inductive input_shape : Type :=
| Shape (s : list nat)
| Shapes (l : list (list nat)).

(** A shape tuple as the Python value it is. *)
Definition py_shape (s : list nat) : pyval :=
  PTuple (map (fun d => PInt (Z.of_nat d)) s).

(** ** SequencePoolingLayer *)

Module SequencePoolingLayer.

Import TF.
Open Scope R_scope.

Record t : Type := Build {
  mode : pyval;
  eps : R;
  supports_masking : bool;
  seq_len_max : option nat
}.

(** What [call] receives: one tensor, or the list [[seq_value, seq_len]],
    whose length tensor is of an integer type ([SeqLen]) or of a float type
    ([SeqLenFloat]). *)
Inductive inputs : Type :=
| Seq (seq_value : tensor3 R)
| SeqLen (seq_value : tensor3 R) (seq_len : tensor2 Z)
| SeqLenFloat (seq_value : tensor3 R) (seq_len : tensor2 R).

(** The local variable [user_behavior_length], with its element type. *)
Inductive lengths : Type :=
| IntLengths (l : tensor2 Z)
| FloatLengths (l : tensor2 R).

Definition init (mode : pyval) (supports_masking : bool) : result t :=
  if negb (py_in mode [PStr "sum"; PStr "mean"; PStr "max"]) then
    Raise (ValueError "mode must be sum or mean")
  else
    Ok {| mode := mode; eps := / 100000000;
          supports_masking := supports_masking; seq_len_max := None |}.

Definition build (self : t) (shape : input_shape) : result t :=
  if negb (supports_masking self) then
    match shape with
    | Shapes l =>
        match nth_error l 0 with
        | Some s =>
            match nth_error s 1 with
            | Some n =>
                Ok {| mode := mode self; eps := eps self;
                      supports_masking := supports_masking self;
                      seq_len_max := Some n |}
            | None => Raise (IndexError "tuple index out of range")
            end
        | None => Raise (IndexError "list index out of range")
        end
    | Shape _ => Raise (TypeError "object is not subscriptable")
    end
  else Ok self.

(** [user_behavior_length + self.eps] converts the Python float to the
    element type of the tensor, which raises [TypeError] for an integer
    tensor.  A float length of exactly [-1e-8] makes the divisor 0, where
    TensorFlow's quotient is infinite or NaN. *)
Definition call (self : t) (seq_value_len_list : inputs)
    (mask : option (tensor2 bool)) : result (tensor3 R) :=
  '(uiseq_embed_list, user_behavior_length, mask) <-
    (if supports_masking self then
       match mask with
       | None =>
           Raise (ValueError
                    "When supports_masking=True,input must support masking")
       | Some mask =>
           match seq_value_len_list with
           | Seq uiseq_embed_list =>
               let mask := map2d to_float mask in
               let user_behavior_length := reduce_sum_last_keep mask in
               let mask := expand_dims_2 mask in
               Ok (uiseq_embed_list, FloatLengths user_behavior_length, mask)
           | SeqLen _ _ | SeqLenFloat _ _ =>
               Raise (AttributeError "shape")
           end
       end
     else
       match seq_value_len_list, seq_len_max self with
       | Seq _, _ => Raise (TypeError "Tensor objects are not iterable")
       | _, None => Raise (AttributeError "seq_len_max")
       | SeqLen uiseq_embed_list user_behavior_length, Some maxlen =>
           let mask :=
             map3d to_float (sequence_mask user_behavior_length maxlen) in
           let mask := transpose_021 mask in
           Ok (uiseq_embed_list, IntLengths user_behavior_length, mask)
       | SeqLenFloat uiseq_embed_list user_behavior_length, Some maxlen =>
           let mask :=
             map3d to_float
               (sequence_mask (map2d cast_int32 user_behavior_length) maxlen) in
           let mask := transpose_021 mask in
           Ok (uiseq_embed_list, FloatLengths user_behavior_length, mask)
       end) ;;
  let embedding_size := dim2 uiseq_embed_list in
  let mask := tile_last mask embedding_size in
  hist <- binop3 "mul" Rmult uiseq_embed_list mask ;;
  if py_eqb (mode self) (PStr "max") then
    reduce_max_1_keep hist
  else
    let hist := reduce_sum_1 hist in
    hist <- (if py_eqb (mode self) (PStr "mean") then
               match user_behavior_length with
               | IntLengths _ =>
                   Raise (TypeError
                            "Expected int32, got 1e-08 of type 'float' instead.")
               | FloatLengths user_behavior_length =>
                   binop2 "div" Rdiv hist
                     (map2d (fun l => l + eps self) user_behavior_length)
               end
             else Ok hist) ;;
    Ok (expand_dims_1 hist).

(** [base_config] is what the Keras base class reports. *)
Definition get_config (self : t) (base_config : pydict) : pydict :=
  let config := [("mode", mode self);
                 ("supports_masking", PBool (supports_masking self))] in
  dict (items base_config ++ items config).

(** [(None, 1, input_shape[-1])] or [(None, 1, input_shape[0][-1])]. *)
Definition compute_output_shape (self : t) (shape : input_shape)
    : result pyval :=
  if supports_masking self then
    match shape with
    | Shape s =>
        match rev s with
        | d :: _ => Ok (PTuple [PNone; PInt 1; PInt (Z.of_nat d)])
        | [] => Raise (IndexError "tuple index out of range")
        end
    | Shapes l =>
        match rev l with
        | s :: _ => Ok (PTuple [PNone; PInt 1; py_shape s])
        | [] => Raise (IndexError "list index out of range")
        end
    end
  else
    match shape with
    | Shapes l =>
        match l with
        | s :: _ =>
            match rev s with
            | d :: _ => Ok (PTuple [PNone; PInt 1; PInt (Z.of_nat d)])
            | [] => Raise (IndexError "tuple index out of range")
            end
        | [] => Raise (IndexError "list index out of range")
        end
    | Shape s =>
        match s with
        | _ :: _ => Raise (TypeError "object is not subscriptable")
        | [] => Raise (IndexError "tuple index out of range")
        end
    end.

Definition compute_mask (self : t) (i : inputs)
    (mask : option (tensor2 bool)) : option (tensor2 bool) := None.

End SequencePoolingLayer.

(** ** AttentionSequencePoolingLayer *)

(** What the attention layers receive: [[query, keys]] or
    [[query, keys, keys_length]]. *)
Inductive attention_inputs : Type :=
| QueryKeys (queries keys : tensor3 R)
| QueryKeysLength (queries keys : tensor3 R) (keys_length : tensor2 Z).

Module AttentionSequencePoolingLayer.

Import TF.
Open Scope R_scope.

Record t : Type := Build {
  hidden_size : pyval;
  activation : pyval;
  weight_normalization : bool;
  supports_masking : bool
}.

Definition init (hidden_size activation : pyval)
    (weight_normalization supports_masking : bool) : result t :=
  Ok {| hidden_size := hidden_size; activation := activation;
        weight_normalization := weight_normalization;
        supports_masking := supports_masking |}.

Section Call.

(** [LocalActivationUnit(hidden_size, activation, 0, 1, False, 1024)]
    applied to [[queries, keys]]: the scoring network of [.layers]. *)
Variable LocalActivationUnit :
  pyval -> pyval -> tensor3 R -> tensor3 R -> tensor3 R.

(** The statements of [call] up to, and without, the final [tf.matmul]:
    the attention weights, and the keys they are for. *)
Definition attention_weights (self : t) (inputs : attention_inputs)
    (mask : option (list (tensor2 bool)))
    : result (tensor3 R * tensor3 R) :=
  '(queries, keys, key_masks) <-
    (if supports_masking self then
       match mask with
       | None =>
           Raise (ValueError
                    "When supports_masking=True,input must support masking")
       | Some mask =>
           match inputs with
           | QueryKeys queries keys =>
               match rev mask with
               | m :: _ => Ok (queries, keys, expand_dims_1 m)
               | [] => Raise (IndexError "list index out of range")
               end
           | QueryKeysLength _ _ _ =>
               Raise (ValueError "too many values to unpack")
           end
       end
     else
       match inputs with
       | QueryKeysLength queries keys keys_length =>
           let hist_len := dim1 keys in
           Ok (queries, keys, sequence_mask keys_length hist_len)
       | QueryKeys _ _ =>
           Raise (ValueError "not enough values to unpack")
       end) ;;
  let attention_score :=
    LocalActivationUnit (hidden_size self) (activation self) queries keys in
  let outputs := transpose_021 attention_score in
  let paddings :=
    if weight_normalization self then
      scale (ones_like outputs) (- 2 ^ 32 + 1)
    else zeros_like outputs in
  outputs <- where3 key_masks outputs paddings ;;
  let outputs :=
    if weight_normalization self then softmax outputs else outputs in
  Ok (outputs, keys).

Definition call (self : t) (inputs : attention_inputs)
    (mask : option (list (tensor2 bool))) : result (tensor3 R) :=
  '(outputs, keys) <- attention_weights self inputs mask ;;
  matmul outputs keys.

End Call.

Definition get_config (self : t) (base_config : pydict) : pydict :=
  let config := [("hidden_size", hidden_size self);
                 ("activation", activation self);
                 ("weight_normalization", PBool (weight_normalization self));
                 ("supports_masking", PBool (supports_masking self))] in
  dict (items base_config ++ items config).

(** The third check formats its message with [% (input_shape)], a list for
    three [%s]: the formatting itself raises [TypeError] before the
    [ValueError] is built. *)
Definition build (self : t) (shape : input_shape) : result t :=
  if negb (supports_masking self) then
    match shape with
    | Shape _ =>
        Raise (ValueError
                 "A `AttentionSequencePoolingLayer` layer should be called on a list of 3 inputs")
    | Shapes [s0; s1; s2] =>
        if (negb (Nat.eqb (List.length s0) 3)
            || negb (Nat.eqb (List.length s1) 3)
            || negb (Nat.eqb (List.length s2) 2))%bool then
          Raise (ValueError
                   "Unexpected inputs dimensions,the 3 tensor dimensions are %d,%d and %d , expect to be 3,3 and 2")
        else if (negb (Nat.eqb (last s0 O) (last s1 O))
                 || negb (Nat.eqb (nth 1 s0 O) 1)
                 || negb (Nat.eqb (nth 1 s2 O) 1))%bool then
          Raise (TypeError "not enough arguments for format string")
        else Ok self
    | Shapes _ =>
        Raise (ValueError
                 "A `AttentionSequencePoolingLayer` layer should be called on a list of 3 inputs")
    end
  else Ok self.

(** [(None, 1, input_shape[0][-1])]. *)
Definition compute_output_shape (self : t) (shape : input_shape)
    : result pyval :=
  match shape with
  | Shapes l =>
      match l with
      | s :: _ =>
          match rev s with
          | d :: _ => Ok (PTuple [PNone; PInt 1; PInt (Z.of_nat d)])
          | [] => Raise (IndexError "tuple index out of range")
          end
      | [] => Raise (IndexError "list index out of range")
      end
  | Shape s =>
      match s with
      | _ :: _ => Raise (TypeError "object is not subscriptable")
      | [] => Raise (IndexError "tuple index out of range")
      end
  end.

Definition compute_mask (self : t) (inputs : attention_inputs)
    (mask : option (list (tensor2 bool))) : option (tensor2 bool) := None.

End AttentionSequencePoolingLayer.

(** ** BiLSTM *)

Module BiLSTM.

Import TF.
Open Scope R_scope.

Record t : Type := Build {
  units : Z;
  layers : Z;
  res_layers : Z;
  dropout : R;
  merge_mode : pyval;
  fw_lstm : list (tensor3 R -> tensor3 R);
  bw_lstm : list (tensor3 R -> tensor3 R)
}.

(** [call] returns one tensor, or the list of both streams. *)
Inductive output : Type :=
| Merged (x : tensor3 R)
| Both (output_fw output_bw : tensor3 R).

(** [compute_output_shape] returns one shape, or a list of two. *)
Inductive output_shape : Type :=
| OneShape (s : list nat)
| TwoShapes (s1 s2 : list nat).

Definition init (units layers res_layers : Z) (dropout : R)
    (merge_mode : pyval) : result t :=
  if negb (py_in merge_mode
             [PStr "fw"; PStr "bw"; PStr "sum"; PStr "mul"; PStr "ave";
              PStr "concat"; PNone]) then
    Raise (ValueError
             "Invalid merge mode. Merge mode should be one of {fw,bw,sum, mul, ave, concat, None}")
  else
    Ok {| units := units; layers := layers; res_layers := res_layers;
          dropout := dropout; merge_mode := merge_mode;
          fw_lstm := []; bw_lstm := [] |}.

Section Call.

(** [LSTM(units, dropout=dropout, bias_initializer='ones',
    return_sequences=True, go_backwards=..., unroll=True)]: the [i]-th
    recurrent layer [build] creates for a direction, as the function it
    computes on a sequence. *)
Variable LSTM : Z -> R -> bool -> nat -> tensor3 R -> tensor3 R.

Definition build (self : t) (input_shape : list nat) : result t :=
  if negb (Nat.eqb (List.length input_shape) 3) then
    Raise (ValueError
             "Unexpected inputs dimensions, expect to be 3 dimensions")
  else
    let n := seq 0 (Z.to_nat (layers self)) in
    Ok {| units := units self; layers := layers self;
          res_layers := res_layers self; dropout := dropout self;
          merge_mode := merge_mode self;
          fw_lstm := map (LSTM (units self) (dropout self) false) n;
          bw_lstm := map (LSTM (units self) (dropout self) true) n |}.

End Call.

(** The body of the loop [for i in range(self.layers)], over the indices
    still to run. *)
Fixpoint levels (self : t) (range : list nat) (input_fw input_bw : tensor3 R)
    : result (tensor3 R * tensor3 R) :=
  match range with
  | [] => Ok (input_fw, input_bw)
  | i :: range' =>
      match nth_error (fw_lstm self) i, nth_error (bw_lstm self) i with
      | Some fw, Some bw =>
          let output_fw := fw input_fw in
          let output_bw := bw input_bw in
          let output_bw := reverse_1 output_bw in
          '(output_fw, output_bw) <-
            (if Z.geb (Z.of_nat i) (layers self - res_layers self) then
               output_fw <- binop3 "add" Rplus output_fw input_fw ;;
               output_bw <- binop3 "add" Rplus output_bw input_bw ;;
               Ok (output_fw, output_bw)
             else Ok (output_fw, output_bw)) ;;
          levels self range' output_fw output_bw
      | _, _ => Raise (IndexError "list index out of range")
      end
  end.

Definition call (self : t) (inputs : tensor3 R) : result output :=
  let input_fw := inputs in
  let input_bw := inputs in
  '(output_fw, output_bw) <-
    levels self (seq 0 (Z.to_nat (layers self))) input_fw input_bw ;;
  if py_eqb (merge_mode self) (PStr "fw") then
    Ok (Merged output_fw)
  else if py_eqb (merge_mode self) (PStr "bw") then
    Ok (Merged output_bw)
  else if py_eqb (merge_mode self) (PStr "concat") then
    output <- concatenate output_fw output_bw ;;
    Ok (Merged output)
  else if py_eqb (merge_mode self) (PStr "sum") then
    output <- binop3 "add" Rplus output_fw output_bw ;;
    Ok (Merged output)
  else if py_eqb (merge_mode self) (PStr "ave") then
    output <- binop3 "add" Rplus output_fw output_bw ;;
    Ok (Merged (map3d (fun v => v / 2) output))
  else if py_eqb (merge_mode self) (PStr "mul") then
    output <- binop3 "mul" Rmult output_fw output_bw ;;
    Ok (Merged output)
  else
    match merge_mode self with
    | PNone => Ok (Both output_fw output_bw)
    | _ => Raise (UnboundLocalError "output")
    end.

Definition compute_output_shape (self : t) (input_shape : list nat)
    : result output_shape :=
  match merge_mode self with
  | PNone => Ok (TwoShapes input_shape input_shape)
  | _ =>
      if py_eqb (merge_mode self) (PStr "concat") then
        match rev input_shape with
        | d :: _ => Ok (OneShape (removelast input_shape ++ [(d * 2)%nat]))
        | [] => Raise (IndexError "tuple index out of range")
        end
      else Ok (OneShape input_shape)
  end.

Definition compute_mask (self : t) (inputs : tensor3 R)
    (mask : option (tensor2 bool)) : option (tensor2 bool) := mask.

Definition get_config (self : t) (base_config : pydict) : pydict :=
  let config := [("units", PInt (units self));
                 ("layers", PInt (layers self));
                 ("res_layers", PInt (res_layers self));
                 ("dropout", PFloat (dropout self));
                 ("merge_mode", merge_mode self)] in
  dict (items base_config ++ items config).

End BiLSTM.

(** ** AttentionSequencePoolingLayerv2 *)

Module AttentionSequencePoolingLayerv2.

Import TF.
Open Scope R_scope.

Record t : Type := Build {
  hidden_size : pyval;
  activation : pyval;
  weight_normalization : bool;
  sim_type : pyval
}.

Definition init (hidden_size activation : pyval)
    (weight_normalization : bool) (sim_type : pyval) : result t :=
  Ok {| hidden_size := hidden_size; activation := activation;
        weight_normalization := weight_normalization;
        sim_type := sim_type |}.

(** Every check of [build] is commented out in the source. *)
Definition build (self : t) (shape : input_shape) : result t := Ok self.

(** The nested function [cosine_distance] of [call]. *)
Definition cosine_distance (x y : tensor3 R) : result (tensor3 R) :=
  let x := l2_normalize x in
  let y := l2_normalize y in
  xy <- binop3 "mul" Rmult x y ;;
  mean_last_keep xy.

Section Call.

Variable LocalActivationUnit :
  pyval -> pyval -> tensor3 R -> tensor3 R -> tensor3 R.

(** The local variable [attention_score] after the [if]/[elif] chain on
    [sim_type]: [None] when no branch has assigned it.
    [NaiveActivationUnit] is neither imported nor defined in the module. *)
Definition similarity (self : t) (queries keys : tensor3 R)
    : result (option (tensor3 R)) :=
  if py_eqb (sim_type self) (PStr "nn") then
    Ok (Some (LocalActivationUnit (hidden_size self) (activation self)
                queries keys))
  else if py_eqb (sim_type self) (PStr "mat") then
    Raise (NameError "NaiveActivationUnit")
  else if py_eqb (sim_type self) (PStr "cos") then
    let keys_len := dim1 keys in
    let queries := repeat_elements_1 queries keys_len in
    attention_score <- cosine_distance queries keys ;;
    Ok (Some attention_score)
  else Ok None.

Definition call (self : t) (inputs : attention_inputs)
    : result (tensor3 R) :=
  match inputs with
  | QueryKeys _ _ => Raise (ValueError "not enough values to unpack")
  | QueryKeysLength queries keys keys_length =>
      let hist_len := dim1 keys in
      attention_score <- similarity self queries keys ;;
      attention_score <-
        match attention_score with
        | Some attention_score => Ok (transpose_021 attention_score)
        | None => Raise (UnboundLocalError "attention_score")
        end ;;
      let key_masks := sequence_mask keys_length hist_len in
      let paddings :=
        if weight_normalization self then
          scale (ones_like attention_score) (- 2 ^ 32 + 1)
        else zeros_like attention_score in
      attention_score <- where3 key_masks attention_score paddings ;;
      attention_score <- div_scalar attention_score (sqrt (INR (dim2 keys))) ;;
      let attention_score :=
        if weight_normalization self then softmax attention_score
        else attention_score in
      Ok attention_score
  end.

End Call.

Definition compute_output_shape (self : t) (shapes : list (list nat))
    : result (option nat * nat * nat) :=
  match nth_error shapes 1 with
  | Some s =>
      match nth_error s 1 with
      | Some n => Ok (None, 1%nat, n)
      | None => Raise (IndexError "tuple index out of range")
      end
  | None => Raise (IndexError "list index out of range")
  end.

Definition get_config (self : t) (base_config : pydict) : pydict :=
  let config := [("hidden_size", hidden_size self);
                 ("activation", activation self);
                 ("weight_normalization", PBool (weight_normalization self))] in
  dict (items base_config ++ items config).

End AttentionSequencePoolingLayerv2.

(** ** Concrete inputs *)

Module Examples.

Open Scope R_scope.

(** One batch row, three time steps, embedding width two; the last time
    step is padding. *)
Definition seq_1x3x2 : tensor3 R := of_list3 0 [[[1; 2]; [3; 4]; [9; 9]]].
Definition len_2 : tensor2 Z := of_list2 0%Z [[2%Z]].
Definition len_2_float : tensor2 R := of_list2 0 [[2]].
Definition mask_110 : tensor2 bool := of_list2 false [[true; true; false]].

Definition pooling (mode : string) (supports_masking : bool)
    (seq_len_max : option nat) : SequencePoolingLayer.t :=
  {| SequencePoolingLayer.mode := PStr mode;
     SequencePoolingLayer.eps := / 100000000;
     SequencePoolingLayer.supports_masking := supports_masking;
     SequencePoolingLayer.seq_len_max := seq_len_max |}.

(** One batch row: a query, two keys (the query itself and a key
    orthogonal to it), and key lengths. *)
Definition query_10 : tensor3 R := of_list3 0 [[[1; 0]]].
Definition keys_10_01 : tensor3 R := of_list3 0 [[[1; 0]; [0; 1]]].
Definition len_1 : tensor2 Z := of_list2 0%Z [[1%Z]].
Definition keys_1 : tensor3 R := of_list3 0 [[[1]]].
Definition len_0 : tensor2 Z := of_list2 0%Z [[0%Z]].

(** A scoring network: the first coordinate of each key. *)
Definition first_coordinate_score (hidden_size activation : pyval)
    (queries keys : tensor3 R) : tensor3 R :=
  T3 (dim0 keys) (dim1 keys) 1 (fun b t _ => at3 keys b t 0).

(** A recurrent layer that answers a constant, with [units] features. *)
Definition constant_lstm (units : Z) (dropout : R) (go_backwards : bool)
    (i : nat) (x : tensor3 R) : tensor3 R :=
  T3 (dim0 x) (dim1 x) (Z.to_nat units)
     (fun _ _ _ => if go_backwards then 2 else 1).

(** What the Keras base class [Layer.get_config] reports for a layer. *)
Definition keras_base_config : pydict :=
  [("name", PStr "attention_sequence_pooling_layerv2");
   ("trainable", PBool true)].

End Examples.

(** * Properties *)

(** ** Sums, maxima and broadcasting *)

Section Reductions.

Import TF.
Open Scope R_scope.

Lemma sum_upto_ext (f g : nat -> R) (n : nat) :
  (forall t, (t < n)%nat -> f t = g t) -> sum_upto f n = sum_upto g n.
Proof.
  induction n as [|n IH]; intros Hfg; simpl.
  - reflexivity.
  - rewrite IH by (intros t Ht; apply Hfg; lia).
    rewrite (Hfg n) by lia. reflexivity.
Qed.

Lemma sum_upto_zero (f : nat -> R) (n : nat) :
  (forall t, (t < n)%nat -> f t = 0) -> sum_upto f n = 0.
Proof.
  induction n as [|n IH]; intros Hf; simpl.
  - reflexivity.
  - rewrite IH by (intros t Ht; apply Hf; lia).
    rewrite (Hf n) by lia. lra.
Qed.

(** A sum whose terms vanish from [m] on stops at [m]. *)
Lemma sum_upto_cut (f : nat -> R) (m n : nat) :
  (m <= n)%nat ->
  (forall t, (m <= t < n)%nat -> f t = 0) ->
  sum_upto f n = sum_upto f m.
Proof.
  intros Hmn. induction Hmn as [|n Hmn IH]; intros Hz.
  - reflexivity.
  - simpl. rewrite IH by (intros t Ht; apply Hz; lia).
    rewrite (Hz n) by lia. lra.
Qed.

Lemma bdim_same (a : nat) : bdim a a = Some a.
Proof. unfold bdim. rewrite Nat.eqb_refl. reflexivity. Qed.

Lemma bix_lt (d i : nat) : (i < d)%nat -> bix d i = i.
Proof.
  unfold bix. destruct (Nat.eqb_spec d 1); intros; [lia | reflexivity].
Qed.

End Reductions.

(** ** SequencePoolingLayer: sum, mean and max pooling *)

Section Pooling.
Import TF SequencePoolingLayer.
Open Scope R_scope.

Lemma binop3_same {A B C} (op : string) (f : A -> B -> C)
    (x : tensor3 A) (y : tensor3 B) :
  dim0 y = dim0 x -> dim1 y = dim1 x -> dim2 y = dim2 x ->
  exists h,
    binop3 op f x y = Ok h /\
    shape3 h = shape3 x /\
    forall i j k, (i < dim0 x)%nat -> (j < dim1 x)%nat -> (k < dim2 x)%nat ->
      at3 h i j k = f (at3 x i j k) (at3 y i j k).
Proof.
  intros H0 H1 H2. unfold binop3. rewrite H0, H1, H2, !bdim_same.
  eexists. split; [reflexivity|]. split; [reflexivity|].
  intros i j k Hi Hj Hk. simpl. rewrite !bix_lt by assumption. reflexivity.
Qed.

(** The length mask of the explicit-length mode, applied to the sequence. *)
Lemma explicit_masked (seq : tensor3 R) (len : tensor2 Z) :
  rows2 len = dim0 seq -> cols2 len = 1%nat ->
  exists h,
    binop3 "mul" Rmult seq
      (tile_last
         (transpose_021 (map3d to_float (sequence_mask len (dim1 seq))))
         (dim2 seq)) = Ok h /\
    shape3 h = shape3 seq /\
    forall b t e, (b < dim0 seq)%nat -> (t < dim1 seq)%nat ->
      (e < dim2 seq)%nat ->
      at3 h b t e
      = at3 seq b t e * to_float (Z.ltb (Z.of_nat t) (at2 len b 0)).
Proof.
  intros Hr Hc.
  destruct (binop3_same "mul" Rmult seq
              (tile_last
                 (transpose_021
                    (map3d to_float (sequence_mask len (dim1 seq))))
                 (dim2 seq))) as (h & Hh & Hs & Hat).
  - simpl. exact Hr.
  - simpl. reflexivity.
  - simpl. rewrite Hc. lia.
  - exists h. split; [exact Hh|]. split; [exact Hs|].
    intros b t e Hb Ht He. rewrite Hat by assumption. simpl.
    rewrite Hc. reflexivity.
Qed.

Lemma masked_sum (f : nat -> R) (len : Z) (n : nat) :
  (0 <= len <= Z.of_nat n)%Z ->
  sum_upto (fun t => f t * to_float (Z.ltb (Z.of_nat t) len)) n
  = sum_upto f (Z.to_nat len).
Proof.
  intros Hlen.
  rewrite (sum_upto_cut _ (Z.to_nat len) n).
  - apply sum_upto_ext. intros t Ht.
    destruct (Z.ltb_spec (Z.of_nat t) len); simpl; [lra | lia].
  - lia.
  - intros t Ht.
    destruct (Z.ltb_spec (Z.of_nat t) len); simpl; [lia | lra].
Qed.

(** C1. In explicit-length mode with [mode = "sum"], the layer built on the
    shapes of [seq] and [len] returns a tensor of shape
    [(batch, 1, embedding_dim)] whose row [b], for a length in
    [[0, max_length]], is the sum of the first [len b] time positions of
    [seq]; a second sequence tensor that agrees with [seq] on the valid
    positions of row [b], whatever it holds at the padded ones, gives the
    same row. *)
Theorem sum_pooling_explicit_length
    (l0 l : SequencePoolingLayer.t) (seq : tensor3 R) (len : tensor2 Z) :
  init (PStr "sum") false = Ok l0 ->
  build l0 (Shapes [[dim0 seq; dim1 seq; dim2 seq]; [rows2 len; cols2 len]])
    = Ok l ->
  rows2 len = dim0 seq -> cols2 len = 1%nat ->
  exists out,
    call l (SeqLen seq len) None = Ok out /\
    shape3 out = (dim0 seq, 1%nat, dim2 seq) /\
    (forall b e, (b < dim0 seq)%nat -> (e < dim2 seq)%nat ->
       (0 <= at2 len b 0 <= Z.of_nat (dim1 seq))%Z ->
       at3 out b 0 e
       = sum_upto (fun t => at3 seq b t e) (Z.to_nat (at2 len b 0))) /\
    (forall seq' b,
       shape3 seq' = shape3 seq -> (b < dim0 seq)%nat ->
       (0 <= at2 len b 0 <= Z.of_nat (dim1 seq))%Z ->
       (forall t e, (t < Z.to_nat (at2 len b 0))%nat -> (e < dim2 seq)%nat ->
          at3 seq' b t e = at3 seq b t e) ->
       exists out',
         call l (SeqLen seq' len) None = Ok out' /\
         shape3 out' = shape3 out /\
         forall e, (e < dim2 seq)%nat -> at3 out' b 0 e = at3 out b 0 e).
Proof.
  intros Hi Hb Hr Hc.
  unfold init in Hi. simpl in Hi. injection Hi as <-.
  unfold build in Hb. simpl in Hb. injection Hb as <-.
  assert (Hcall : forall s : tensor3 R,
    shape3 s = shape3 seq ->
    exists out,
      call {| mode := PStr "sum"; eps := / 100000000;
              supports_masking := false; seq_len_max := Some (dim1 seq) |}
           (SeqLen s len) None = Ok out /\
      shape3 out = (dim0 seq, 1%nat, dim2 seq) /\
      forall b e, (b < dim0 seq)%nat -> (e < dim2 seq)%nat ->
        (0 <= at2 len b 0 <= Z.of_nat (dim1 seq))%Z ->
        at3 out b 0 e
        = sum_upto (fun t => at3 s b t e) (Z.to_nat (at2 len b 0))).
  { intros s Hs. unfold shape3 in Hs. injection Hs as Hs0 Hs1 Hs2.
    destruct (explicit_masked s len) as (h & Hh & Hsh & Hat);
      [congruence | assumption |].
    unfold shape3 in Hsh. injection Hsh as Hh0 Hh1 Hh2.
    unfold call. simpl. rewrite <- Hs1, Hh. simpl.
    eexists. split; [reflexivity|]. split.
    - unfold shape3. simpl. congruence.
    - intros b e Hb He Hlen. simpl. rewrite Hh1.
      rewrite <- (masked_sum (fun t => at3 s b t e) (at2 len b 0) (dim1 s))
        by lia.
      apply sum_upto_ext. intros t Ht. apply Hat; lia. }
  destruct (Hcall seq eq_refl) as (out & Hout & Hshape & Hval).
  exists out. split; [exact Hout|]. split; [exact Hshape|].
  split; [exact Hval|].
  intros seq' b Hs' Hb Hlen Hagree.
  destruct (Hcall seq' Hs') as (out' & Hout' & Hshape' & Hval').
  exists out'. split; [exact Hout'|]. split; [congruence|].
  intros e He. rewrite Hval', Hval by assumption.
  apply sum_upto_ext. intros t Ht. apply Hagree; assumption.
Qed.

Lemma bdim_1_r (a : nat) : bdim a 1 = Some a.
Proof.
  unfold bdim. destruct (Nat.eqb_spec a 1) as [->|Ha]; reflexivity.
Qed.

(** The upstream mask of the masking mode, applied to the sequence. *)
Lemma upstream_masked (seq : tensor3 R) (m : tensor2 bool) :
  rows2 m = dim0 seq -> cols2 m = dim1 seq ->
  exists h,
    binop3 "mul" Rmult seq
      (tile_last (expand_dims_2 (map2d to_float m)) (dim2 seq)) = Ok h /\
    shape3 h = shape3 seq /\
    forall b t e, (b < dim0 seq)%nat -> (t < dim1 seq)%nat ->
      (e < dim2 seq)%nat ->
      at3 h b t e = at3 seq b t e * to_float (at2 m b t).
Proof.
  intros Hr Hc.
  destruct (binop3_same "mul" Rmult seq
              (tile_last (expand_dims_2 (map2d to_float m)) (dim2 seq)))
    as (h & Hh & Hs & Hat).
  - simpl. exact Hr.
  - simpl. exact Hc.
  - simpl. lia.
  - exists h. split; [exact Hh|]. split; [exact Hs|].
    intros b t e Hb Ht He. rewrite Hat by assumption. reflexivity.
Qed.

(** [length + 1e-8] is never zero for an integer length. *)
Lemma length_plus_eps_nonzero (z : Z) : IZR z + / 100000000 <> 0.
Proof.
  destruct (Z_lt_le_dec z 0) as [Hneg|Hpos].
  - assert (IZR z <= -1) by (apply IZR_le; lia). lra.
  - assert (0 <= IZR z) by (apply IZR_le; lia). lra.
Qed.



(** The conversion to [int32] of a float that holds a whole number. *)
Lemma cast_int32_IZR (n : Z) : cast_int32 (IZR n) = n.
Proof.
  unfold cast_int32. destruct (Rle_dec 0 (IZR n)) as [Hpos|Hneg].
  - symmetry. apply Int_part_spec. lra.
  - rewrite <- opp_IZR. rewrite <- (Int_part_spec (IZR (- n)) (- n)%Z) by lra.
    lia.
Qed.

(** The length mask of the explicit-length mode for a float length tensor,
    applied to the sequence. *)
Lemma explicit_masked_float (seq : tensor3 R) (len : tensor2 R) :
  rows2 len = dim0 seq -> cols2 len = 1%nat ->
  exists h,
    binop3 "mul" Rmult seq
      (tile_last
         (transpose_021
            (map3d to_float
               (sequence_mask (map2d cast_int32 len) (dim1 seq))))
         (dim2 seq)) = Ok h /\
    shape3 h = shape3 seq /\
    forall b t e, (b < dim0 seq)%nat -> (t < dim1 seq)%nat ->
      (e < dim2 seq)%nat ->
      at3 h b t e
      = at3 seq b t e
        * to_float (Z.ltb (Z.of_nat t) (cast_int32 (at2 len b 0))).
Proof.
  intros Hr Hc.
  exact (explicit_masked seq (map2d cast_int32 len) Hr Hc).
Qed.


Lemma max_to_upper (f : nat -> R) (n t : nat) :
  (t <= n)%nat -> f t <= max_to f n.
Proof.
  induction n as [|n IH]; intros Ht; simpl.
  - replace t with O by lia. lra.
  - destruct (Nat.eq_dec t (S n)) as [->|Hne].
    + apply Rmax_r.
    + apply Rle_trans with (max_to f n); [apply IH; lia | apply Rmax_l].
Qed.

Lemma max_to_attained (f : nat -> R) (n : nat) :
  exists t, (t <= n)%nat /\ max_to f n = f t.
Proof.
  induction n as [|n (t & Ht & IH)]; simpl.
  - exists O. split; [lia | reflexivity].
  - destruct (Rle_dec (max_to f n) (f (S n))) as [Hm|Hm];
      [rewrite Rmax_right by exact Hm | rewrite Rmax_left by lra].
    2: { exists t. split; [lia | exact IH]. }
    exists (S n). split; [lia | reflexivity].
Qed.

Lemma max_to_ext (f g : nat -> R) (n : nat) :
  (forall t, (t <= n)%nat -> f t = g t) -> max_to f n = max_to g n.
Proof.
  induction n as [|n IH]; intros Hfg; simpl.
  - apply Hfg. lia.
  - rewrite IH by (intros t Ht; apply Hfg; lia).
    rewrite (Hfg (S n)) by lia. reflexivity.
Qed.

(** C7. With [mode = "max"] the layer returns, per row, the elementwise
    maximum over the time axis of the sequence with its invalid positions
    zeroed, with a singleton time dimension (explicit-length mode, first
    part; masking mode, second part).  So when a row has at least one valid
    position and all its valid values are strictly positive, the maximum
    is one of the valid values and bounds them all; when all valid values
    are the same, and that value is not negative or the row has no
    padding, the output is that value; and (third part) a zeroed padded
    position outranks a negative valid value. *)
Theorem max_pooling
    (l0 l m0 lm : SequencePoolingLayer.t) (seq : tensor3 R)
    (len : tensor2 Z) (mask : tensor2 bool) :
  init (PStr "max") false = Ok l0 ->
  build l0 (Shapes [[dim0 seq; dim1 seq; dim2 seq]; [rows2 len; cols2 len]])
    = Ok l ->
  init (PStr "max") true = Ok m0 ->
  build m0 (Shape [dim0 seq; dim1 seq; dim2 seq]) = Ok lm ->
  rows2 len = dim0 seq -> cols2 len = 1%nat ->
  rows2 mask = dim0 seq -> cols2 mask = dim1 seq ->
  (1 <= dim1 seq)%nat ->
  (exists out,
     call l (SeqLen seq len) None = Ok out /\
     shape3 out = (dim0 seq, 1%nat, dim2 seq) /\
     forall b e, (b < dim0 seq)%nat -> (e < dim2 seq)%nat ->
       let masked t :=
         at3 seq b t e * to_float (Z.ltb (Z.of_nat t) (at2 len b 0)) in
       let valid t := (Z.of_nat t < at2 len b 0)%Z in
       (forall t, (t < dim1 seq)%nat -> masked t <= at3 out b 0 e) /\
       (exists t, (t < dim1 seq)%nat /\ at3 out b 0 e = masked t) /\
       ((1 <= at2 len b 0 <= Z.of_nat (dim1 seq))%Z ->
        (forall t, valid t -> 0 < at3 seq b t e) ->
        (forall t, valid t -> at3 seq b t e <= at3 out b 0 e) /\
        (exists t, valid t /\ at3 out b 0 e = at3 seq b t e)) /\
       (forall v,
          (1 <= at2 len b 0 <= Z.of_nat (dim1 seq))%Z ->
          (forall t, valid t -> at3 seq b t e = v) ->
          0 <= v \/ at2 len b 0 = Z.of_nat (dim1 seq) ->
          at3 out b 0 e = v)) /\
  (exists out,
     call lm (Seq seq) (Some mask) = Ok out /\
     shape3 out = (dim0 seq, 1%nat, dim2 seq) /\
     forall b e, (b < dim0 seq)%nat -> (e < dim2 seq)%nat ->
       let masked t := at3 seq b t e * to_float (at2 mask b t) in
       (forall t, (t < dim1 seq)%nat -> masked t <= at3 out b 0 e) /\
       (exists t, (t < dim1 seq)%nat /\ at3 out b 0 e = masked t)) /\
  (exists (s : tensor3 R) (n : tensor2 Z) (out : tensor3 R),
     call {| mode := PStr "max"; eps := / 100000000;
             supports_masking := false; seq_len_max := Some (dim1 s) |}
          (SeqLen s n) None = Ok out /\
     shape3 s = (1%nat, 2%nat, 1%nat) /\ at2 n 0 0 = 1%Z /\
     at3 s 0 0 0 = -1 /\ at3 out 0 0 0 = 0).
Proof.
  intros Hi Hb Hi' Hb' Hr Hc Hmr Hmc HT.
  unfold init in Hi, Hi'. simpl in Hi, Hi'.
  injection Hi as <-. injection Hi' as <-.
  unfold build in Hb, Hb'. simpl in Hb, Hb'.
  injection Hb as <-. injection Hb' as <-.
  destruct (dim1 seq) as [|T] eqn:HdT; [lia|].
  split; [|split].
  - destruct (explicit_masked seq len Hr Hc) as (h & Hh & Hsh & Hat).
    unfold shape3 in Hsh. injection Hsh as Hh0 Hh1 Hh2.
    rewrite HdT in Hh, Hh1, Hat.
    unfold call. simpl. rewrite Hh. simpl.
    unfold reduce_max_1_keep. rewrite Hh1.
    eexists. split; [reflexivity|]. split; [unfold shape3; simpl; congruence|].
    intros b e Hb He. simpl.
    pose (masked := fun t : nat =>
            at3 seq b t e * to_float (Z.ltb (Z.of_nat t) (at2 len b 0))).
    pose (valid := fun t : nat => (Z.of_nat t < at2 len b 0)%Z).
    assert (Hmax : max_to (fun j => at3 h b j e) T = max_to masked T).
    { apply max_to_ext. intros t Ht. apply Hat; [assumption | lia | assumption]. }
    rewrite Hmax.
    assert (Hupper : forall t, (t < S T)%nat -> masked t <= max_to masked T).
    { intros t Ht. apply max_to_upper. lia. }
    assert (Hatt : exists t, (t < S T)%nat /\ max_to masked T = masked t).
    { destruct (max_to_attained masked T) as (t & Ht & Heq).
      exists t. split; [lia | exact Heq]. }
    assert (Hvalid : forall t, valid t -> masked t = at3 seq b t e).
    { intros t Hv. unfold masked, valid in *.
      destruct (Z.ltb_spec (Z.of_nat t) (at2 len b 0)); simpl; [lra | lia]. }
    assert (Hinvalid : forall t, ~ valid t -> masked t = 0).
    { intros t Hv. unfold masked, valid in *.
      destruct (Z.ltb_spec (Z.of_nat t) (at2 len b 0)); simpl; [lia | lra]. }
    split; [exact Hupper|]. split; [exact Hatt|]. split.
    + intros Hlen Hpos. split.
      * intros t Hv. rewrite <- (Hvalid t Hv). apply Hupper.
        unfold valid in Hv. lia.
      * destruct Hatt as (t & Ht & Heq).
        destruct (Z_lt_le_dec (Z.of_nat t) (at2 len b 0)) as [Hv|Hnv].
        -- exists t. split; [exact Hv|]. rewrite Heq. apply Hvalid. exact Hv.
        -- exfalso.
           assert (Hv0 : valid O) by (unfold valid; lia).
           pose proof (Hupper O ltac:(lia)) as Hu.
           rewrite (Hvalid O Hv0) in Hu. pose proof (Hpos O Hv0).
           rewrite Heq, (Hinvalid t) in Hu by (unfold valid; lia). lra.
    + intros v Hlen Hsame Hv.
      destruct Hatt as (t & Ht & Heq).
      destruct (Z_lt_le_dec (Z.of_nat t) (at2 len b 0)) as [Hval|Hnv].
      * rewrite Heq, (Hvalid t Hval). apply Hsame. exact Hval.
      * assert (Hv0 : valid O) by (unfold valid; lia).
        pose proof (Hupper O ltac:(lia)) as Hu.
        rewrite (Hvalid O Hv0), (Hsame O Hv0) in Hu.
        destruct Hv as [Hv|Hv]; [|lia].
        rewrite Heq, (Hinvalid t) in * by (unfold valid; lia). lra.
  - destruct (upstream_masked seq mask Hmr) as (h & Hh & Hsh & Hat);
      [congruence|].
    unfold shape3 in Hsh. injection Hsh as Hh0 Hh1 Hh2.
    rewrite HdT in Hh1, Hat.
    unfold call. simpl. rewrite Hh. simpl.
    unfold reduce_max_1_keep. rewrite Hh1.
    eexists. split; [reflexivity|]. split; [unfold shape3; simpl; congruence|].
    intros b e Hb He. simpl.
    pose (masked := fun t : nat => at3 seq b t e * to_float (at2 mask b t)).
    assert (Hmax : max_to (fun j => at3 h b j e) T = max_to masked T).
    { apply max_to_ext. intros t Ht. apply Hat; [assumption | lia | assumption]. }
    rewrite Hmax. split.
    + intros t Ht. apply (max_to_upper masked). lia.
    + destruct (max_to_attained masked T) as (t & Ht & Heq).
      exists t. split; [lia | exact Heq].
  - exists (of_list3 0 [[[-1]; [-5]]]), (of_list2 0%Z [[1%Z]]).
    eexists. split; [reflexivity|]. split; [reflexivity|].
    split; [reflexivity|]. split; [reflexivity|].
    simpl. unfold bix. simpl. rewrite Rmult_1_r, Rmult_0_r.
    apply Rmax_right. lra.
Qed.

Lemma sum_pooling_explicit_length_witness :
  exists out,
    call (Examples.pooling "sum" false (Some 3%nat))
         (SeqLen Examples.seq_1x3x2 Examples.len_2) None = Ok out /\
    shape3 out = (1%nat, 1%nat, 2%nat) /\
    at3 out 0 0 0 = 4 /\ at3 out 0 0 1 = 6.
Proof.
  destruct (sum_pooling_explicit_length
              (Examples.pooling "sum" false None)
              (Examples.pooling "sum" false (Some 3%nat))
              Examples.seq_1x3x2 Examples.len_2
              eq_refl eq_refl eq_refl eq_refl)
    as (out & Hcall & Hshape & Hval & _).
  exists out. split; [exact Hcall|]. split; [exact Hshape|].
  rewrite (Hval 0%nat 0%nat), (Hval 0%nat 1%nat)
    by (simpl; lia).
  simpl. split; lra.
Defined.



Lemma max_pooling_witness :
  (exists out,
     call (Examples.pooling "max" false (Some 3%nat))
          (SeqLen Examples.seq_1x3x2 Examples.len_2) None = Ok out /\
     exists t, (Z.of_nat t < 2)%Z /\
               at3 out 0 0 0 = at3 Examples.seq_1x3x2 0 t 0) /\
  (exists out,
     call (Examples.pooling "max" true None)
          (Seq Examples.seq_1x3x2) (Some Examples.mask_110) = Ok out /\
     2 <= at3 out 0 0 1).
Proof.
  destruct (max_pooling
              (Examples.pooling "max" false None)
              (Examples.pooling "max" false (Some 3%nat))
              (Examples.pooling "max" true None)
              (Examples.pooling "max" true None)
              Examples.seq_1x3x2 Examples.len_2 Examples.mask_110
              eq_refl eq_refl eq_refl eq_refl
              eq_refl eq_refl eq_refl eq_refl)
    as ((out & Hcall & _ & Hval) & (out' & Hcall' & _ & Hval') & _).
  { simpl. lia. }
  split.
  - exists out. split; [exact Hcall|].
    destruct (Hval 0%nat 0%nat) as (_ & _ & Hpos & _); [simpl; lia ..|].
    destruct Hpos as (_ & Hatt).
    + simpl. lia.
    + intros t Ht. simpl in Ht.
      assert (Hcases : t = 0%nat \/ t = 1%nat) by lia.
      destruct Hcases as [-> | ->]; simpl; lra.
    + exact Hatt.
  - exists out'. split; [exact Hcall'|].
    destruct (Hval' 0%nat 1%nat) as (Hup & _); [simpl; lia ..|].
    specialize (Hup 0%nat ltac:(simpl; lia)). simpl in Hup. lra.
Defined.

End Pooling.

(** ** Constructors and configuration *)

Section Construction.

Lemma py_eqb_str (v : pyval) (s : string) :
  py_eqb v (PStr s) = true <-> v = PStr s.
Proof.
  destruct v; simpl; split; intros H; try discriminate H.
  - apply String.eqb_eq in H. congruence.
  - injection H as ->. apply String.eqb_refl.
Qed.

Lemma py_eqb_none (v : pyval) : py_eqb v PNone = true <-> v = PNone.
Proof.
  destruct v; simpl; split; intros H; try discriminate H; reflexivity.
Qed.

(** Membership in a list of string and [None] literals is Python's [in]. *)
Lemma py_in_literals (v : pyval) (l : list pyval) :
  (forall w, In w l -> w = PNone \/ exists s, w = PStr s) ->
  py_in v l = true <-> In v l.
Proof.
  intros Hl. unfold py_in. rewrite existsb_exists. split.
  - intros (w & Hw & Heq).
    destruct (Hl w Hw) as [-> | (s & ->)].
    + apply py_eqb_none in Heq. congruence.
    + apply py_eqb_str in Heq. congruence.
  - intros Hv. exists v. split; [exact Hv|].
    destruct (Hl v Hv) as [-> | (s & ->)].
    + reflexivity.
    + apply py_eqb_str. reflexivity.
Qed.

Ltac literals :=
  let w := fresh "w" in
  let H := fresh "H" in
  intros w H; simpl in H;
  repeat (destruct H as [<- | H]; [solve [auto | right; eexists; reflexivity]|]);
  contradiction.

(** C9. [SequencePoolingLayer] is constructed exactly for a mode among
    [sum], [mean] and [max], and [BiLSTM] exactly for a merge mode among
    [fw], [bw], [sum], [mul], [ave], [concat] and [None]; every other value
    makes the constructor raise [ValueError]. *)
Theorem constructors_validate_options :
  (forall (mode : pyval) (supports_masking : bool),
     let modes := [PStr "sum"; PStr "mean"; PStr "max"] in
     (In mode modes ->
      exists l, SequencePoolingLayer.init mode supports_masking = Ok l /\
                SequencePoolingLayer.mode l = mode) /\
     (~ In mode modes ->
      exists msg,
        SequencePoolingLayer.init mode supports_masking
        = Raise (ValueError msg))) /\
  (forall (units layers res_layers : Z) (dropout : R) (merge_mode : pyval),
     let modes := [PStr "fw"; PStr "bw"; PStr "sum"; PStr "mul"; PStr "ave";
                   PStr "concat"; PNone] in
     (In merge_mode modes ->
      exists l, BiLSTM.init units layers res_layers dropout merge_mode = Ok l /\
                BiLSTM.merge_mode l = merge_mode) /\
     (~ In merge_mode modes ->
      exists msg,
        BiLSTM.init units layers res_layers dropout merge_mode
        = Raise (ValueError msg))).
Proof.
  split.
  - intros mode sm modes.
    assert (Hin : py_in mode modes = true <-> In mode modes)
      by (apply py_in_literals; literals).
    unfold SequencePoolingLayer.init. fold modes.
    destruct (py_in mode modes) eqn:Hm; simpl; split.
    + intros _. eexists. split; reflexivity.
    + intros Hn. exfalso. apply Hn, Hin. reflexivity.
    + intros Hi. apply Hin in Hi. discriminate Hi.
    + intros _. eexists. reflexivity.
  - intros units layers res_layers dropout merge_mode modes.
    assert (Hin : py_in merge_mode modes = true <-> In merge_mode modes)
      by (apply py_in_literals; literals).
    unfold BiLSTM.init. fold modes.
    destruct (py_in merge_mode modes) eqn:Hm; simpl; split.
    + intros _. eexists. split; reflexivity.
    + intros Hn. exfalso. apply Hn, Hin. reflexivity.
    + intros Hi. apply Hin in Hi. discriminate Hi.
    + intros _. eexists. reflexivity.
Qed.

Lemma constructors_validate_options_witness :
  (exists l, SequencePoolingLayer.init (PStr "max") false = Ok l) /\
  (exists msg, SequencePoolingLayer.init (PStr "min") false
               = Raise (ValueError msg)) /\
  (exists l, BiLSTM.init 8 2 0 (2 / 10) PNone = Ok l) /\
  (exists msg, BiLSTM.init 8 2 0 (2 / 10) (PStr "none")
               = Raise (ValueError msg)).
Proof.
  destruct constructors_validate_options as (Hs & Hb).
  destruct (Hs (PStr "max") false) as (Hok & _).
  destruct (Hs (PStr "min") false) as (_ & Hbad).
  destruct (Hb 8%Z 2%Z 0%Z (2 / 10)%R PNone) as (Hok' & _).
  destruct (Hb 8%Z 2%Z 0%Z (2 / 10)%R (PStr "none")) as (_ & Hbad').
  split; [|split; [|split]].
  - destruct Hok as (l & Hl & _); [simpl; auto|]. exists l. exact Hl.
  - apply Hbad. simpl. intros [H|[H|[H|[]]]]; discriminate H.
  - destruct Hok' as (l & Hl & _); [simpl; tauto|]. exists l. exact Hl.
  - apply Hbad'. simpl.
    intros [H|[H|[H|[H|[H|[H|[H|[]]]]]]]]; discriminate H.
Defined.

(** Reading a dictionary built from a list of pairs finds the last pair
    with that key. *)
Lemma dict_get_set (k k' : string) (v : pyval) (d : pydict) :
  dict_get k (dict_set k' v d)
  = if String.eqb k k' then Some v else dict_get k d.
Proof.
  induction d as [|[k0 v0] d IH]; simpl.
  - reflexivity.
  - destruct (String.eqb_spec k' k0) as [->|Hne]; simpl.
    + destruct (String.eqb k k0); reflexivity.
    + rewrite IH. destruct (String.eqb_spec k k0) as [->|Hne'].
      * destruct (String.eqb_spec k0 k'); [congruence | reflexivity].
      * reflexivity.
Qed.

Lemma dict_get_fold (k : string) (l : list (string * pyval)) (d : pydict) :
  dict_get k (fold_left (fun d kv => dict_set (fst kv) (snd kv) d) l d)
  = fold_left (fun acc kv => if String.eqb k (fst kv) then Some (snd kv)
                             else acc) l (dict_get k d).
Proof.
  revert d. induction l as [|[k0 v0] l IH]; intros d; simpl.
  - reflexivity.
  - rewrite IH, dict_get_set. reflexivity.
Qed.

Lemma dict_get_dict_app (k : string) (base config : list (string * pyval)) :
  dict_get k (dict (base ++ config))
  = fold_left (fun acc kv => if String.eqb k (fst kv) then Some (snd kv)
                             else acc) config (dict_get k (dict base)).
Proof.
  unfold dict. rewrite fold_left_app, dict_get_fold. reflexivity.
Qed.

(** The three layers whose [get_config] lists every constructor argument
    give each of them back, whatever the base class adds. *)
Lemma get_config_round_trip (base_config : pydict) :
  (forall mode supports_masking l,
     SequencePoolingLayer.init mode supports_masking = Ok l ->
     let c := SequencePoolingLayer.get_config l base_config in
     dict_get "mode" c = Some mode /\
     dict_get "supports_masking" c = Some (PBool supports_masking)) /\
  (forall hidden_size activation weight_normalization supports_masking l,
     AttentionSequencePoolingLayer.init hidden_size activation
       weight_normalization supports_masking = Ok l ->
     let c := AttentionSequencePoolingLayer.get_config l base_config in
     dict_get "hidden_size" c = Some hidden_size /\
     dict_get "activation" c = Some activation /\
     dict_get "weight_normalization" c = Some (PBool weight_normalization) /\
     dict_get "supports_masking" c = Some (PBool supports_masking)) /\
  (forall units layers res_layers dropout merge_mode l,
     BiLSTM.init units layers res_layers dropout merge_mode = Ok l ->
     let c := BiLSTM.get_config l base_config in
     dict_get "units" c = Some (PInt units) /\
     dict_get "layers" c = Some (PInt layers) /\
     dict_get "res_layers" c = Some (PInt res_layers) /\
     dict_get "dropout" c = Some (PFloat dropout) /\
     dict_get "merge_mode" c = Some merge_mode) /\
  (forall hidden_size activation weight_normalization sim_type l,
     AttentionSequencePoolingLayerv2.init hidden_size activation
       weight_normalization sim_type = Ok l ->
     let c := AttentionSequencePoolingLayerv2.get_config l base_config in
     dict_get "hidden_size" c = Some hidden_size /\
     dict_get "activation" c = Some activation /\
     dict_get "weight_normalization" c = Some (PBool weight_normalization)).
Proof.
  repeat split.
  all: match goal with
       | H : SequencePoolingLayer.init _ _ = Ok _ |- _ =>
           unfold SequencePoolingLayer.init in H;
           destruct (negb _) in H; [discriminate H | injection H as <-];
           unfold SequencePoolingLayer.get_config
       | H : BiLSTM.init _ _ _ _ _ = Ok _ |- _ =>
           unfold BiLSTM.init in H;
           destruct (negb _) in H; [discriminate H | injection H as <-];
           unfold BiLSTM.get_config
       | H : AttentionSequencePoolingLayer.init _ _ _ _ = Ok _ |- _ =>
           injection H as <-;
           unfold AttentionSequencePoolingLayer.get_config
       | H : AttentionSequencePoolingLayerv2.init _ _ _ _ = Ok _ |- _ =>
           injection H as <-;
           unfold AttentionSequencePoolingLayerv2.get_config
       end.
  all: unfold items; rewrite dict_get_dict_app; reflexivity.
Qed.

Lemma dict_get_absent (k : string) (l : list (string * pyval)) :
  dict_get k l = None ->
  fold_left (fun acc kv => if String.eqb k (fst kv) then Some (snd kv)
                           else acc) l None = None.
Proof.
  induction l as [|[k0 v0] l IH]; simpl; intros H.
  - reflexivity.
  - destruct (String.eqb k k0); [discriminate H | apply IH, H].
Qed.

(** [AttentionSequencePoolingLayerv2.get_config] adds no [sim_type] entry
    to what the base class reports. *)
Lemma get_config_v2_no_sim_type
    (l : AttentionSequencePoolingLayerv2.t) (base_config : pydict) :
  dict_get "sim_type" base_config = None ->
  dict_get "sim_type" (AttentionSequencePoolingLayerv2.get_config l base_config)
  = None.
Proof.
  intros Hbase.
  assert (Hdict : dict_get "sim_type" (dict base_config) = None).
  { unfold dict. rewrite dict_get_fold. apply dict_get_absent, Hbase. }
  unfold AttentionSequencePoolingLayerv2.get_config, items.
  rewrite dict_get_dict_app, Hdict. reflexivity.
Qed.

(** C4. The configuration of [AttentionSequencePoolingLayerv2] has no entry
    for the constructor argument [sim_type]: [get_config] lists only
    [hidden_size], [activation] and [weight_normalization], so the layer
    constructed with [sim_type = "cos"] reports a configuration from which
    [sim_type] cannot be read back. *)
Theorem get_config_v2_omits_sim_type :
  exists l,
    AttentionSequencePoolingLayerv2.init
      (PTuple [PInt 80; PInt 40]) (PStr "sigmoid") true (PStr "cos") = Ok l /\
    AttentionSequencePoolingLayerv2.sim_type l = PStr "cos" /\
    AttentionSequencePoolingLayerv2.get_config l Examples.keras_base_config
    = [("name", PStr "attention_sequence_pooling_layerv2");
       ("trainable", PBool true);
       ("hidden_size", PTuple [PInt 80; PInt 40]);
       ("activation", PStr "sigmoid");
       ("weight_normalization", PBool true)] /\
    dict_get "sim_type"
      (AttentionSequencePoolingLayerv2.get_config l
         Examples.keras_base_config) = None.
Proof.
  eexists. split; [reflexivity|]. split; [reflexivity|].
  split; reflexivity.
Qed.

(** C10. [AttentionSequencePoolingLayerv2] validates nothing before
    [call]: its constructor accepts every [sim_type], its [build] accepts
    every input shape, and with a [sim_type] other than [nn], [mat] and
    [cos] the call on a list of three tensors raises [UnboundLocalError]
    for [attention_score], whatever the scoring network and the tensors. *)
Theorem v2_validates_nothing
    (hidden_size activation : pyval) (weight_normalization : bool)
    (sim_type : pyval) :
  exists l,
    AttentionSequencePoolingLayerv2.init hidden_size activation
      weight_normalization sim_type = Ok l /\
    AttentionSequencePoolingLayerv2.sim_type l = sim_type /\
    (forall shape, AttentionSequencePoolingLayerv2.build l shape = Ok l) /\
    (~ In sim_type [PStr "nn"; PStr "mat"; PStr "cos"] ->
     forall LocalActivationUnit queries keys keys_length,
       AttentionSequencePoolingLayerv2.call LocalActivationUnit l
         (QueryKeysLength queries keys keys_length)
       = Raise (UnboundLocalError "attention_score")).
Proof.
  eexists. split; [reflexivity|]. split; [reflexivity|].
  split; [reflexivity|].
  intros Hout LAU queries keys keys_length.
  unfold AttentionSequencePoolingLayerv2.call,
    AttentionSequencePoolingLayerv2.similarity.
  cbn [AttentionSequencePoolingLayerv2.sim_type].
  destruct (py_eqb sim_type (PStr "nn")) eqn:Hnn.
  { apply py_eqb_str in Hnn. exfalso. apply Hout. simpl. auto. }
  destruct (py_eqb sim_type (PStr "mat")) eqn:Hmat.
  { apply py_eqb_str in Hmat. exfalso. apply Hout. simpl. auto. }
  destruct (py_eqb sim_type (PStr "cos")) eqn:Hcos.
  { apply py_eqb_str in Hcos. exfalso. apply Hout. simpl. auto. }
  reflexivity.
Qed.

Lemma v2_validates_nothing_witness :
  exists l,
    AttentionSequencePoolingLayerv2.init
      (PTuple [PInt 80; PInt 40]) (PStr "sigmoid") true (PStr "mul") = Ok l /\
    AttentionSequencePoolingLayerv2.build l (Shape [7%nat]) = Ok l /\
    AttentionSequencePoolingLayerv2.call (fun _ _ _ keys => keys) l
      (QueryKeysLength Examples.seq_1x3x2 Examples.seq_1x3x2 Examples.len_2)
    = Raise (UnboundLocalError "attention_score").
Proof.
  destruct (v2_validates_nothing
              (PTuple [PInt 80; PInt 40]) (PStr "sigmoid") true (PStr "mul"))
    as (l & Hinit & _ & Hbuild & Hcall).
  exists l. split; [exact Hinit|]. split; [apply Hbuild|].
  apply Hcall. simpl. intros [H|[H|[H|[]]]]; discriminate H.
Defined.

(** With [sim_type = "mat"] the call stops at the name [NaiveActivationUnit],
    which the module never binds. *)
Lemma v2_mat_raises_name_error
    (LocalActivationUnit : pyval -> pyval -> tensor3 R -> tensor3 R -> tensor3 R)
    (hidden_size activation : pyval) (weight_normalization : bool)
    (queries keys : tensor3 R) (keys_length : tensor2 Z) :
  AttentionSequencePoolingLayerv2.call LocalActivationUnit
    (AttentionSequencePoolingLayerv2.Build hidden_size activation
       weight_normalization (PStr "mat"))
    (QueryKeysLength queries keys keys_length)
  = Raise (NameError "NaiveActivationUnit").
Proof. reflexivity. Qed.

End Construction.

(** ** Attention weights *)

Section Attention.

Import TF.
Open Scope R_scope.

Variable LocalActivationUnit :
  pyval -> pyval -> tensor3 R -> tensor3 R -> tensor3 R.

Lemma sum_upto_scal (f : nat -> R) (c : R) (n : nat) :
  sum_upto (fun t => f t * c) n = sum_upto f n * c.
Proof.
  induction n as [|n IH]; simpl; [lra | rewrite IH; lra].
Qed.

Lemma sum_upto_pos (f : nat -> R) (n : nat) :
  (1 <= n)%nat -> (forall t, (t < n)%nat -> 0 < f t) -> 0 < sum_upto f n.
Proof.
  induction n as [|n IH]; intros Hn Hf; [lia|]. simpl.
  pose proof (Hf n ltac:(lia)) as Hfn.
  destruct n as [|n]; [simpl; lra|].
  assert (0 < sum_upto f (S n)) by (apply IH; [lia | intros; apply Hf; lia]).
  lra.
Qed.

Lemma sum_upto_ge_term (f : nat -> R) (n v : nat) :
  (forall t, (t < n)%nat -> 0 <= f t) -> (v < n)%nat -> f v <= sum_upto f n.
Proof.
  induction n as [|n IH]; intros Hf Hv; [lia|]. simpl.
  pose proof (Hf n ltac:(lia)) as Hfn.
  destruct (Nat.eq_dec v n) as [->|Hne].
  - assert (0 <= sum_upto f n).
    { clear IH Hv. induction n as [|m IHm]; simpl; [lra|].
      assert (0 <= sum_upto f m) by (apply IHm; [intros; apply Hf | apply Hf]; lia).
      pose proof (Hf m ltac:(lia)). lra. }
    lra.
  - assert (f v <= sum_upto f n) by (apply IH; [intros; apply Hf|]; lia).
    lra.
Qed.

(** The softmax of a row is a probability vector. *)
Lemma softmax_row_sums_to_one (x : nat -> R) (n : nat) :
  (1 <= n)%nat ->
  sum_upto (fun t => exp (x t) / sum_upto (fun j => exp (x j)) n) n = 1.
Proof.
  intros Hn. unfold Rdiv. rewrite sum_upto_scal.
  apply Rinv_r. apply Rgt_not_eq, sum_upto_pos; [exact Hn|].
  intros t _. apply exp_pos.
Qed.

Lemma softmax_row_bound (x : nat -> R) (n t v : nat) :
  (t < n)%nat -> (v < n)%nat ->
  exp (x t) / sum_upto (fun j => exp (x j)) n <= exp (x t - x v).
Proof.
  intros Ht Hv.
  assert (Hge : exp (x v) <= sum_upto (fun j => exp (x j)) n).
  { apply (sum_upto_ge_term (fun j => exp (x j))); [|exact Hv].
    intros j _. left. apply exp_pos. }
  pose proof (exp_pos (x v)) as Hpv. pose proof (exp_pos (x t)) as Hpt.
  unfold Rminus. rewrite exp_plus, exp_Ropp. unfold Rdiv.
  apply Rmult_le_compat_l; [lra|].
  apply Rinv_le_contravar; assumption.
Qed.

(** The weights [AttentionSequencePoolingLayer.call] multiplies the keys
    with, in explicit-length mode. *)
Lemma attention_weights_explicit
    (hidden_size activation : pyval) (weight_normalization : bool)
    (queries keys : tensor3 R) (keys_length : tensor2 Z) :
  shape3 (LocalActivationUnit hidden_size activation queries keys)
  = (dim0 keys, dim1 keys, 1%nat) ->
  rows2 keys_length = dim0 keys -> cols2 keys_length = 1%nat ->
  exists w,
    AttentionSequencePoolingLayer.attention_weights LocalActivationUnit
      (AttentionSequencePoolingLayer.Build hidden_size activation
         weight_normalization false)
      (QueryKeysLength queries keys keys_length) None = Ok (w, keys) /\
    shape3 w = (dim0 keys, 1%nat, dim1 keys) /\
    forall b, (b < dim0 keys)%nat ->
      let filled t :=
        if Z.ltb (Z.of_nat t) (at2 keys_length b 0) then
          at3 (LocalActivationUnit hidden_size activation queries keys) b t 0
        else if weight_normalization then - 2 ^ 32 + 1 else 0 in
      forall t, (t < dim1 keys)%nat ->
        at3 w b 0 t
        = if weight_normalization then
            exp (filled t) / sum_upto (fun j => exp (filled j)) (dim1 keys)
          else filled t.
Proof.
  intros Hs Hr Hc. unfold shape3 in Hs. injection Hs as Hs0 Hs1 Hs2.
  unfold AttentionSequencePoolingLayer.attention_weights. simpl.
  unfold where3. simpl.
  destruct weight_normalization; simpl;
    rewrite Hs0, Hs1, Hs2, Hr, Hc, !Nat.eqb_refl; simpl.
  - eexists. split; [reflexivity|]. split; [reflexivity|].
    intros b Hb t Ht. simpl.
    rewrite (sum_upto_ext _
               (fun j => exp (if Z.ltb (Z.of_nat j) (at2 keys_length b 0)
                              then at3 (LocalActivationUnit hidden_size
                                          activation queries keys) b j 0
                              else - 2 ^ 32 + 1))).
    + destruct (Z.ltb (Z.of_nat t) (at2 keys_length b 0));
        [reflexivity | rewrite Rmult_1_l; reflexivity].
    + intros j Hj.
      destruct (Z.ltb (Z.of_nat j) (at2 keys_length b 0));
        [reflexivity | rewrite Rmult_1_l; reflexivity].
  - eexists. split; [reflexivity|]. split; [reflexivity|].
    intros b Hb t Ht. reflexivity.
Qed.

(** C2 (as amended). In explicit-length mode, with the scoring network an
    arbitrary function returning one score per position: a position whose
    key mask is false gets the score [-2^32+1] when [weight_normalization]
    is true and [0] when it is false; the weights are the softmax over the
    time axis of these scores when [weight_normalization] is true and the
    scores themselves when it is false.  With [weight_normalization] the
    weights of a row sum to 1 over all its [T >= 1] positions, and the
    weight of an invalid position is at most [exp (-2^32+1 - s)] for the
    raw score [s] of any valid position of the row. *)
Theorem attention_weights_masked_softmax
    (hidden_size activation : pyval) (weight_normalization : bool)
    (queries keys : tensor3 R) (keys_length : tensor2 Z)
    (l : AttentionSequencePoolingLayer.t) :
  AttentionSequencePoolingLayer.init hidden_size activation
    weight_normalization false = Ok l ->
  shape3 (LocalActivationUnit hidden_size activation queries keys)
  = (dim0 keys, dim1 keys, 1%nat) ->
  rows2 keys_length = dim0 keys -> cols2 keys_length = 1%nat ->
  exists w,
    AttentionSequencePoolingLayer.attention_weights LocalActivationUnit l
      (QueryKeysLength queries keys keys_length) None = Ok (w, keys) /\
    shape3 w = (dim0 keys, 1%nat, dim1 keys) /\
    forall b, (b < dim0 keys)%nat ->
      let score t :=
        at3 (LocalActivationUnit hidden_size activation queries keys) b t 0 in
      let valid t := (Z.of_nat t < at2 keys_length b 0)%Z in
      let filled t :=
        if Z.ltb (Z.of_nat t) (at2 keys_length b 0) then score t
        else if weight_normalization then - 2 ^ 32 + 1 else 0 in
      (weight_normalization = false ->
       forall t, (t < dim1 keys)%nat -> at3 w b 0 t = filled t) /\
      (weight_normalization = true ->
       (forall t, (t < dim1 keys)%nat ->
          at3 w b 0 t
          = exp (filled t) / sum_upto (fun j => exp (filled j)) (dim1 keys)) /\
       ((1 <= dim1 keys)%nat ->
        sum_upto (fun t => at3 w b 0 t) (dim1 keys) = 1) /\
       (forall t v, (t < dim1 keys)%nat -> (v < dim1 keys)%nat ->
          ~ valid t -> valid v ->
          at3 w b 0 t <= exp (- 2 ^ 32 + 1 - score v))).
Proof.
  intros Hinit Hs Hr Hc. injection Hinit as <-.
  destruct (attention_weights_explicit hidden_size activation
              weight_normalization queries keys keys_length Hs Hr Hc)
    as (w & Hw & Hshape & Hval).
  exists w. split; [exact Hw|]. split; [exact Hshape|].
  intros b Hb score valid filled.
  specialize (Hval b Hb). cbv zeta in Hval.
  split; intros Hwn; subst weight_normalization.
  - exact Hval.
  - split; [exact Hval|]. split.
    + intros HT.
      rewrite <- (softmax_row_sums_to_one filled (dim1 keys) HT).
      apply sum_upto_ext. exact Hval.
    + intros t v Ht Hv Hinvalid Hvalid. rewrite (Hval t Ht).
      pose proof (softmax_row_bound filled (dim1 keys) t v Ht Hv) as Hbound.
      assert (Hft : filled t = - 2 ^ 32 + 1).
      { unfold filled, valid in *.
        destruct (Z.ltb_spec (Z.of_nat t) (at2 keys_length b 0));
          [contradiction | reflexivity]. }
      assert (Hfv : filled v = score v).
      { unfold filled, valid in *.
        destruct (Z.ltb_spec (Z.of_nat v) (at2 keys_length b 0));
          [reflexivity | lia]. }
      rewrite Hft in Hbound at 2. rewrite Hfv in Hbound. exact Hbound.
Qed.

Lemma mean_last_keep_ok (x : tensor3 R) :
  (1 <= dim2 x)%nat ->
  mean_last_keep x
  = Ok (T3 (dim0 x) (dim1 x) 1
          (fun i j _ =>
             sum_upto (fun k => at3 x i j k) (dim2 x) / INR (dim2 x))).
Proof.
  intros Hx. unfold mean_last_keep.
  destruct (dim2 x) as [|n] eqn:Hn; [lia | reflexivity].
Qed.

(** What the nested [cosine_distance] computes for each position of the
    keys against the repeated query. *)
Lemma cosine_distance_explicit (queries keys : tensor3 R) :
  dim0 queries = dim0 keys -> dim1 queries = 1%nat ->
  dim2 queries = dim2 keys -> (1 <= dim2 keys)%nat ->
  exists s,
    AttentionSequencePoolingLayerv2.cosine_distance
      (repeat_elements_1 queries (dim1 keys)) keys = Ok s /\
    shape3 s = (dim0 keys, dim1 keys, 1%nat) /\
    forall b t, (b < dim0 keys)%nat -> (t < dim1 keys)%nat ->
      let norm (x : nat -> R) :=
        sqrt (Rmax (sum_upto (fun e => x e * x e) (dim2 keys))
                   (/ 1000000000000)) in
      let q e := at3 queries b 0 e in
      let k e := at3 keys b t e in
      at3 s b t 0
      = sum_upto (fun e => q e / norm q * (k e / norm k)) (dim2 keys)
        / INR (dim2 keys).
Proof.
  intros H0 H1 H2 HE.
  unfold AttentionSequencePoolingLayerv2.cosine_distance.
  destruct (binop3_same "mul" Rmult
              (l2_normalize (repeat_elements_1 queries (dim1 keys)))
              (l2_normalize keys)) as (h & Hh & Hsh & Hat).
  - simpl. congruence.
  - simpl. rewrite H1. lia.
  - simpl. congruence.
  - rewrite Hh. simpl.
    unfold shape3 in Hsh. simpl in Hsh. injection Hsh as Hh0 Hh1 Hh2.
    rewrite mean_last_keep_ok by lia.
    eexists. split; [reflexivity|]. split.
    + unfold shape3. simpl. rewrite Hh0, Hh1, H0, H1. f_equal. f_equal. lia.
    + intros b t Hb Ht. cbn [at3]. rewrite Hh2, H2. f_equal.
      apply sum_upto_ext. intros e He.
      rewrite Hat; simpl; [|lia ..].
      rewrite Nat.div_small by exact Ht. rewrite H2. reflexivity.
Qed.

Lemma normalized_square_sum (x : nat -> R) (n : nat) :
  / 1000000000000 <= sum_upto (fun e => x e * x e) n ->
  let norm := sqrt (Rmax (sum_upto (fun e => x e * x e) n)
                         (/ 1000000000000)) in
  sum_upto (fun e => x e / norm * (x e / norm)) n = 1.
Proof.
  intros Hbig norm.
  set (s := sum_upto (fun e => x e * x e) n) in *.
  assert (Hs : 0 < s) by lra.
  assert (Hnorm : norm * norm = s).
  { unfold norm. rewrite Rmax_left by exact Hbig. apply sqrt_sqrt. lra. }
  assert (Hn0 : norm <> 0).
  { intros H0. rewrite H0 in Hnorm. lra. }
  rewrite (sum_upto_ext _ (fun e => x e * x e * (/ norm * / norm))).
  - rewrite sum_upto_scal. fold s. rewrite <- Rinv_mult, Hnorm.
    apply Rinv_r. lra.
  - intros e _. unfold Rdiv. ring.
Qed.

Lemma normalized_orthogonal (x y : nat -> R) (c d : R) (n : nat) :
  sum_upto (fun e => x e * y e) n = 0 ->
  sum_upto (fun e => x e / c * (y e / d)) n = 0.
Proof.
  intros Horth.
  rewrite (sum_upto_ext _ (fun e => x e * y e * (/ c * / d))).
  - rewrite sum_upto_scal, Horth. ring.
  - intros e _. unfold Rdiv. ring.
Qed.

(** The value of [cosine_distance] on an identical and on an orthogonal
    key. *)
Lemma cosine_distance_values (queries keys : tensor3 R) :
  dim0 queries = dim0 keys -> dim1 queries = 1%nat ->
  dim2 queries = dim2 keys -> (1 <= dim2 keys)%nat ->
  exists s,
    AttentionSequencePoolingLayerv2.cosine_distance
      (repeat_elements_1 queries (dim1 keys)) keys = Ok s /\
    shape3 s = (dim0 keys, dim1 keys, 1%nat) /\
    forall b t, (b < dim0 keys)%nat -> (t < dim1 keys)%nat ->
      ((forall e, (e < dim2 keys)%nat -> at3 keys b t e = at3 queries b 0 e) ->
       / 1000000000000
       <= sum_upto (fun e => at3 queries b 0 e * at3 queries b 0 e)
                   (dim2 keys) ->
       at3 s b t 0 = 1 / INR (dim2 keys)) /\
      (sum_upto (fun e => at3 queries b 0 e * at3 keys b t e) (dim2 keys) = 0 ->
       at3 s b t 0 = 0).
Proof.
  intros H0 H1 H2 HE.
  destruct (cosine_distance_explicit queries keys H0 H1 H2 HE)
    as (s & Hs & Hshape & Hval).
  exists s. split; [exact Hs|]. split; [exact Hshape|].
  intros b t Hb Ht. rewrite (Hval b t Hb Ht). split.
  - intros Hsame Hbig. f_equal.
    rewrite <- (normalized_square_sum (fun e => at3 queries b 0 e)
                  (dim2 keys) Hbig).
    apply sum_upto_ext. intros e He.
    rewrite (sum_upto_ext (fun e0 => at3 keys b t e0 * at3 keys b t e0)
               (fun e0 => at3 queries b 0 e0 * at3 queries b 0 e0))
      by (intros e0 He0; rewrite Hsame by exact He0; reflexivity).
    rewrite Hsame by exact He. reflexivity.
  - intros Horth. rewrite normalized_orthogonal by exact Horth.
    unfold Rdiv. ring.
Qed.

(** C3 (as amended). With [sim_type = "cos"] the score of a position is the
    mean over the embedding axis of the product of the L2-normalised query
    and key: for a key identical to the query, with squared norm at least
    the [1e-12] floor of the normalisation, it is [1 / embedding_dim]; for
    a key orthogonal to the query it is [0]. *)
Theorem cosine_score_identical_orthogonal
    (hidden_size activation : pyval) (weight_normalization : bool)
    (queries keys : tensor3 R) (l : AttentionSequencePoolingLayerv2.t) :
  AttentionSequencePoolingLayerv2.init hidden_size activation
    weight_normalization (PStr "cos") = Ok l ->
  dim0 queries = dim0 keys -> dim1 queries = 1%nat ->
  dim2 queries = dim2 keys -> (1 <= dim2 keys)%nat ->
  exists s,
    AttentionSequencePoolingLayerv2.similarity LocalActivationUnit l
      queries keys = Ok (Some s) /\
    shape3 s = (dim0 keys, dim1 keys, 1%nat) /\
    forall b t, (b < dim0 keys)%nat -> (t < dim1 keys)%nat ->
      ((forall e, (e < dim2 keys)%nat -> at3 keys b t e = at3 queries b 0 e) ->
       / 1000000000000
       <= sum_upto (fun e => at3 queries b 0 e * at3 queries b 0 e)
                   (dim2 keys) ->
       at3 s b t 0 = 1 / INR (dim2 keys)) /\
      (sum_upto (fun e => at3 queries b 0 e * at3 keys b t e) (dim2 keys) = 0 ->
       at3 s b t 0 = 0).
Proof.
  intros Hinit H0 H1 H2 HE. injection Hinit as <-.
  destruct (cosine_distance_values queries keys H0 H1 H2 HE)
    as (s & Hs & Hrest).
  exists s. split; [|exact Hrest].
  unfold AttentionSequencePoolingLayerv2.similarity.
  cbn [AttentionSequencePoolingLayerv2.sim_type py_eqb as_number String.eqb
       Ascii.eqb Bool.eqb].
  rewrite Hs. reflexivity.
Qed.

(** What [AttentionSequencePoolingLayerv2.call] returns once the
    similarity stage has produced the scores [s]. *)
Lemma v2_call_explicit
    (hidden_size activation : pyval) (weight_normalization : bool)
    (sim_type : pyval) (queries keys : tensor3 R) (keys_length : tensor2 Z)
    (s : tensor3 R) :
  AttentionSequencePoolingLayerv2.similarity LocalActivationUnit
    (AttentionSequencePoolingLayerv2.Build hidden_size activation
       weight_normalization sim_type) queries keys = Ok (Some s) ->
  shape3 s = (dim0 keys, dim1 keys, 1%nat) ->
  rows2 keys_length = dim0 keys -> cols2 keys_length = 1%nat ->
  (1 <= dim2 keys)%nat ->
  exists out,
    AttentionSequencePoolingLayerv2.call LocalActivationUnit
      (AttentionSequencePoolingLayerv2.Build hidden_size activation
         weight_normalization sim_type)
      (QueryKeysLength queries keys keys_length) = Ok out /\
    shape3 out = (dim0 keys, 1%nat, dim1 keys) /\
    forall b, (b < dim0 keys)%nat ->
      let filled t :=
        if Z.ltb (Z.of_nat t) (at2 keys_length b 0) then at3 s b t 0
        else if weight_normalization then - 2 ^ 32 + 1 else 0 in
      let scaled t := filled t / sqrt (INR (dim2 keys)) in
      forall t, (t < dim1 keys)%nat ->
        at3 out b 0 t
        = if weight_normalization then
            exp (scaled t) / sum_upto (fun j => exp (scaled j)) (dim1 keys)
          else scaled t.
Proof.
  intros Hsim Hs Hr Hc HE. unfold shape3 in Hs. injection Hs as Hs0 Hs1 Hs2.
  unfold AttentionSequencePoolingLayerv2.call. rewrite Hsim.
  cbn [bind AttentionSequencePoolingLayerv2.weight_normalization].
  assert (Hsqrt : sqrt (INR (dim2 keys)) <> 0).
  { apply Rgt_not_eq, sqrt_lt_R0, lt_0_INR. lia. }
  unfold where3, div_scalar.
  destruct (Req_dec_T (sqrt (INR (dim2 keys))) 0) as [Hz|_];
    [contradiction|].
  destruct weight_normalization; simpl;
    rewrite Hs0, Hs1, Hs2, Hr, Hc, !Nat.eqb_refl; simpl.
  - eexists. split; [reflexivity|]. split; [reflexivity|].
    intros b Hb t Ht. simpl.
    rewrite (sum_upto_ext _
               (fun j => exp ((if Z.ltb (Z.of_nat j) (at2 keys_length b 0)
                               then at3 s b j 0 else - 2 ^ 32 + 1)
                              / sqrt (INR (dim2 keys))))).
    + destruct (Z.ltb (Z.of_nat t) (at2 keys_length b 0));
        [reflexivity | rewrite Rmult_1_l; reflexivity].
    + intros j Hj.
      destruct (Z.ltb (Z.of_nat j) (at2 keys_length b 0));
        [reflexivity | rewrite Rmult_1_l; reflexivity].
  - eexists. split; [reflexivity|]. split; [reflexivity|].
    intros b Hb t Ht. reflexivity.
Qed.

(** C5. For [sim_type] [nn] or [cos], [AttentionSequencePoolingLayerv2.call]
    returns the score tensor of shape [(batch, 1, T)]: the similarity
    scores, filled at the masked positions, then divided by
    [sqrt embedding_dim], then passed through softmax when
    [weight_normalization] is set; no product with the keys is taken.
    [AttentionSequencePoolingLayer.call] returns, with shape
    [(batch, 1, embedding_dim)], the product of its weights with the keys,
    and its weights are the filled scores (through softmax when
    [weight_normalization] is set) without any division by
    [sqrt embedding_dim]. *)
Theorem v2_returns_scaled_scores
    (hidden_size activation : pyval) (weight_normalization : bool)
    (sim_type : pyval) (queries keys : tensor3 R) (keys_length : tensor2 Z)
    (l2 : AttentionSequencePoolingLayerv2.t)
    (l1 : AttentionSequencePoolingLayer.t) :
  AttentionSequencePoolingLayerv2.init hidden_size activation
    weight_normalization sim_type = Ok l2 ->
  AttentionSequencePoolingLayer.init hidden_size activation
    weight_normalization false = Ok l1 ->
  sim_type = PStr "nn" \/ sim_type = PStr "cos" ->
  shape3 (LocalActivationUnit hidden_size activation queries keys)
  = (dim0 keys, dim1 keys, 1%nat) ->
  shape3 queries = (dim0 keys, 1%nat, dim2 keys) ->
  rows2 keys_length = dim0 keys -> cols2 keys_length = 1%nat ->
  (1 <= dim2 keys)%nat ->
  (exists s out,
     AttentionSequencePoolingLayerv2.similarity LocalActivationUnit l2
       queries keys = Ok (Some s) /\
     AttentionSequencePoolingLayerv2.call LocalActivationUnit l2
       (QueryKeysLength queries keys keys_length) = Ok out /\
     shape3 out = (dim0 keys, 1%nat, dim1 keys) /\
     forall b, (b < dim0 keys)%nat ->
       let filled t :=
         if Z.ltb (Z.of_nat t) (at2 keys_length b 0) then at3 s b t 0
         else if weight_normalization then - 2 ^ 32 + 1 else 0 in
       let scaled t := filled t / sqrt (INR (dim2 keys)) in
       forall t, (t < dim1 keys)%nat ->
         at3 out b 0 t
         = if weight_normalization then
             exp (scaled t) / sum_upto (fun j => exp (scaled j)) (dim1 keys)
           else scaled t) /\
  (exists out,
     AttentionSequencePoolingLayer.call LocalActivationUnit l1
       (QueryKeysLength queries keys keys_length) None = Ok out /\
     shape3 out = (dim0 keys, 1%nat, dim2 keys) /\
     forall b, (b < dim0 keys)%nat ->
       let filled t :=
         if Z.ltb (Z.of_nat t) (at2 keys_length b 0) then
           at3 (LocalActivationUnit hidden_size activation queries keys) b t 0
         else if weight_normalization then - 2 ^ 32 + 1 else 0 in
       let weight t :=
         if weight_normalization then
           exp (filled t) / sum_upto (fun j => exp (filled j)) (dim1 keys)
         else filled t in
       forall e, (e < dim2 keys)%nat ->
         at3 out b 0 e
         = sum_upto (fun t => weight t * at3 keys b t e) (dim1 keys)).
Proof.
  intros Hi2 Hi1 Hsim Hs Hq Hr Hc HE.
  injection Hi2 as <-. injection Hi1 as <-.
  unfold shape3 in Hq. injection Hq as Hq0 Hq1 Hq2.
  split.
  - assert (Hstage : exists s,
              AttentionSequencePoolingLayerv2.similarity LocalActivationUnit
                (AttentionSequencePoolingLayerv2.Build hidden_size activation
                   weight_normalization sim_type) queries keys = Ok (Some s)
              /\ shape3 s = (dim0 keys, dim1 keys, 1%nat)).
    { destruct Hsim as [-> | ->].
      - eexists. split; [reflexivity | exact Hs].
      - destruct (cosine_distance_explicit queries keys Hq0 Hq1 Hq2 HE)
          as (s & Hcos & Hshape & _).
        exists s. split; [|exact Hshape].
        unfold AttentionSequencePoolingLayerv2.similarity.
        cbn [AttentionSequencePoolingLayerv2.sim_type py_eqb as_number
             String.eqb Ascii.eqb Bool.eqb].
        rewrite Hcos. reflexivity. }
    destruct Hstage as (s & Hstage & Hshape).
    destruct (v2_call_explicit hidden_size activation weight_normalization
                sim_type queries keys keys_length s Hstage Hshape Hr Hc HE)
      as (out & Hout & Hoshape & Hval).
    exists s, out. repeat split; assumption.
  - destruct (attention_weights_explicit hidden_size activation
                weight_normalization queries keys keys_length Hs Hr Hc)
      as (w & Hw & Hshape & Hval).
    unfold shape3 in Hshape. injection Hshape as Hw0 Hw1 Hw2.
    unfold AttentionSequencePoolingLayer.call. rewrite Hw.
    cbn [bind]. unfold matmul. rewrite Hw0, Hw2, !Nat.eqb_refl.
    cbn [andb]. eexists. split; [reflexivity|].
    split; [unfold shape3; cbn [dim0 dim1 dim2]; congruence|].
    intros b Hb. cbv zeta. intros e He. cbn [at3].
    apply sum_upto_ext. intros t Ht.
    rewrite (Hval b Hb t Ht). reflexivity.
Qed.

End Attention.

Section AttentionExamples.

Import TF.
Open Scope R_scope.

(** C2, as stated, fails on a row without valid positions: the single,
    padded, position of the row gets weight 1, so the weights over the
    valid positions sum to 0 and the weight of an invalid position is far
    above machine epsilon. *)
Lemma attention_weights_empty_row_counterexample :
  exists w,
    AttentionSequencePoolingLayer.attention_weights
      Examples.first_coordinate_score
      (AttentionSequencePoolingLayer.Build PNone PNone true false)
      (QueryKeysLength Examples.keys_1 Examples.keys_1 Examples.len_0) None
    = Ok (w, Examples.keys_1) /\
    at2 Examples.len_0 0 0 = 0%Z /\
    sum_upto (fun t => at3 w 0 0 t) (Z.to_nat (at2 Examples.len_0 0 0)) <> 1 /\
    at3 w 0 0 0 = 1 /\
    machine_epsilon < at3 w 0 0 0.
Proof.
  destruct (attention_weights_explicit Examples.first_coordinate_score
              PNone PNone true Examples.keys_1 Examples.keys_1
              Examples.len_0 eq_refl eq_refl eq_refl)
    as (w & Hw & _ & Hval).
  exists w. split; [exact Hw|]. split; [reflexivity|].
  assert (Hone : at3 w 0 0 0 = 1).
  { rewrite (Hval 0%nat) by (simpl; lia). simpl.
    rewrite Rplus_0_l. apply Rinv_r, Rgt_not_eq, exp_pos. }
  split; [simpl; lra|]. split; [exact Hone|].
  rewrite Hone. unfold machine_epsilon. lra.
Qed.

Lemma attention_weights_masked_softmax_witness :
  exists w,
    AttentionSequencePoolingLayer.attention_weights
      Examples.first_coordinate_score
      (AttentionSequencePoolingLayer.Build PNone PNone true false)
      (QueryKeysLength Examples.seq_1x3x2 Examples.seq_1x3x2 Examples.len_2)
      None
    = Ok (w, Examples.seq_1x3x2) /\
    sum_upto (fun t => at3 w 0 0 t) 3 = 1 /\
    at3 w 0 0 2 <= exp (- 2 ^ 32 + 1 - 3).
Proof.
  destruct (attention_weights_masked_softmax Examples.first_coordinate_score
              PNone PNone true Examples.seq_1x3x2 Examples.seq_1x3x2
              Examples.len_2
              (AttentionSequencePoolingLayer.Build PNone PNone true false)
              eq_refl eq_refl eq_refl eq_refl)
    as (w & Hw & _ & Hval).
  exists w. split; [exact Hw|].
  destruct (Hval 0%nat) as (_ & Hnorm); [simpl; lia|].
  destruct (Hnorm eq_refl) as (_ & Hsum & Hbound).
  split.
  - apply Hsum. simpl. lia.
  - apply (Hbound 2%nat 1%nat); simpl; lia.
Defined.

(** C3, as stated, fails for every embedding width above 1: the score of
    the key [(1, 0)] against the identical query is [1/2]. *)
Lemma cosine_score_identical_counterexample :
  exists s,
    AttentionSequencePoolingLayerv2.similarity
      Examples.first_coordinate_score
      (AttentionSequencePoolingLayerv2.Build PNone PNone true (PStr "cos"))
      Examples.query_10 Examples.keys_10_01 = Ok (Some s) /\
    (forall e, (e < 2)%nat ->
       at3 Examples.keys_10_01 0 0 e = at3 Examples.query_10 0 0 e) /\
    at3 Examples.query_10 0 0 0 = 1 /\
    at3 s 0 0 0 = 1 / 2 /\
    Rabs (at3 s 0 0 0 - 1) = 1 / 2.
Proof.
  destruct (cosine_distance_values Examples.query_10 Examples.keys_10_01
              eq_refl eq_refl eq_refl)
    as (s & Hs & _ & Hval).
  { simpl. lia. }
  exists s. split.
  { unfold AttentionSequencePoolingLayerv2.similarity.
    cbn [AttentionSequencePoolingLayerv2.sim_type py_eqb as_number
         String.eqb Ascii.eqb Bool.eqb].
    rewrite Hs. reflexivity. }
  assert (Hsame : forall e, (e < 2)%nat ->
            at3 Examples.keys_10_01 0 0 e = at3 Examples.query_10 0 0 e).
  { intros e He. assert (Hcases : e = 0%nat \/ e = 1%nat) by lia.
    destruct Hcases as [-> | ->]; reflexivity. }
  split; [exact Hsame|]. split; [reflexivity|].
  destruct (Hval 0%nat 0%nat) as (Hid & _); [simpl; lia ..|].
  assert (Hhalf : at3 s 0 0 0 = 1 / 2).
  { rewrite Hid; [simpl; lra | exact Hsame | simpl; lra]. }
  split; [exact Hhalf|].
  rewrite Hhalf. replace (1 / 2 - 1) with (- (1 / 2)) by lra.
  rewrite Rabs_Ropp. apply Rabs_pos_eq. lra.
Qed.

Lemma cosine_score_identical_orthogonal_witness :
  exists s,
    AttentionSequencePoolingLayerv2.similarity
      Examples.first_coordinate_score
      (AttentionSequencePoolingLayerv2.Build PNone PNone true (PStr "cos"))
      Examples.query_10 Examples.keys_10_01 = Ok (Some s) /\
    at3 s 0 0 0 = 1 / 2 /\ at3 s 0 1 0 = 0.
Proof.
  destruct (cosine_score_identical_orthogonal
              Examples.first_coordinate_score PNone PNone true
              Examples.query_10 Examples.keys_10_01
              (AttentionSequencePoolingLayerv2.Build PNone PNone true
                 (PStr "cos"))
              eq_refl eq_refl eq_refl eq_refl)
    as (s & Hs & _ & Hval).
  { simpl. lia. }
  exists s. split; [exact Hs|]. split.
  - destruct (Hval 0%nat 0%nat) as (Hid & _); [simpl; lia ..|].
    rewrite Hid; [simpl; lra | | simpl; lra].
    intros e He. assert (Hcases : e = 0%nat \/ e = 1%nat) by (simpl in He; lia).
    destruct Hcases as [-> | ->]; reflexivity.
  - destruct (Hval 0%nat 1%nat) as (_ & Horth); [simpl; lia ..|].
    apply Horth. simpl. lra.
Defined.

Lemma v2_returns_scaled_scores_witness :
  (exists out,
     AttentionSequencePoolingLayerv2.call Examples.first_coordinate_score
       (AttentionSequencePoolingLayerv2.Build PNone PNone false (PStr "nn"))
       (QueryKeysLength Examples.query_10 Examples.keys_10_01 Examples.len_1)
     = Ok out /\
     shape3 out = (1%nat, 1%nat, 2%nat) /\
     at3 out 0 0 0 = 1 / sqrt 2 /\ at3 out 0 0 1 = 0 / sqrt 2) /\
  (exists out,
     AttentionSequencePoolingLayer.call Examples.first_coordinate_score
       (AttentionSequencePoolingLayer.Build PNone PNone false false)
       (QueryKeysLength Examples.query_10 Examples.keys_10_01 Examples.len_1)
       None = Ok out /\
     shape3 out = (1%nat, 1%nat, 2%nat) /\
     at3 out 0 0 0 = 1).
Proof.
  destruct (v2_returns_scaled_scores Examples.first_coordinate_score
              PNone PNone false (PStr "nn")
              Examples.query_10 Examples.keys_10_01 Examples.len_1
              (AttentionSequencePoolingLayerv2.Build PNone PNone false
                 (PStr "nn"))
              (AttentionSequencePoolingLayer.Build PNone PNone false false)
              eq_refl eq_refl (or_introl eq_refl)
              eq_refl eq_refl eq_refl eq_refl)
    as ((s & out & Hs & Hout & Hshape & Hval)
        & (out1 & Hout1 & Hshape1 & Hval1)).
  { simpl. lia. }
  injection Hs as <-.
  split.
  - exists out. split; [exact Hout|]. split; [exact Hshape|].
    rewrite !(Hval 0%nat) by (simpl; lia). simpl.
    replace (1 + 1) with 2 by lra. split; reflexivity.
  - exists out1. split; [exact Hout1|]. split; [exact Hshape1|].
    rewrite (Hval1 0%nat) by (simpl; lia). simpl. lra.
Defined.

End AttentionExamples.

(** ** BiLSTM: the merge of the two streams *)

Section Merge.

Import TF.
Open Scope R_scope.

Variable LSTM : Z -> R -> bool -> nat -> tensor3 R -> tensor3 R.

(** The recurrent collaborator keeps batch and time and returns [units]
    features per step. *)
Hypothesis LSTM_shape :
  forall units dropout go_backwards i x,
    shape3 (LSTM units dropout go_backwards i x)
    = (dim0 x, dim1 x, Z.to_nat units).

Lemma nth_error_map_seq {A} (f : nat -> A) (n i : nat) :
  (i < n)%nat -> nth_error (map f (seq 0 n)) i = Some (f i).
Proof.
  intros Hi. rewrite nth_error_map, nth_error_seq.
  destruct (Nat.ltb_spec i n); [reflexivity | lia].
Qed.

Lemma binop3_same_shape {A B C} (op : string) (f : A -> B -> C)
    (x : tensor3 A) (y : tensor3 B) :
  shape3 y = shape3 x ->
  exists h,
    binop3 op f x y = Ok h /\
    shape3 h = shape3 x /\
    forall i j k, (i < dim0 x)%nat -> (j < dim1 x)%nat -> (k < dim2 x)%nat ->
      at3 h i j k = f (at3 x i j k) (at3 y i j k).
Proof.
  intros Hs. unfold shape3 in Hs. injection Hs as H0 H1 H2.
  apply binop3_same; assumption.
Qed.

(** One level of the loop on a built layer. *)
Lemma level_shape (self : BiLSTM.t) (B T a : nat)
    (input_fw input_bw : tensor3 R) :
  dim0 input_fw = B -> dim1 input_fw = T ->
  dim0 input_bw = B -> dim1 input_bw = T ->
  ((Z.of_nat a >= BiLSTM.layers self - BiLSTM.res_layers self)%Z ->
   dim2 input_fw = Z.to_nat (BiLSTM.units self) /\
   dim2 input_bw = Z.to_nat (BiLSTM.units self)) ->
  let output_fw :=
    LSTM (BiLSTM.units self) (BiLSTM.dropout self) false a input_fw in
  let output_bw :=
    reverse_1 (LSTM (BiLSTM.units self) (BiLSTM.dropout self) true a
                 input_bw) in
  exists fw bw,
    (if Z.geb (Z.of_nat a) (BiLSTM.layers self - BiLSTM.res_layers self) then
       output_fw' <- binop3 "add" Rplus output_fw input_fw ;;
       output_bw' <- binop3 "add" Rplus output_bw input_bw ;;
       Ok (output_fw', output_bw')
     else Ok (output_fw, output_bw)) = Ok (fw, bw) /\
    shape3 fw = (B, T, Z.to_nat (BiLSTM.units self)) /\
    shape3 bw = (B, T, Z.to_nat (BiLSTM.units self)).
Proof.
  intros Hf0 Hf1 Hb0 Hb1 Hres ofw obw.
  assert (Hofw : shape3 ofw = (B, T, Z.to_nat (BiLSTM.units self))).
  { unfold ofw. rewrite LSTM_shape. congruence. }
  assert (Hobw : shape3 obw = (B, T, Z.to_nat (BiLSTM.units self))).
  { pose proof (LSTM_shape (BiLSTM.units self) (BiLSTM.dropout self)
                  true a input_bw) as Hl.
    unfold shape3 in Hl. injection Hl as Hl0 Hl1 Hl2.
    unfold obw, reverse_1, shape3. cbn [dim0 dim1 dim2]. congruence. }
  destruct (Z.geb_spec (Z.of_nat a)
              (BiLSTM.layers self - BiLSTM.res_layers self)) as [Hge|Hlt].
  - destruct (Hres ltac:(lia)) as (Hdf & Hdb).
    destruct (binop3_same_shape "add" Rplus ofw input_fw)
      as (hf & Hhf & Hsf & _);
      [rewrite Hofw; unfold shape3; congruence|].
    destruct (binop3_same_shape "add" Rplus obw input_bw)
      as (hb & Hhb & Hsb & _);
      [rewrite Hobw; unfold shape3; congruence|].
    exists hf, hb. rewrite Hhf, Hhb. cbn [bind].
    split; [reflexivity | split; congruence].
  - exists ofw, obw. split; [reflexivity | split; assumption].
Qed.

(** Running the levels [a .. a + n] of a built layer: both streams come out
    with [units] features, provided each level that adds its input back
    receives an input of that width. *)
Lemma levels_shape (self : BiLSTM.t) (B T n : nat) :
  BiLSTM.fw_lstm self
  = map (LSTM (BiLSTM.units self) (BiLSTM.dropout self) false)
        (seq 0 (Z.to_nat (BiLSTM.layers self))) ->
  BiLSTM.bw_lstm self
  = map (LSTM (BiLSTM.units self) (BiLSTM.dropout self) true)
        (seq 0 (Z.to_nat (BiLSTM.layers self))) ->
  forall (a : nat) (input_fw input_bw : tensor3 R),
    (a + S n <= Z.to_nat (BiLSTM.layers self))%nat ->
    dim0 input_fw = B -> dim1 input_fw = T ->
    dim0 input_bw = B -> dim1 input_bw = T ->
    ((Z.of_nat a >= BiLSTM.layers self - BiLSTM.res_layers self)%Z ->
     dim2 input_fw = Z.to_nat (BiLSTM.units self) /\
     dim2 input_bw = Z.to_nat (BiLSTM.units self)) ->
    exists output_fw output_bw,
      BiLSTM.levels self (seq a (S n)) input_fw input_bw
      = Ok (output_fw, output_bw) /\
      shape3 output_fw = (B, T, Z.to_nat (BiLSTM.units self)) /\
      shape3 output_bw = (B, T, Z.to_nat (BiLSTM.units self)).
Proof.
  intros Hfw Hbw.
  induction n as [|n IH]; intros a input_fw input_bw Ha Hf0 Hf1 Hb0 Hb1 Hres.
  all: destruct (level_shape self B T a input_fw input_bw
                   Hf0 Hf1 Hb0 Hb1 Hres) as (fw & bw & Hstep & Hsfw & Hsbw).
  1: change (seq a 1) with (a :: @nil nat).
  2: change (seq a (S (S n))) with (a :: seq (S a) (S n)).
  all: cbn [BiLSTM.levels].
  all: rewrite Hfw, Hbw, !nth_error_map_seq by lia.
  all: rewrite Hstep; cbn [bind].
  - exists fw, bw. split; [reflexivity | split; assumption].
  - unfold shape3 in Hsfw, Hsbw.
    injection Hsfw as Hf0' Hf1' Hf2'. injection Hsbw as Hb0' Hb1' Hb2'.
    apply IH; try assumption; [lia | intros _; split; assumption].
Qed.

(** C8 (as amended). On a layer obtained from the constructor and [build],
    with at least one level and with the first level either not residual or
    fed [units] features, the loop leaves a forward and a backward stream
    of shape [(batch, T, units)], and [call] combines them by [merge_mode]:
    [fw] and [bw] return the one stream, [sum], [mul] and [ave] the
    elementwise sum, product and mean, [concat] the concatenation along
    the embedding axis, of width [2 * units], and [None] both streams,
    uncombined. *)
Theorem bilstm_merge_modes
    (units layers res_layers : Z) (dropout : R) (merge_mode : pyval)
    (l0 l : BiLSTM.t) (inputs : tensor3 R) :
  BiLSTM.init units layers res_layers dropout merge_mode = Ok l0 ->
  BiLSTM.build LSTM l0 [dim0 inputs; dim1 inputs; dim2 inputs] = Ok l ->
  (1 <= layers)%Z ->
  (res_layers < layers)%Z \/ dim2 inputs = Z.to_nat units ->
  let U := Z.to_nat units in
  exists output_fw output_bw,
    BiLSTM.levels l (seq 0 (Z.to_nat layers)) inputs inputs
    = Ok (output_fw, output_bw) /\
    shape3 output_fw = (dim0 inputs, dim1 inputs, U) /\
    shape3 output_bw = (dim0 inputs, dim1 inputs, U) /\
    (merge_mode = PStr "fw" -> BiLSTM.call l inputs = Ok (BiLSTM.Merged output_fw)) /\
    (merge_mode = PStr "bw" -> BiLSTM.call l inputs = Ok (BiLSTM.Merged output_bw)) /\
    (merge_mode = PStr "sum" ->
     exists output,
       BiLSTM.call l inputs = Ok (BiLSTM.Merged output) /\
       shape3 output = (dim0 inputs, dim1 inputs, U) /\
       forall b t e, (b < dim0 inputs)%nat -> (t < dim1 inputs)%nat ->
         (e < U)%nat ->
         at3 output b t e = at3 output_fw b t e + at3 output_bw b t e) /\
    (merge_mode = PStr "mul" ->
     exists output,
       BiLSTM.call l inputs = Ok (BiLSTM.Merged output) /\
       shape3 output = (dim0 inputs, dim1 inputs, U) /\
       forall b t e, (b < dim0 inputs)%nat -> (t < dim1 inputs)%nat ->
         (e < U)%nat ->
         at3 output b t e = at3 output_fw b t e * at3 output_bw b t e) /\
    (merge_mode = PStr "ave" ->
     exists output,
       BiLSTM.call l inputs = Ok (BiLSTM.Merged output) /\
       shape3 output = (dim0 inputs, dim1 inputs, U) /\
       forall b t e, (b < dim0 inputs)%nat -> (t < dim1 inputs)%nat ->
         (e < U)%nat ->
         at3 output b t e = (at3 output_fw b t e + at3 output_bw b t e) / 2) /\
    (merge_mode = PStr "concat" ->
     exists output,
       BiLSTM.call l inputs = Ok (BiLSTM.Merged output) /\
       shape3 output = (dim0 inputs, dim1 inputs, (2 * U)%nat) /\
       forall b t e,
         ((e < U)%nat -> at3 output b t e = at3 output_fw b t e) /\
         ((U <= e)%nat -> at3 output b t e = at3 output_bw b t (e - U)%nat)) /\
    (merge_mode = PNone ->
     BiLSTM.call l inputs = Ok (BiLSTM.Both output_fw output_bw)).
Proof.
  intros Hinit Hbuild Hlayers Hres U.
  unfold BiLSTM.init in Hinit.
  destruct (negb _) in Hinit; [discriminate Hinit | injection Hinit as <-].
  unfold BiLSTM.build in Hbuild. cbn in Hbuild. injection Hbuild as <-.
  set (l := {| BiLSTM.units := units; BiLSTM.layers := layers;
               BiLSTM.res_layers := res_layers; BiLSTM.dropout := dropout;
               BiLSTM.merge_mode := merge_mode;
               BiLSTM.fw_lstm := map (LSTM units dropout false)
                                     (seq 0 (Z.to_nat layers));
               BiLSTM.bw_lstm := map (LSTM units dropout true)
                                     (seq 0 (Z.to_nat layers)) |}).
  destruct (Z.to_nat layers) as [|n] eqn:Hn; [lia|].
  destruct (levels_shape l (dim0 inputs) (dim1 inputs) n) with
    (a := O) (input_fw := inputs) (input_bw := inputs)
    as (fw & bw & Hlevels & Hsfw & Hsbw).
  1, 2: cbn [l BiLSTM.fw_lstm BiLSTM.bw_lstm BiLSTM.units BiLSTM.dropout
             BiLSTM.layers]; rewrite Hn; reflexivity.
  1: cbn [l BiLSTM.layers]; lia.
  1, 2, 3, 4: reflexivity.
  1: cbn [l BiLSTM.layers BiLSTM.res_layers BiLSTM.units]; intros Hge;
     destruct Hres as [Hres|Hres]; [lia | split; exact Hres].
  cbn [l BiLSTM.units] in Hsfw, Hsbw. fold U in Hsfw, Hsbw.
  exists fw, bw. split; [exact Hlevels|].
  split; [exact Hsfw|]. split; [exact Hsbw|].
  unfold BiLSTM.call. cbn [l BiLSTM.layers]. rewrite Hn. fold l.
  rewrite Hlevels. cbn [bind BiLSTM.merge_mode l].
  pose proof Hsfw as Hsfw'. pose proof Hsbw as Hsbw'.
  unfold shape3 in Hsfw', Hsbw'.
  injection Hsfw' as Hf0 Hf1 Hf2. injection Hsbw' as Hb0 Hb1 Hb2.
  assert (Hsame : shape3 bw = shape3 fw) by congruence.
  repeat split.
  - intros ->. reflexivity.
  - intros ->. reflexivity.
  - intros ->. cbn.
    destruct (binop3_same_shape "add" Rplus fw bw Hsame)
      as (h & -> & Hsh & Hat).
    cbn [bind]. exists h. split; [reflexivity|]. split; [congruence|].
    intros b t e Hb Ht He. apply Hat; congruence.
  - intros ->. cbn.
    destruct (binop3_same_shape "mul" Rmult fw bw Hsame)
      as (h & -> & Hsh & Hat).
    cbn [bind]. exists h. split; [reflexivity|]. split; [congruence|].
    intros b t e Hb Ht He. apply Hat; congruence.
  - intros ->. cbn.
    destruct (binop3_same_shape "add" Rplus fw bw Hsame)
      as (h & -> & Hsh & Hat).
    cbn [bind]. eexists. split; [reflexivity|].
    split; [unfold shape3 in *; cbn [map3d dim0 dim1 dim2]; congruence|].
    intros b t e Hb Ht He. cbn [map3d at3].
    rewrite Hat by congruence. reflexivity.
  - intros ->. cbn. unfold concatenate.
    rewrite Hf0, Hf1, Hb0, Hb1, !Nat.eqb_refl. cbn [andb bind].
    eexists. split; [reflexivity|]. split.
    + unfold shape3. cbn [dim0 dim1 dim2]. rewrite Hf2, Hb2. f_equal. lia.
    + intros b t e. cbn [at3]. rewrite Hf2. split; intros He.
      * destruct (Nat.ltb_spec e U); [reflexivity | lia].
      * destruct (Nat.ltb_spec e U); [lia | reflexivity].
  - intros ->. reflexivity.
Qed.

End Merge.

Section MergeExamples.

Import TF.
Open Scope R_scope.

Lemma bilstm_merge_modes_witness :
  exists l output,
    BiLSTM.build Examples.constant_lstm
      {| BiLSTM.units := 4; BiLSTM.layers := 2; BiLSTM.res_layers := 0;
         BiLSTM.dropout := 2 / 10; BiLSTM.merge_mode := PStr "concat";
         BiLSTM.fw_lstm := []; BiLSTM.bw_lstm := [] |}
      [1%nat; 3%nat; 2%nat] = Ok l /\
    BiLSTM.call l Examples.seq_1x3x2 = Ok (BiLSTM.Merged output) /\
    shape3 output = (1%nat, 3%nat, 8%nat).
Proof.
  eexists.
  assert (Hlayers : (1 <= 2)%Z) by lia.
  assert (Hres : (0 < 2)%Z \/ dim2 Examples.seq_1x3x2 = Z.to_nat 4)
    by (left; lia).
  destruct (bilstm_merge_modes Examples.constant_lstm
              (fun _ _ _ _ _ => eq_refl)
              4%Z 2%Z 0%Z (2 / 10) (PStr "concat") _ _ Examples.seq_1x3x2
              eq_refl eq_refl Hlayers Hres)
    as (fw & bw & _ & _ & _ & _ & _ & _ & _ & _ & Hconcat & _).
  destruct (Hconcat eq_refl) as (output & Hcall & Hshape & _).
  exists output. split; [reflexivity|]. split; [exact Hcall | exact Hshape].
Defined.

(** C8, as stated, fails with a residual first level on an input wider than
    [units], where the streams take the width of the input: one unit, one
    residual level and two input features give a concatenation of width 4,
    not [2 * units]. *)
Lemma bilstm_concat_width_counterexample :
  exists l0 l output,
    BiLSTM.init 1 1 1 (2 / 10) (PStr "concat") = Ok l0 /\
    BiLSTM.build Examples.constant_lstm l0 [1%nat; 3%nat; 2%nat] = Ok l /\
    BiLSTM.call l Examples.seq_1x3x2 = Ok (BiLSTM.Merged output) /\
    shape3 output = (1%nat, 3%nat, 4%nat) /\
    dim2 output <> (2 * Z.to_nat (BiLSTM.units l))%nat.
Proof.
  do 3 eexists.
  split; [reflexivity|]. split; [reflexivity|]. split; [reflexivity|].
  split; [reflexivity|]. simpl. lia.
Qed.

(** [compute_output_shape] doubles the last entry of the input shape for
    [concat] and returns the input shape for the other merge modes: it
    reports the width of the input, where [call] produces [units]. *)
Lemma compute_output_shape_follows_input_width (l : BiLSTM.t) (B T D : nat) :
  (BiLSTM.merge_mode l = PStr "concat" ->
   BiLSTM.compute_output_shape l [B; T; D]
   = Ok (BiLSTM.OneShape [B; T; (D * 2)%nat])) /\
  (BiLSTM.merge_mode l = PNone ->
   BiLSTM.compute_output_shape l [B; T; D]
   = Ok (BiLSTM.TwoShapes [B; T; D] [B; T; D])) /\
  (BiLSTM.merge_mode l = PStr "sum" ->
   BiLSTM.compute_output_shape l [B; T; D] = Ok (BiLSTM.OneShape [B; T; D])).
Proof.
  unfold BiLSTM.compute_output_shape.
  repeat split; intros ->; reflexivity.
Qed.

End MergeExamples.

(** * Further properties of the layers *)

(** ** SequencePoolingLayer: the two mask sources, and the three modes *)

Section PoolingModes.
Import TF SequencePoolingLayer.
Open Scope R_scope.

(** The value [call] computes for a row by mode, from the masked entries [f]
    of the row, its length [len] and the number [T] of time steps: for a
    length tensor of an integer type ([sum] and [max]; [mean] raises), and
    for a length tensor of a float type. *)
Lemma explicit_call (md : string) (seq : tensor3 R) (len : tensor2 Z) :
  In md ["sum"; "max"] ->
  rows2 len = dim0 seq -> cols2 len = 1%nat ->
  (md = "max" -> (1 <= dim1 seq)%nat) ->
  exists out,
    call (Examples.pooling md false (Some (dim1 seq))) (SeqLen seq len) None
    = Ok out /\
    shape3 out = (dim0 seq, 1%nat, dim2 seq) /\
    forall b e, (b < dim0 seq)%nat -> (e < dim2 seq)%nat ->
      let f t := at3 seq b t e * to_float (Z.ltb (Z.of_nat t) (at2 len b 0)) in
      at3 out b 0 e
      = if String.eqb md "max" then max_to f (dim1 seq - 1)
        else sum_upto f (dim1 seq).
Proof.
  intros Hmd Hr Hc HT.
  destruct (explicit_masked seq len Hr Hc) as (h & Hh & Hsh & Hat).
  unfold shape3 in Hsh. injection Hsh as Hh0 Hh1 Hh2.
  simpl in Hmd. destruct Hmd as [<- | [<- | []]].
  - unfold call. simpl. rewrite Hh. simpl.
    eexists. split; [reflexivity|]. split; [unfold shape3; simpl; congruence|].
    intros b e Hb He. simpl. rewrite Hh1.
    apply sum_upto_ext. intros t Ht. apply Hat; assumption.
  - specialize (HT eq_refl).
    destruct (dim1 seq) as [|T] eqn:HdT; [lia|].
    try rewrite HdT in Hh. try rewrite HdT in Hat. try rewrite HdT in Hh1.
    unfold call. simpl. rewrite Hh. simpl.
    unfold reduce_max_1_keep. rewrite Hh1.
    eexists. split; [reflexivity|]. split; [unfold shape3; simpl; congruence|].
    intros b e Hb He. simpl. rewrite Nat.sub_0_r.
    apply max_to_ext. intros t Ht. apply Hat; [assumption | lia | assumption].
Qed.

Lemma explicit_call_mean_integer (seq : tensor3 R) (len : tensor2 Z) :
  rows2 len = dim0 seq -> cols2 len = 1%nat ->
  exists msg,
    call (Examples.pooling "mean" false (Some (dim1 seq))) (SeqLen seq len) None
    = Raise (TypeError msg).
Proof.
  intros Hr Hc.
  destruct (explicit_masked seq len Hr Hc) as (h & Hh & _).
  unfold call. simpl. rewrite Hh. simpl. eexists. reflexivity.
Qed.

Lemma explicit_call_float (md : string) (seq : tensor3 R) (len : tensor2 R) :
  In md ["sum"; "mean"; "max"] ->
  rows2 len = dim0 seq -> cols2 len = 1%nat ->
  (md = "max" -> (1 <= dim1 seq)%nat) ->
  exists out,
    call (Examples.pooling md false (Some (dim1 seq))) (SeqLenFloat seq len)
         None
    = Ok out /\
    shape3 out = (dim0 seq, 1%nat, dim2 seq) /\
    forall b e, (b < dim0 seq)%nat -> (e < dim2 seq)%nat ->
      let f t := at3 seq b t e
                 * to_float (Z.ltb (Z.of_nat t) (cast_int32 (at2 len b 0))) in
      at3 out b 0 e
      = if String.eqb md "max" then max_to f (dim1 seq - 1)
        else if String.eqb md "mean" then
          sum_upto f (dim1 seq) / (at2 len b 0 + / 100000000)
        else sum_upto f (dim1 seq).
Proof.
  intros Hmd Hr Hc HT.
  destruct (explicit_masked_float seq len Hr Hc) as (h & Hh & Hsh & Hat).
  unfold shape3 in Hsh. injection Hsh as Hh0 Hh1 Hh2.
  simpl in Hmd. destruct Hmd as [<- | [<- | [<- | []]]].
  - unfold call. simpl. rewrite Hh. simpl.
    eexists. split; [reflexivity|]. split; [unfold shape3; simpl; congruence|].
    intros b e Hb He. simpl. rewrite Hh1.
    apply sum_upto_ext. intros t Ht. apply Hat; assumption.
  - unfold call. simpl. rewrite Hh. simpl.
    unfold binop2. simpl. rewrite Hh0, Hh2, Hr, Hc, bdim_same, bdim_1_r.
    simpl. eexists. split; [reflexivity|]. split; [reflexivity|].
    intros b e Hb He. simpl. rewrite !bix_lt by assumption. rewrite Hh1.
    f_equal. apply sum_upto_ext. intros t Ht. apply Hat; assumption.
  - specialize (HT eq_refl).
    destruct (dim1 seq) as [|T] eqn:HdT; [lia|].
    try rewrite HdT in Hh. try rewrite HdT in Hat. try rewrite HdT in Hh1.
    unfold call. simpl. rewrite Hh. simpl.
    unfold reduce_max_1_keep. rewrite Hh1.
    eexists. split; [reflexivity|]. split; [unfold shape3; simpl; congruence|].
    intros b e Hb He. simpl. rewrite Nat.sub_0_r.
    apply max_to_ext. intros t Ht. apply Hat; [assumption | lia | assumption].
Qed.

(** The modes other than [mean]. *)
Lemma sum_or_max (md : string) :
  In md ["sum"; "mean"; "max"] -> md <> "mean" -> In md ["sum"; "max"].
Proof.
  simpl. intros [<- | [<- | [<- | []]]] Hne; auto.
Qed.

Lemma masking_call (md : string) (seq : tensor3 R) (mask : tensor2 bool) :
  In md ["sum"; "mean"; "max"] ->
  rows2 mask = dim0 seq -> cols2 mask = dim1 seq ->
  (md = "max" -> (1 <= dim1 seq)%nat) ->
  exists out,
    call (Examples.pooling md true None) (Seq seq) (Some mask) = Ok out /\
    shape3 out = (dim0 seq, 1%nat, dim2 seq) /\
    forall b e, (b < dim0 seq)%nat -> (e < dim2 seq)%nat ->
      let f t := at3 seq b t e * to_float (at2 mask b t) in
      at3 out b 0 e
      = if String.eqb md "max" then max_to f (dim1 seq - 1)
        else if String.eqb md "mean" then
          sum_upto f (dim1 seq)
          / (sum_upto (fun t => to_float (at2 mask b t)) (dim1 seq)
             + / 100000000)
        else sum_upto f (dim1 seq).
Proof.
  intros Hmd Hr Hc HT.
  destruct (upstream_masked seq mask Hr Hc) as (h & Hh & Hsh & Hat).
  unfold shape3 in Hsh. injection Hsh as Hh0 Hh1 Hh2.
  simpl in Hmd. destruct Hmd as [<- | [<- | [<- | []]]].
  - unfold call. simpl. rewrite Hh. simpl.
    eexists. split; [reflexivity|]. split; [unfold shape3; simpl; congruence|].
    intros b e Hb He. simpl. rewrite Hh1.
    apply sum_upto_ext. intros t Ht. apply Hat; assumption.
  - unfold call. simpl. rewrite Hh. simpl.
    unfold binop2. simpl. rewrite Hh0, Hh2, Hr, Hc, bdim_same, bdim_1_r.
    simpl. eexists. split; [reflexivity|]. split; [reflexivity|].
    intros b e Hb He. simpl. rewrite !bix_lt by assumption. rewrite Hh1.
    f_equal. apply sum_upto_ext. intros t Ht. apply Hat; assumption.
  - specialize (HT eq_refl).
    destruct (dim1 seq) as [|T] eqn:HdT; [lia|].
    try rewrite HdT in Hh. try rewrite HdT in Hat. try rewrite HdT in Hh1.
    unfold call. simpl. rewrite Hh. simpl.
    unfold reduce_max_1_keep. rewrite Hh1.
    eexists. split; [reflexivity|]. split; [unfold shape3; simpl; congruence|].
    intros b e Hb He. simpl. rewrite Nat.sub_0_r.
    apply max_to_ext. intros t Ht. apply Hat; [assumption | lia | assumption].
Qed.

(** The layers [__init__] and [build] produce. *)
Lemma built_explicit (md : string) (l0 l : t) (B T E r c : nat) :
  In md ["sum"; "mean"; "max"] ->
  init (PStr md) false = Ok l0 ->
  build l0 (Shapes [[B; T; E]; [r; c]]) = Ok l ->
  l = Examples.pooling md false (Some T).
Proof.
  intros Hmd Hi Hb.
  simpl in Hmd. destruct Hmd as [<- | [<- | [<- | []]]].
  all: unfold init in Hi; simpl in Hi; injection Hi as <-.
  all: unfold build in Hb; simpl in Hb; injection Hb as <-; reflexivity.
Qed.

Lemma built_masking (md : string) (l0 l : t) (shape : input_shape) :
  In md ["sum"; "mean"; "max"] ->
  init (PStr md) true = Ok l0 -> build l0 shape = Ok l ->
  l = Examples.pooling md true None.
Proof.
  intros Hmd Hi Hb.
  simpl in Hmd. destruct Hmd as [<- | [<- | [<- | []]]].
  all: unfold init in Hi; simpl in Hi; injection Hi as <-.
  all: unfold build in Hb; simpl in Hb; injection Hb as <-; reflexivity.
Qed.

Lemma sum_upto_ones (n : nat) : sum_upto (fun _ => 1) n = INR n.
Proof.
  induction n as [|n IH]; [reflexivity|].
  rewrite S_INR. simpl. rewrite IH. reflexivity.
Qed.

(** The number of positions below an in-range length is the length. *)
Lemma count_valid (len : Z) (n : nat) :
  (0 <= len <= Z.of_nat n)%Z ->
  sum_upto (fun t => to_float (Z.ltb (Z.of_nat t) len)) n = IZR len.
Proof.
  intros Hlen.
  rewrite (sum_upto_ext _ (fun t => 1 * to_float (Z.ltb (Z.of_nat t) len)))
    by (intros; lra).
  rewrite (masked_sum (fun _ => 1) len n Hlen), sum_upto_ones.
  rewrite INR_IZR_INZ, Z2Nat.id by lia. reflexivity.
Qed.

(** X1. In masking mode with [mode = "sum"], a call without a mask raises
    [ValueError]; with a mask of shape [(batch, T)] the output has shape
    [(batch, 1, embedding_dim)], its row [b] is the sum of the time steps
    whose mask entry is true, and the row does not change when the sequence
    changes at positions whose mask entry is false. *)
Theorem sum_pooling_masking_mode
    (l0 l : SequencePoolingLayer.t) (seq : tensor3 R) (mask : tensor2 bool) :
  init (PStr "sum") true = Ok l0 ->
  build l0 (Shape [dim0 seq; dim1 seq; dim2 seq]) = Ok l ->
  rows2 mask = dim0 seq -> cols2 mask = dim1 seq ->
  (exists msg, call l (Seq seq) None = Raise (ValueError msg)) /\
  exists out,
    call l (Seq seq) (Some mask) = Ok out /\
    shape3 out = (dim0 seq, 1%nat, dim2 seq) /\
    (forall b e, (b < dim0 seq)%nat -> (e < dim2 seq)%nat ->
       at3 out b 0 e
       = sum_upto (fun t => if at2 mask b t then at3 seq b t e else 0)
                  (dim1 seq)) /\
    (forall seq' b,
       shape3 seq' = shape3 seq -> (b < dim0 seq)%nat ->
       (forall t e, (t < dim1 seq)%nat -> (e < dim2 seq)%nat ->
          at2 mask b t = true -> at3 seq' b t e = at3 seq b t e) ->
       exists out',
         call l (Seq seq') (Some mask) = Ok out' /\
         forall e, (e < dim2 seq)%nat -> at3 out' b 0 e = at3 out b 0 e).
Proof.
  intros Hi Hb Hr Hc.
  assert (Hmd : In "sum" ["sum"; "mean"; "max"]) by (simpl; auto).
  rewrite (built_masking "sum" l0 l _ Hmd Hi Hb).
  split; [eexists; reflexivity|].
  assert (Hcall : forall s : tensor3 R,
    shape3 s = shape3 seq ->
    exists out,
      call (Examples.pooling "sum" true None) (Seq s) (Some mask) = Ok out /\
      shape3 out = (dim0 seq, 1%nat, dim2 seq) /\
      forall b e, (b < dim0 seq)%nat -> (e < dim2 seq)%nat ->
        at3 out b 0 e
        = sum_upto (fun t => if at2 mask b t then at3 s b t e else 0)
                   (dim1 seq)).
  { intros s Hs. unfold shape3 in Hs. injection Hs as Hs0 Hs1 Hs2.
    destruct (masking_call "sum" s mask Hmd) as (out & Hout & Hshape & Hval);
      [congruence | congruence | discriminate |].
    exists out. split; [exact Hout|]. split; [congruence|].
    intros b e Hb' He. rewrite Hval by congruence. cbv zeta. cbn [String.eqb
      Ascii.eqb Bool.eqb]. rewrite Hs1.
    apply sum_upto_ext. intros t Ht.
    destruct (at2 mask b t); simpl; lra. }
  destruct (Hcall seq eq_refl) as (out & Hout & Hshape & Hval).
  exists out. split; [exact Hout|]. split; [exact Hshape|].
  split; [exact Hval|].
  intros seq' b Hs' Hb' Hagree.
  destruct (Hcall seq' Hs') as (out' & Hout' & _ & Hval').
  exists out'. split; [exact Hout'|].
  intros e He. rewrite Hval', Hval by assumption.
  apply sum_upto_ext. intros t Ht.
  destruct (at2 mask b t) eqn:Hm; [apply Hagree; assumption | reflexivity].
Qed.

(** X2. The two mask sources agree on lengths in the range of [int32]:
    the layer in explicit-length mode on [seq] and the lengths as a float
    tensor, and the layer in masking mode on [seq] with the mask [t < len],
    return tensors of one shape with the same rows, for [sum] and [max]; for
    [mean] the rows agree when the length lies in [[0, max_length]], where
    the number of true mask entries is the length.  On the lengths as an
    integer tensor the explicit-length layer returns these rows too for
    [sum] and [max], and raises [TypeError] for [mean]. *)
Theorem explicit_and_masking_modes_agree
    (md : string) (e0 le m0 lm : SequencePoolingLayer.t)
    (seq : tensor3 R) (len : tensor2 Z) :
  In md ["sum"; "mean"; "max"] ->
  init (PStr md) false = Ok e0 ->
  build e0 (Shapes [[dim0 seq; dim1 seq; dim2 seq]; [rows2 len; cols2 len]])
    = Ok le ->
  init (PStr md) true = Ok m0 ->
  build m0 (Shape [dim0 seq; dim1 seq; dim2 seq]) = Ok lm ->
  rows2 len = dim0 seq -> cols2 len = 1%nat ->
  (1 <= dim1 seq)%nat ->
  let mask :=
    T2 (dim0 seq) (dim1 seq) (fun b t => Z.ltb (Z.of_nat t) (at2 len b 0)) in
  let in_int32 b := (- 2147483648 <= at2 len b 0 < 2147483648)%Z in
  exists out_e out_m,
    call le (SeqLenFloat seq (map2d IZR len)) None = Ok out_e /\
    call lm (Seq seq) (Some mask) = Ok out_m /\
    shape3 out_e = shape3 out_m /\
    (forall b e, (b < dim0 seq)%nat -> (e < dim2 seq)%nat ->
       in_int32 b ->
       (md = "mean" -> (0 <= at2 len b 0 <= Z.of_nat (dim1 seq))%Z) ->
       at3 out_e b 0 e = at3 out_m b 0 e) /\
    (md <> "mean" ->
     exists out_i,
       call le (SeqLen seq len) None = Ok out_i /\
       shape3 out_i = shape3 out_m /\
       forall b e, (b < dim0 seq)%nat -> (e < dim2 seq)%nat ->
         in_int32 b -> at3 out_i b 0 e = at3 out_m b 0 e) /\
    (md = "mean" ->
     exists msg, call le (SeqLen seq len) None = Raise (TypeError msg)).
Proof.
  intros Hmd Hie Hbe Him Hbm Hr Hc HT mask in_int32.
  rewrite (built_explicit md e0 le _ _ _ _ _ Hmd Hie Hbe).
  rewrite (built_masking md m0 lm _ Hmd Him Hbm).
  destruct (explicit_call_float md seq (map2d IZR len) Hmd Hr Hc (fun _ => HT))
    as (oe & Hoe & Hse & Hve).
  destruct (masking_call md seq mask Hmd eq_refl eq_refl (fun _ => HT))
    as (om & Hom & Hsm & Hvm).
  exists oe, om. split; [exact Hoe|]. split; [exact Hom|].
  split; [congruence|]. split; [|split].
  - intros b e Hb He _ Hlen. rewrite Hve, Hvm by assumption. cbv zeta.
    cbn [at2 map2d]. rewrite cast_int32_IZR.
    simpl in Hmd. destruct Hmd as [<- | [<- | [<- | []]]];
      cbn [String.eqb Ascii.eqb Bool.eqb at2 mask]; try reflexivity.
    rewrite count_valid by (apply Hlen; reflexivity). reflexivity.
  - intros Hne.
    destruct (explicit_call md seq len (sum_or_max md Hmd Hne) Hr Hc
                (fun _ => HT)) as (oi & Hoi & Hsi & Hvi).
    exists oi. split; [exact Hoi|]. split; [congruence|].
    intros b e Hb He _. rewrite Hvi, Hvm by assumption. cbv zeta.
    simpl in Hmd. destruct Hmd as [<- | [<- | [<- | []]]];
      cbn [String.eqb Ascii.eqb Bool.eqb at2 mask]; try reflexivity.
    contradiction Hne. reflexivity.
  - intros ->. exact (explicit_call_mean_integer seq len Hr Hc).
Qed.


(** X4. A row without valid positions pools to zero: in explicit-length
    mode, a length at or below 0 (and in the range of [int32]) gives the
    output row 0, in each of the three modes when the lengths are given as a
    float tensor, where the divisor of [mean] is not zero, and in the modes
    [sum] and [max] when they are given as an integer tensor. *)
Theorem empty_row_pools_to_zero
    (md : string) (l0 l : SequencePoolingLayer.t)
    (seq : tensor3 R) (len : tensor2 Z) :
  In md ["sum"; "mean"; "max"] ->
  init (PStr md) false = Ok l0 ->
  build l0 (Shapes [[dim0 seq; dim1 seq; dim2 seq]; [rows2 len; cols2 len]])
    = Ok l ->
  rows2 len = dim0 seq -> cols2 len = 1%nat ->
  (1 <= dim1 seq)%nat ->
  (exists out,
     call l (SeqLenFloat seq (map2d IZR len)) None = Ok out /\
     forall b e, (b < dim0 seq)%nat -> (e < dim2 seq)%nat ->
       (- 2147483648 <= at2 len b 0 <= 0)%Z ->
       IZR (at2 len b 0) + / 100000000 <> 0 /\ at3 out b 0 e = 0) /\
  (md <> "mean" ->
   exists out,
     call l (SeqLen seq len) None = Ok out /\
     forall b e, (b < dim0 seq)%nat -> (e < dim2 seq)%nat ->
       (- 2147483648 <= at2 len b 0 <= 0)%Z -> at3 out b 0 e = 0).
Proof.
  intros Hmd Hi Hb Hr Hc HT.
  rewrite (built_explicit md l0 l _ _ _ _ _ Hmd Hi Hb).
  assert (Hzero : forall b e t, (at2 len b 0 <= 0)%Z ->
            at3 seq b t e * to_float (Z.ltb (Z.of_nat t) (at2 len b 0)) = 0).
  { intros b e t Hlen. destruct (Z.ltb_spec (Z.of_nat t) (at2 len b 0));
      simpl; [lia | lra]. }
  split.
  - destruct (explicit_call_float md seq (map2d IZR len) Hmd Hr Hc
                (fun _ => HT)) as (out & Hout & _ & Hval).
    exists out. split; [exact Hout|].
    intros b e Hb' He [_ Hlen].
    split.
    { assert (Hcases : (at2 len b 0 = 0 \/ at2 len b 0 <= -1)%Z) by lia.
      destruct Hcases as [-> | Hneg]; [lra|].
      apply IZR_le in Hneg. lra. }
    rewrite Hval by assumption. cbv zeta.
    cbn [at2 map2d]. rewrite cast_int32_IZR.
    simpl in Hmd. destruct Hmd as [<- | [<- | [<- | []]]];
      cbn [String.eqb Ascii.eqb Bool.eqb].
    + apply sum_upto_zero. intros t _. apply Hzero, Hlen.
    + rewrite sum_upto_zero by (intros t _; apply Hzero, Hlen).
      unfold Rdiv. lra.
    + destruct (max_to_attained
                  (fun t => at3 seq b t e
                            * to_float (Z.ltb (Z.of_nat t) (at2 len b 0)))
                  (dim1 seq - 1)) as (t & _ & ->).
      apply Hzero, Hlen.
  - intros Hne.
    destruct (explicit_call md seq len (sum_or_max md Hmd Hne) Hr Hc
                (fun _ => HT)) as (out & Hout & _ & Hval).
    exists out. split; [exact Hout|].
    intros b e Hb' He [_ Hlen]. rewrite Hval by assumption. cbv zeta.
    destruct (String.eqb md "max").
    + destruct (max_to_attained
                  (fun t => at3 seq b t e
                            * to_float (Z.ltb (Z.of_nat t) (at2 len b 0)))
                  (dim1 seq - 1)) as (t & _ & ->).
      apply Hzero, Hlen.
    + apply sum_upto_zero. intros t _. apply Hzero, Hlen.
Qed.

(** X5. In explicit-length mode with [mode = "max"], the output of a row
    that has padding (a length below the number of time steps) is never
    negative, whatever the valid values are. *)
Theorem max_pooling_nonnegative_with_padding
    (l0 l : SequencePoolingLayer.t) (seq : tensor3 R) (len : tensor2 Z) :
  init (PStr "max") false = Ok l0 ->
  build l0 (Shapes [[dim0 seq; dim1 seq; dim2 seq]; [rows2 len; cols2 len]])
    = Ok l ->
  rows2 len = dim0 seq -> cols2 len = 1%nat ->
  (1 <= dim1 seq)%nat ->
  exists out,
    call l (SeqLen seq len) None = Ok out /\
    forall b e, (b < dim0 seq)%nat -> (e < dim2 seq)%nat ->
      (at2 len b 0 < Z.of_nat (dim1 seq))%Z -> 0 <= at3 out b 0 e.
Proof.
  intros Hi Hb Hr Hc HT.
  assert (Hmd : In "max" ["sum"; "mean"; "max"]) by (simpl; auto).
  assert (Hmd' : In "max" ["sum"; "max"]) by (simpl; auto).
  rewrite (built_explicit "max" l0 l _ _ _ _ _ Hmd Hi Hb).
  destruct (explicit_call "max" seq len Hmd' Hr Hc (fun _ => HT))
    as (out & Hout & _ & Hval).
  exists out. split; [exact Hout|].
  intros b e Hb' He Hlen. rewrite Hval by assumption. cbv zeta.
  cbn [String.eqb Ascii.eqb Bool.eqb].
  set (f := fun t => at3 seq b t e
                     * to_float (Z.ltb (Z.of_nat t) (at2 len b 0))).
  assert (Hlast : f (dim1 seq - 1)%nat = 0).
  { unfold f.
    destruct (Z.ltb_spec (Z.of_nat (dim1 seq - 1)) (at2 len b 0));
      simpl; [lia | lra]. }
  rewrite <- Hlast. apply (max_to_upper f). lia.
Qed.

(** X6. [compute_output_shape] announces the shape [call] produces: for a
    layer of either mask source and of any mode, it returns
    [(None, 1, embedding_dim)] on the shapes the layer was built on, and the
    output of [call] has shape [(batch, 1, embedding_dim)]; in
    explicit-length mode this is so for a float length tensor in every mode,
    and for an integer length tensor in the modes [sum] and [max]. *)
Theorem pooling_output_shape_as_computed
    (md : string) (e0 le m0 lm : SequencePoolingLayer.t)
    (seq : tensor3 R) (len : tensor2 R) (ilen : tensor2 Z)
    (mask : tensor2 bool) :
  In md ["sum"; "mean"; "max"] ->
  init (PStr md) false = Ok e0 ->
  build e0 (Shapes [[dim0 seq; dim1 seq; dim2 seq]; [rows2 len; cols2 len]])
    = Ok le ->
  init (PStr md) true = Ok m0 ->
  build m0 (Shape [dim0 seq; dim1 seq; dim2 seq]) = Ok lm ->
  rows2 len = dim0 seq -> cols2 len = 1%nat ->
  rows2 ilen = dim0 seq -> cols2 ilen = 1%nat ->
  rows2 mask = dim0 seq -> cols2 mask = dim1 seq ->
  (1 <= dim1 seq)%nat ->
  let announced := PTuple [PNone; PInt 1; PInt (Z.of_nat (dim2 seq))] in
  (compute_output_shape le
     (Shapes [[dim0 seq; dim1 seq; dim2 seq]; [rows2 len; cols2 len]])
   = Ok announced /\
   (exists out, call le (SeqLenFloat seq len) None = Ok out /\
                shape3 out = (dim0 seq, 1%nat, dim2 seq)) /\
   (md <> "mean" ->
    exists out, call le (SeqLen seq ilen) None = Ok out /\
                shape3 out = (dim0 seq, 1%nat, dim2 seq))) /\
  (compute_output_shape lm (Shape [dim0 seq; dim1 seq; dim2 seq])
   = Ok announced /\
   exists out, call lm (Seq seq) (Some mask) = Ok out /\
               shape3 out = (dim0 seq, 1%nat, dim2 seq)).
Proof.
  intros Hmd Hie Hbe Him Hbm Hr Hc Hir Hic Hmr Hmc HT announced.
  rewrite (built_explicit md e0 le _ _ _ _ _ Hmd Hie Hbe).
  rewrite (built_masking md m0 lm _ Hmd Him Hbm).
  destruct (explicit_call_float md seq len Hmd Hr Hc (fun _ => HT))
    as (oe & Hoe & Hse & _).
  destruct (masking_call md seq mask Hmd Hmr Hmc (fun _ => HT))
    as (om & Hom & Hsm & _).
  split; (split; [reflexivity|]).
  - split; [exists oe; split; assumption|].
    intros Hne.
    destruct (explicit_call md seq ilen (sum_or_max md Hmd Hne) Hir Hic
                (fun _ => HT)) as (oi & Hoi & Hsi & _).
    exists oi. split; assumption.
  - exists om. split; assumption.
Qed.

Lemma sum_pooling_masking_mode_witness :
  exists out,
    call (Examples.pooling "sum" true None) (Seq Examples.seq_1x3x2)
         (Some Examples.mask_110) = Ok out /\
    at3 out 0 0 0 = 4 /\ at3 out 0 0 1 = 6.
Proof.
  destruct (sum_pooling_masking_mode
              (Examples.pooling "sum" true None)
              (Examples.pooling "sum" true None)
              Examples.seq_1x3x2 Examples.mask_110
              eq_refl eq_refl eq_refl eq_refl)
    as (_ & out & Hcall & _ & Hval & _).
  exists out. split; [exact Hcall|].
  rewrite (Hval 0%nat 0%nat), (Hval 0%nat 1%nat) by (simpl; lia).
  simpl. split; lra.
Defined.

Lemma explicit_and_masking_modes_agree_witness :
  exists out_e out_m,
    call (Examples.pooling "mean" false (Some 3%nat))
         (SeqLenFloat Examples.seq_1x3x2 (map2d IZR Examples.len_2)) None
    = Ok out_e /\
    call (Examples.pooling "mean" true None) (Seq Examples.seq_1x3x2)
         (Some (T2 1 3 (fun b t =>
                          Z.ltb (Z.of_nat t) (at2 Examples.len_2 b 0))))
    = Ok out_m /\
    at3 out_e 0 0 1 = at3 out_m 0 0 1.
Proof.
  assert (Hmd : In "mean" ["sum"; "mean"; "max"]) by (simpl; auto).
  assert (HT : (1 <= dim1 Examples.seq_1x3x2)%nat) by (simpl; lia).
  destruct (explicit_and_masking_modes_agree "mean"
              (Examples.pooling "mean" false None)
              (Examples.pooling "mean" false (Some 3%nat))
              (Examples.pooling "mean" true None)
              (Examples.pooling "mean" true None)
              Examples.seq_1x3x2 Examples.len_2
              Hmd eq_refl eq_refl eq_refl eq_refl eq_refl eq_refl HT)
    as (oe & om & Hoe & Hom & _ & Heq & _).
  exists oe, om. split; [exact Hoe|]. split; [exact Hom|].
  apply Heq; [simpl; lia | simpl; lia | simpl; lia | intros _; simpl; lia].
Defined.


Lemma empty_row_pools_to_zero_witness :
  exists out,
    call (Examples.pooling "mean" false (Some 1%nat))
         (SeqLenFloat Examples.keys_1 (map2d IZR Examples.len_0)) None
    = Ok out /\
    at3 out 0 0 0 = 0.
Proof.
  assert (Hmd : In "mean" ["sum"; "mean"; "max"]) by (simpl; auto).
  assert (HT : (1 <= dim1 Examples.keys_1)%nat) by (simpl; lia).
  destruct (empty_row_pools_to_zero "mean"
              (Examples.pooling "mean" false None)
              (Examples.pooling "mean" false (Some 1%nat))
              Examples.keys_1 Examples.len_0
              Hmd eq_refl eq_refl eq_refl eq_refl HT)
    as ((out & Hcall & Hzero) & _).
  exists out. split; [exact Hcall|].
  apply Hzero; simpl; lia.
Defined.

Lemma max_pooling_nonnegative_with_padding_witness :
  exists out,
    call (Examples.pooling "max" false (Some 3%nat))
         (SeqLen Examples.seq_1x3x2 Examples.len_2) None = Ok out /\
    0 <= at3 out 0 0 0.
Proof.
  assert (HT : (1 <= dim1 Examples.seq_1x3x2)%nat) by (simpl; lia).
  destruct (max_pooling_nonnegative_with_padding
              (Examples.pooling "max" false None)
              (Examples.pooling "max" false (Some 3%nat))
              Examples.seq_1x3x2 Examples.len_2
              eq_refl eq_refl eq_refl eq_refl HT)
    as (out & Hcall & Hnn).
  exists out. split; [exact Hcall|].
  apply Hnn; simpl; lia.
Defined.

Lemma pooling_output_shape_as_computed_witness :
  compute_output_shape (Examples.pooling "mean" false (Some 3%nat))
    (Shapes [[1; 3; 2]; [1; 1]])%nat
  = Ok (PTuple [PNone; PInt 1; PInt 2]) /\
  exists out,
    call (Examples.pooling "mean" false (Some 3%nat))
         (SeqLenFloat Examples.seq_1x3x2 Examples.len_2_float) None
    = Ok out /\
    shape3 out = (1%nat, 1%nat, 2%nat).
Proof.
  assert (Hmd : In "mean" ["sum"; "mean"; "max"]) by (simpl; auto).
  assert (HT : (1 <= dim1 Examples.seq_1x3x2)%nat) by (simpl; lia).
  destruct (pooling_output_shape_as_computed "mean"
              (Examples.pooling "mean" false None)
              (Examples.pooling "mean" false (Some 3%nat))
              (Examples.pooling "mean" true None)
              (Examples.pooling "mean" true None)
              Examples.seq_1x3x2 Examples.len_2_float Examples.len_2
              Examples.mask_110
              Hmd eq_refl eq_refl eq_refl eq_refl
              eq_refl eq_refl eq_refl eq_refl eq_refl eq_refl HT)
    as ((Hshape & (out & Hcall & Hout) & _) & _).
  split; [exact Hshape|].
  exists out. split; assumption.
Defined.

End PoolingModes.

(** ** AttentionSequencePoolingLayer: shape checks and the pooled output *)

Section AttentionBuild.
Import TF.
Open Scope R_scope.

(** X7. [build] in explicit-length mode accepts exactly a list of three
    shapes [(b, 1, e)], [(b', T, e)] and [(b'', 1)]; anything that is not a
    list of three shapes of ranks 3, 3 and 2 raises [ValueError]; three shapes
    of these ranks with different embedding widths, a query time dimension
    other than 1 or a length width other than 1 raise [TypeError], because
    the message of the intended [ValueError] cannot be formatted.  In masking
    mode [build] accepts every shape. *)
Theorem attention_build_checks
    (self : AttentionSequencePoolingLayer.t) (shape : input_shape) :
  (AttentionSequencePoolingLayer.supports_masking self = true ->
   AttentionSequencePoolingLayer.build self shape = Ok self) /\
  (AttentionSequencePoolingLayer.supports_masking self = false ->
   (AttentionSequencePoolingLayer.build self shape = Ok self <->
    exists b e b' T b'',
      shape = Shapes [[b; 1%nat; e]; [b'; T; e]; [b''; 1%nat]]) /\
   ((exists msg,
       AttentionSequencePoolingLayer.build self shape = Raise (TypeError msg))
    <->
    exists s0 s1 s2,
      shape = Shapes [s0; s1; s2] /\
      List.length s0 = 3%nat /\ List.length s1 = 3%nat /\
      List.length s2 = 2%nat /\
      ~ (last s0 O = last s1 O /\ nth 1 s0 O = 1%nat /\ nth 1 s2 O = 1%nat)) /\
   ((exists msg,
       AttentionSequencePoolingLayer.build self shape = Raise (ValueError msg))
    <->
    ~ exists s0 s1 s2,
        shape = Shapes [s0; s1; s2] /\
        List.length s0 = 3%nat /\ List.length s1 = 3%nat /\
        List.length s2 = 2%nat)).
Proof.
  unfold AttentionSequencePoolingLayer.build.
  split; intros Hm; rewrite Hm; cbn [negb]; [reflexivity|].
  destruct shape as [s | l].
  { split; [|split]; split.
    - discriminate.
    - intros (b & e & b' & T & b'' & H). discriminate H.
    - intros (msg & H). discriminate H.
    - intros (s0 & s1 & s2 & H & _). discriminate H.
    - intros _ (s0 & s1 & s2 & H & _). discriminate H.
    - intros _. eexists. reflexivity. }
  destruct l as [|s0 [|s1 [|s2 [|s3 l]]]].
  1, 2, 3, 5:
    split; [|split]; split;
    [ discriminate
    | intros (b & e & b' & T & b'' & H); discriminate H
    | intros (msg & H); discriminate H
    | intros (t0 & t1 & t2 & H & _); discriminate H
    | intros _ (t0 & t1 & t2 & H & _); discriminate H
    | intros _; eexists; reflexivity ].
  destruct (Nat.eqb_spec (List.length s0) 3) as [H0|H0];
    destruct (Nat.eqb_spec (List.length s1) 3) as [H1|H1];
    destruct (Nat.eqb_spec (List.length s2) 2) as [H2|H2]; cbn [negb orb].
  2, 3, 4, 5, 6, 7, 8:
    split; [|split]; split;
    [ discriminate
    | intros (b & e & b' & T & b'' & H); injection H as -> -> ->;
      simpl in *; congruence
    | intros (msg & H); discriminate H
    | intros (t0 & t1 & t2 & H & L0 & L1 & L2 & _); injection H as -> -> ->;
      congruence
    | intros _ (t0 & t1 & t2 & H & L0 & L1 & L2); injection H as -> -> ->;
      congruence
    | intros _; eexists; reflexivity ].
  destruct s0 as [|b [|q1 [|e [|x s0]]]]; try discriminate H0.
  destruct s1 as [|b' [|T [|e' [|x s1]]]]; try discriminate H1.
  destruct s2 as [|b'' [|c [|x s2]]]; try discriminate H2.
  cbn [last nth].
  destruct (Nat.eqb_spec e e') as [He|He];
    destruct (Nat.eqb_spec q1 1) as [Hq|Hq];
    destruct (Nat.eqb_spec c 1) as [Hc|Hc]; cbn [negb orb].
  1: { subst. split; [|split]; split.
       - intros _. exists b, e', b', T, b''. reflexivity.
       - reflexivity.
       - intros (msg & H). discriminate H.
       - intros (t0 & t1 & t2 & H & _ & _ & _ & Hbad).
         injection H as <- <- <-. exfalso. apply Hbad. simpl. auto.
       - intros (msg & H). discriminate H.
       - intros Hbad. exfalso. apply Hbad.
         eexists _, _, _. split; [reflexivity|]. simpl. auto. }
  all: split; [|split]; split;
    [ discriminate
    | intros (b0 & e0 & b0' & T0 & b0'' & H); injection H as -> -> -> -> -> -> -> ->;
      congruence
    | intros _; eexists _, _, _; split; [reflexivity|];
      split; [reflexivity|]; split; [reflexivity|]; split; [reflexivity|];
      simpl; intros (A1 & A2 & A3); congruence
    | intros _; eexists; reflexivity
    | intros (msg & H); discriminate H
    | intros Hbad; exfalso; apply Hbad;
      eexists _, _, _; split; [reflexivity|]; simpl; auto ].
Qed.

Lemma attention_build_checks_witness :
  AttentionSequencePoolingLayer.build
    (AttentionSequencePoolingLayer.Build PNone PNone true false)
    (Shapes [[4; 1; 8]; [4; 5; 8]; [4; 1]])%nat
  = Ok (AttentionSequencePoolingLayer.Build PNone PNone true false) /\
  exists msg,
    AttentionSequencePoolingLayer.build
      (AttentionSequencePoolingLayer.Build PNone PNone true false)
      (Shapes [[4; 1; 8]; [4; 5; 6]; [4; 1]])%nat
    = Raise (TypeError msg).
Proof.
  destruct (attention_build_checks
              (AttentionSequencePoolingLayer.Build PNone PNone true false)
              (Shapes [[4; 1; 8]; [4; 5; 8]; [4; 1]])%nat)
    as (_ & Hok).
  destruct (attention_build_checks
              (AttentionSequencePoolingLayer.Build PNone PNone true false)
              (Shapes [[4; 1; 8]; [4; 5; 6]; [4; 1]])%nat)
    as (_ & Hbad).
  destruct (Hok eq_refl) as ((_ & Haccept) & _).
  destruct (Hbad eq_refl) as (_ & (_ & Hreject) & _).
  split.
  - apply Haccept. eexists _, _, _, _, _. reflexivity.
  - apply Hreject. eexists _, _, _. split; [reflexivity|].
    split; [reflexivity|]. split; [reflexivity|]. split; [reflexivity|].
    simpl. intros (H & _). discriminate H.
Defined.

End AttentionBuild.

Section AttentionPooling.
Import TF.
Open Scope R_scope.

Variable LocalActivationUnit :
  pyval -> pyval -> tensor3 R -> tensor3 R -> tensor3 R.

Lemma sum_upto_plus (f g : nat -> R) (n : nat) :
  sum_upto (fun t => f t + g t) n = sum_upto f n + sum_upto g n.
Proof.
  induction n as [|n IH]; simpl; [lra | rewrite IH; lra].
Qed.

Lemma sum_upto_le (f g : nat -> R) (n : nat) :
  (forall t, (t < n)%nat -> f t <= g t) -> sum_upto f n <= sum_upto g n.
Proof.
  induction n as [|n IH]; intros Hfg; simpl; [lra|].
  pose proof (Hfg n ltac:(lia)).
  assert (sum_upto f n <= sum_upto g n) by (apply IH; intros; apply Hfg; lia).
  lra.
Qed.

Lemma sum_upto_const (c : R) (n : nat) :
  sum_upto (fun _ => c) n = INR n * c.
Proof.
  induction n as [|n IH]; [simpl; lra|].
  rewrite S_INR. simpl. rewrite IH. lra.
Qed.

(** A weighted sum with non-negative weights of total 1 stays between the
    bounds of what it averages. *)
Lemma weighted_sum_bounds (w x : nat -> R) (lo hi : R) (n : nat) :
  (forall t, (t < n)%nat -> 0 <= w t) ->
  sum_upto w n = 1 ->
  (forall t, (t < n)%nat -> lo <= x t <= hi) ->
  lo <= sum_upto (fun t => w t * x t) n <= hi.
Proof.
  intros Hw Hone Hx. split.
  - replace lo with (sum_upto (fun t => w t * lo) n)
      by (rewrite sum_upto_scal, Hone; lra).
    apply sum_upto_le. intros t Ht.
    apply Rmult_le_compat_l; [apply Hw, Ht | apply Hx, Ht].
  - replace hi with (sum_upto (fun t => w t * hi) n)
      by (rewrite sum_upto_scal, Hone; lra).
    apply sum_upto_le. intros t Ht.
    apply Rmult_le_compat_l; [apply Hw, Ht | apply Hx, Ht].
Qed.

(** What [AttentionSequencePoolingLayer.call] returns in explicit-length
    mode. *)
Lemma attention_call_explicit
    (hidden_size activation : pyval) (weight_normalization : bool)
    (queries keys : tensor3 R) (keys_length : tensor2 Z) :
  shape3 (LocalActivationUnit hidden_size activation queries keys)
  = (dim0 keys, dim1 keys, 1%nat) ->
  rows2 keys_length = dim0 keys -> cols2 keys_length = 1%nat ->
  exists out,
    AttentionSequencePoolingLayer.call LocalActivationUnit
      (AttentionSequencePoolingLayer.Build hidden_size activation
         weight_normalization false)
      (QueryKeysLength queries keys keys_length) None = Ok out /\
    shape3 out = (dim0 keys, 1%nat, dim2 keys) /\
    forall b, (b < dim0 keys)%nat ->
      let filled t :=
        if Z.ltb (Z.of_nat t) (at2 keys_length b 0) then
          at3 (LocalActivationUnit hidden_size activation queries keys) b t 0
        else if weight_normalization then - 2 ^ 32 + 1 else 0 in
      let weight t :=
        if weight_normalization then
          exp (filled t) / sum_upto (fun j => exp (filled j)) (dim1 keys)
        else filled t in
      forall e, (e < dim2 keys)%nat ->
        at3 out b 0 e
        = sum_upto (fun t => weight t * at3 keys b t e) (dim1 keys).
Proof.
  intros Hs Hr Hc.
  destruct (attention_weights_explicit LocalActivationUnit hidden_size
              activation weight_normalization queries keys keys_length
              Hs Hr Hc) as (w & Hw & Hshape & Hval).
  unfold shape3 in Hshape. injection Hshape as Hw0 Hw1 Hw2.
  unfold AttentionSequencePoolingLayer.call. rewrite Hw.
  cbn [bind]. unfold matmul. rewrite Hw0, Hw2, !Nat.eqb_refl.
  cbn [andb]. eexists. split; [reflexivity|].
  split; [unfold shape3; cbn [dim0 dim1 dim2]; congruence|].
  intros b Hb. cbv zeta. intros e He. cbn [at3].
  apply sum_upto_ext. intros t Ht.
  rewrite (Hval b Hb t Ht). reflexivity.
Qed.

(** What [AttentionSequencePoolingLayer.call] returns in masking mode, the
    mask of the keys being the last of the masks passed. *)
Lemma attention_call_masking
    (hidden_size activation : pyval) (weight_normalization : bool)
    (queries keys : tensor3 R) (masks : list (tensor2 bool))
    (key_mask : tensor2 bool) :
  shape3 (LocalActivationUnit hidden_size activation queries keys)
  = (dim0 keys, dim1 keys, 1%nat) ->
  rows2 key_mask = dim0 keys -> cols2 key_mask = dim1 keys ->
  exists out,
    AttentionSequencePoolingLayer.call LocalActivationUnit
      (AttentionSequencePoolingLayer.Build hidden_size activation
         weight_normalization true)
      (QueryKeys queries keys) (Some (masks ++ [key_mask])%list) = Ok out /\
    shape3 out = (dim0 keys, 1%nat, dim2 keys) /\
    forall b, (b < dim0 keys)%nat ->
      let filled t :=
        if at2 key_mask b t then
          at3 (LocalActivationUnit hidden_size activation queries keys) b t 0
        else if weight_normalization then - 2 ^ 32 + 1 else 0 in
      let weight t :=
        if weight_normalization then
          exp (filled t) / sum_upto (fun j => exp (filled j)) (dim1 keys)
        else filled t in
      forall e, (e < dim2 keys)%nat ->
        at3 out b 0 e
        = sum_upto (fun t => weight t * at3 keys b t e) (dim1 keys).
Proof.
  intros Hs Hr Hc.
  assert (Hweights : exists w,
    AttentionSequencePoolingLayer.attention_weights LocalActivationUnit
      (AttentionSequencePoolingLayer.Build hidden_size activation
         weight_normalization true)
      (QueryKeys queries keys) (Some (masks ++ [key_mask])%list)
    = Ok (w, keys) /\
    shape3 w = (dim0 keys, 1%nat, dim1 keys) /\
    forall b, (b < dim0 keys)%nat ->
      forall t, (t < dim1 keys)%nat ->
        at3 w b 0 t
        = if weight_normalization then
            exp (if at2 key_mask b t then
                   at3 (LocalActivationUnit hidden_size activation queries
                          keys) b t 0
                 else - 2 ^ 32 + 1)
            / sum_upto
                (fun j => exp (if at2 key_mask b j then
                                 at3 (LocalActivationUnit hidden_size
                                        activation queries keys) b j 0
                               else - 2 ^ 32 + 1)) (dim1 keys)
          else if at2 key_mask b t then
                 at3 (LocalActivationUnit hidden_size activation queries
                        keys) b t 0
               else 0).
  { unfold shape3 in Hs. injection Hs as Hs0 Hs1 Hs2.
    unfold AttentionSequencePoolingLayer.attention_weights.
    cbn [AttentionSequencePoolingLayer.supports_masking
         AttentionSequencePoolingLayer.hidden_size
         AttentionSequencePoolingLayer.activation
         AttentionSequencePoolingLayer.weight_normalization].
    rewrite rev_app_distr. cbn [rev app bind].
    unfold where3.
    cbn [transpose_021 expand_dims_1 scale ones_like zeros_like map3d
         dim0 dim1 dim2].
    destruct weight_normalization;
      cbn [transpose_021 expand_dims_1 scale ones_like zeros_like map3d
           dim0 dim1 dim2];
      rewrite Hs0, Hs1, Hs2, Hr, Hc, !Nat.eqb_refl; cbn [andb bind].
    - eexists. split; [reflexivity|]. split; [reflexivity|].
      intros b Hb t Ht.
      cbn [softmax at3 dim2 transpose_021 expand_dims_1 scale ones_like map3d].
      rewrite (sum_upto_ext _
                 (fun j => exp (if at2 key_mask b j
                                then at3 (LocalActivationUnit hidden_size
                                            activation queries keys) b j 0
                                else - 2 ^ 32 + 1))).
      + destruct (at2 key_mask b t);
          [reflexivity | rewrite Rmult_1_l; reflexivity].
      + intros j Hj.
        destruct (at2 key_mask b j);
          [reflexivity | rewrite Rmult_1_l; reflexivity].
    - eexists. split; [reflexivity|]. split; [reflexivity|].
      intros b Hb t Ht. reflexivity. }
  destruct Hweights as (w & Hw & Hshape & Hval).
  unfold shape3 in Hshape. injection Hshape as Hw0 Hw1 Hw2.
  unfold AttentionSequencePoolingLayer.call. rewrite Hw.
  cbn [bind]. unfold matmul. rewrite Hw0, Hw2, !Nat.eqb_refl.
  cbn [andb]. eexists. split; [reflexivity|].
  split; [unfold shape3; cbn [dim0 dim1 dim2]; congruence|].
  intros b Hb. cbv zeta. intros e He. cbn [at3].
  apply sum_upto_ext. intros t Ht.
  rewrite (Hval b Hb t Ht). destruct weight_normalization; reflexivity.
Qed.

(** X8. Shapes that [build] accepts make [call] succeed: when the
    explicit-length layer has been built on the shapes of its three inputs,
    the batch sizes of keys and lengths agree and the scoring network returns
    one score per position, [call] returns a tensor of shape
    [(batch, 1, embedding_dim)], the shape [compute_output_shape]
    announces. *)
Theorem attention_build_then_call
    (hidden_size activation : pyval) (weight_normalization : bool)
    (queries keys : tensor3 R) (keys_length : tensor2 Z)
    (l0 l : AttentionSequencePoolingLayer.t) :
  let shapes :=
    Shapes [[dim0 queries; dim1 queries; dim2 queries];
            [dim0 keys; dim1 keys; dim2 keys];
            [rows2 keys_length; cols2 keys_length]] in
  AttentionSequencePoolingLayer.init hidden_size activation
    weight_normalization false = Ok l0 ->
  AttentionSequencePoolingLayer.build l0 shapes = Ok l ->
  shape3 (LocalActivationUnit hidden_size activation queries keys)
  = (dim0 keys, dim1 keys, 1%nat) ->
  rows2 keys_length = dim0 keys ->
  exists out,
    AttentionSequencePoolingLayer.call LocalActivationUnit l
      (QueryKeysLength queries keys keys_length) None = Ok out /\
    shape3 out = (dim0 keys, 1%nat, dim2 keys) /\
    AttentionSequencePoolingLayer.compute_output_shape l shapes
    = Ok (PTuple [PNone; PInt 1; PInt (Z.of_nat (dim2 keys))]).
Proof.
  intros shapes Hinit Hbuild Hs Hr. injection Hinit as <-.
  unfold AttentionSequencePoolingLayer.build, shapes in Hbuild.
  cbn [AttentionSequencePoolingLayer.supports_masking negb List.length
       Nat.eqb orb last nth] in Hbuild.
  destruct (Nat.eqb_spec (dim2 queries) (dim2 keys)) as [He|He];
    destruct (Nat.eqb_spec (dim1 queries) 1) as [Hq|Hq];
    destruct (Nat.eqb_spec (cols2 keys_length) 1) as [Hc|Hc];
    cbn [negb orb] in Hbuild; try discriminate Hbuild.
  injection Hbuild as <-.
  destruct (attention_call_explicit hidden_size activation
              weight_normalization queries keys keys_length Hs Hr Hc)
    as (out & Hout & Hshape & _).
  exists out. split; [exact Hout|]. split; [exact Hshape|].
  unfold AttentionSequencePoolingLayer.compute_output_shape, shapes.
  cbn [rev app]. rewrite He. reflexivity.
Qed.

(** X9. Without weight normalisation the pooled output of a row is the
    score-weighted sum of the keys over its valid positions only: the padded
    positions get weight 0, so the keys stored there do not enter the
    output. *)
Theorem attention_unnormalised_pooling
    (hidden_size activation : pyval)
    (queries keys : tensor3 R) (keys_length : tensor2 Z)
    (l : AttentionSequencePoolingLayer.t) :
  AttentionSequencePoolingLayer.init hidden_size activation false false
  = Ok l ->
  shape3 (LocalActivationUnit hidden_size activation queries keys)
  = (dim0 keys, dim1 keys, 1%nat) ->
  rows2 keys_length = dim0 keys -> cols2 keys_length = 1%nat ->
  exists out,
    AttentionSequencePoolingLayer.call LocalActivationUnit l
      (QueryKeysLength queries keys keys_length) None = Ok out /\
    forall b e, (b < dim0 keys)%nat -> (e < dim2 keys)%nat ->
      (0 <= at2 keys_length b 0 <= Z.of_nat (dim1 keys))%Z ->
      at3 out b 0 e
      = sum_upto
          (fun t =>
             at3 (LocalActivationUnit hidden_size activation queries keys) b t 0
             * at3 keys b t e)
          (Z.to_nat (at2 keys_length b 0)).
Proof.
  intros Hinit Hs Hr Hc. injection Hinit as <-.
  destruct (attention_call_explicit hidden_size activation false
              queries keys keys_length Hs Hr Hc)
    as (out & Hout & _ & Hval).
  exists out. split; [exact Hout|].
  intros b e Hb He Hlen. rewrite (Hval b Hb e He).
  rewrite (sum_upto_cut _ (Z.to_nat (at2 keys_length b 0)) (dim1 keys)).
  - apply sum_upto_ext. intros t Ht.
    destruct (Z.ltb_spec (Z.of_nat t) (at2 keys_length b 0));
      [reflexivity | lia].
  - lia.
  - intros t Ht.
    destruct (Z.ltb_spec (Z.of_nat t) (at2 keys_length b 0)); [lia | lra].
Qed.

(** X10. With weight normalisation the pooled output is a convex combination
    of the keys of the row: each output coordinate lies between any bounds
    that hold for that coordinate of all [T >= 1] keys. *)
Theorem attention_normalised_pooling_bounds
    (hidden_size activation : pyval)
    (queries keys : tensor3 R) (keys_length : tensor2 Z)
    (l : AttentionSequencePoolingLayer.t) :
  AttentionSequencePoolingLayer.init hidden_size activation true false
  = Ok l ->
  shape3 (LocalActivationUnit hidden_size activation queries keys)
  = (dim0 keys, dim1 keys, 1%nat) ->
  rows2 keys_length = dim0 keys -> cols2 keys_length = 1%nat ->
  (1 <= dim1 keys)%nat ->
  exists out,
    AttentionSequencePoolingLayer.call LocalActivationUnit l
      (QueryKeysLength queries keys keys_length) None = Ok out /\
    forall b e lo hi, (b < dim0 keys)%nat -> (e < dim2 keys)%nat ->
      (forall t, (t < dim1 keys)%nat -> lo <= at3 keys b t e <= hi) ->
      lo <= at3 out b 0 e <= hi.
Proof.
  intros Hinit Hs Hr Hc HT. injection Hinit as <-.
  destruct (attention_call_explicit hidden_size activation true
              queries keys keys_length Hs Hr Hc)
    as (out & Hout & _ & Hval).
  exists out. split; [exact Hout|].
  intros b e lo hi Hb He Hbounds. rewrite (Hval b Hb e He).
  set (filled := fun t : nat =>
         if Z.ltb (Z.of_nat t) (at2 keys_length b 0) then
           at3 (LocalActivationUnit hidden_size activation queries keys) b t 0
         else - 2 ^ 32 + 1).
  apply (weighted_sum_bounds
           (fun t => exp (filled t)
                     / sum_upto (fun j => exp (filled j)) (dim1 keys))
           (fun t => at3 keys b t e)).
  - intros t Ht. apply Rlt_le, Rdiv_lt_0_compat; [apply exp_pos|].
    apply sum_upto_pos; [exact HT | intros; apply exp_pos].
  - apply softmax_row_sums_to_one. exact HT.
  - exact Hbounds.
Qed.

(** X11. With weight normalisation a row without valid positions
    (a length at or below 0) is pooled to the plain average of all its [T]
    keys, padding included: every position holds the same fill score, so the
    softmax weights are [1/T]. *)
Theorem attention_empty_row_averages_keys
    (hidden_size activation : pyval)
    (queries keys : tensor3 R) (keys_length : tensor2 Z)
    (l : AttentionSequencePoolingLayer.t) :
  AttentionSequencePoolingLayer.init hidden_size activation true false
  = Ok l ->
  shape3 (LocalActivationUnit hidden_size activation queries keys)
  = (dim0 keys, dim1 keys, 1%nat) ->
  rows2 keys_length = dim0 keys -> cols2 keys_length = 1%nat ->
  (1 <= dim1 keys)%nat ->
  exists out,
    AttentionSequencePoolingLayer.call LocalActivationUnit l
      (QueryKeysLength queries keys keys_length) None = Ok out /\
    forall b e, (b < dim0 keys)%nat -> (e < dim2 keys)%nat ->
      (at2 keys_length b 0 <= 0)%Z ->
      at3 out b 0 e
      = sum_upto (fun t => at3 keys b t e) (dim1 keys) / INR (dim1 keys).
Proof.
  intros Hinit Hs Hr Hc HT. injection Hinit as <-.
  destruct (attention_call_explicit hidden_size activation true
              queries keys keys_length Hs Hr Hc)
    as (out & Hout & _ & Hval).
  exists out. split; [exact Hout|].
  intros b e Hb He Hlen. rewrite (Hval b Hb e He).
  assert (HT' : 0 < INR (dim1 keys)) by (apply lt_0_INR; lia).
  pose proof (exp_pos (- 2 ^ 32 + 1)) as Hexp.
  rewrite (sum_upto_ext _ (fun t => at3 keys b t e * / INR (dim1 keys))).
  - rewrite sum_upto_scal. reflexivity.
  - intros t Ht.
    rewrite (sum_upto_ext _ (fun _ => exp (- 2 ^ 32 + 1))).
    + destruct (Z.ltb_spec (Z.of_nat t) (at2 keys_length b 0)); [lia|].
      rewrite sum_upto_const. field. split; lra.
    + intros j Hj.
      destruct (Z.ltb_spec (Z.of_nat j) (at2 keys_length b 0));
        [lia | reflexivity].
Qed.

(** X12. The two mask sources of the attention layer agree: in masking mode
    a call without masks raises [ValueError], and with the mask [t < length]
    as the last mask it returns the rows the explicit-length layer returns
    on the lengths. *)
Theorem attention_masking_mode_agrees
    (hidden_size activation : pyval) (weight_normalization : bool)
    (queries keys : tensor3 R) (keys_length : tensor2 Z)
    (masks : list (tensor2 bool))
    (le lm : AttentionSequencePoolingLayer.t) :
  AttentionSequencePoolingLayer.init hidden_size activation
    weight_normalization false = Ok le ->
  AttentionSequencePoolingLayer.init hidden_size activation
    weight_normalization true = Ok lm ->
  shape3 (LocalActivationUnit hidden_size activation queries keys)
  = (dim0 keys, dim1 keys, 1%nat) ->
  rows2 keys_length = dim0 keys -> cols2 keys_length = 1%nat ->
  let key_mask :=
    T2 (dim0 keys) (dim1 keys)
       (fun b t => Z.ltb (Z.of_nat t) (at2 keys_length b 0)) in
  (exists msg,
     AttentionSequencePoolingLayer.call LocalActivationUnit lm
       (QueryKeys queries keys) None = Raise (ValueError msg)) /\
  exists out_e out_m,
    AttentionSequencePoolingLayer.call LocalActivationUnit le
      (QueryKeysLength queries keys keys_length) None = Ok out_e /\
    AttentionSequencePoolingLayer.call LocalActivationUnit lm
      (QueryKeys queries keys) (Some (masks ++ [key_mask])%list) = Ok out_m /\
    shape3 out_e = shape3 out_m /\
    forall b e, (b < dim0 keys)%nat -> (e < dim2 keys)%nat ->
      at3 out_e b 0 e = at3 out_m b 0 e.
Proof.
  intros Hie Him Hs Hr Hc key_mask.
  injection Hie as <-. injection Him as <-.
  split; [eexists; reflexivity|].
  destruct (attention_call_explicit hidden_size activation
              weight_normalization queries keys keys_length Hs Hr Hc)
    as (oe & Hoe & Hse & Hve).
  destruct (attention_call_masking hidden_size activation
              weight_normalization queries keys masks key_mask
              Hs eq_refl eq_refl)
    as (om & Hom & Hsm & Hvm).
  exists oe, om. split; [exact Hoe|]. split; [exact Hom|].
  split; [congruence|].
  intros b e Hb He. rewrite (Hve b Hb e He), (Hvm b Hb e He). reflexivity.
Qed.

End AttentionPooling.

Section AttentionPoolingExamples.
Import TF.
Open Scope R_scope.

Lemma attention_build_then_call_witness :
  exists out,
    AttentionSequencePoolingLayer.call Examples.first_coordinate_score
      (AttentionSequencePoolingLayer.Build PNone PNone true false)
      (QueryKeysLength Examples.query_10 Examples.keys_10_01 Examples.len_1)
      None = Ok out /\
    shape3 out = (1%nat, 1%nat, 2%nat).
Proof.
  destruct (attention_build_then_call Examples.first_coordinate_score
              PNone PNone true
              Examples.query_10 Examples.keys_10_01 Examples.len_1
              (AttentionSequencePoolingLayer.Build PNone PNone true false)
              (AttentionSequencePoolingLayer.Build PNone PNone true false)
              eq_refl eq_refl eq_refl eq_refl)
    as (out & Hcall & Hshape & _).
  exists out. split; assumption.
Defined.

Lemma attention_unnormalised_pooling_witness :
  exists out,
    AttentionSequencePoolingLayer.call Examples.first_coordinate_score
      (AttentionSequencePoolingLayer.Build PNone PNone false false)
      (QueryKeysLength Examples.query_10 Examples.keys_10_01 Examples.len_1)
      None = Ok out /\
    at3 out 0 0 0 = 1 /\ at3 out 0 0 1 = 0.
Proof.
  destruct (attention_unnormalised_pooling Examples.first_coordinate_score
              PNone PNone
              Examples.query_10 Examples.keys_10_01 Examples.len_1
              (AttentionSequencePoolingLayer.Build PNone PNone false false)
              eq_refl eq_refl eq_refl eq_refl)
    as (out & Hcall & Hval).
  exists out. split; [exact Hcall|].
  rewrite (Hval 0%nat 0%nat), (Hval 0%nat 1%nat) by (simpl; lia).
  simpl. split; lra.
Defined.

Lemma attention_normalised_pooling_bounds_witness :
  exists out,
    AttentionSequencePoolingLayer.call Examples.first_coordinate_score
      (AttentionSequencePoolingLayer.Build PNone PNone true false)
      (QueryKeysLength Examples.query_10 Examples.keys_10_01 Examples.len_1)
      None = Ok out /\
    0 <= at3 out 0 0 0 <= 1.
Proof.
  assert (HT : (1 <= dim1 Examples.keys_10_01)%nat) by (simpl; lia).
  destruct (attention_normalised_pooling_bounds
              Examples.first_coordinate_score PNone PNone
              Examples.query_10 Examples.keys_10_01 Examples.len_1
              (AttentionSequencePoolingLayer.Build PNone PNone true false)
              eq_refl eq_refl eq_refl eq_refl HT)
    as (out & Hcall & Hbounds).
  exists out. split; [exact Hcall|].
  apply Hbounds; [simpl; lia | simpl; lia |].
  intros t Ht. simpl in Ht.
  assert (Hcases : t = 0%nat \/ t = 1%nat) by lia.
  destruct Hcases as [-> | ->]; simpl; lra.
Defined.

Lemma attention_empty_row_averages_keys_witness :
  exists out,
    AttentionSequencePoolingLayer.call Examples.first_coordinate_score
      (AttentionSequencePoolingLayer.Build PNone PNone true false)
      (QueryKeysLength Examples.query_10 Examples.keys_10_01 Examples.len_0)
      None = Ok out /\
    at3 out 0 0 0 = 1 / 2.
Proof.
  assert (HT : (1 <= dim1 Examples.keys_10_01)%nat) by (simpl; lia).
  destruct (attention_empty_row_averages_keys
              Examples.first_coordinate_score PNone PNone
              Examples.query_10 Examples.keys_10_01 Examples.len_0
              (AttentionSequencePoolingLayer.Build PNone PNone true false)
              eq_refl eq_refl eq_refl eq_refl HT)
    as (out & Hcall & Hval).
  exists out. split; [exact Hcall|].
  rewrite (Hval 0%nat 0%nat) by (simpl; lia). simpl. lra.
Defined.

Lemma attention_masking_mode_agrees_witness :
  exists out_e out_m,
    AttentionSequencePoolingLayer.call Examples.first_coordinate_score
      (AttentionSequencePoolingLayer.Build PNone PNone true false)
      (QueryKeysLength Examples.query_10 Examples.keys_10_01 Examples.len_1)
      None = Ok out_e /\
    AttentionSequencePoolingLayer.call Examples.first_coordinate_score
      (AttentionSequencePoolingLayer.Build PNone PNone true true)
      (QueryKeys Examples.query_10 Examples.keys_10_01)
      (Some [T2 1 2 (fun b t =>
                       Z.ltb (Z.of_nat t) (at2 Examples.len_1 b 0))])
    = Ok out_m /\
    at3 out_e 0 0 0 = at3 out_m 0 0 0.
Proof.
  destruct (attention_masking_mode_agrees Examples.first_coordinate_score
              PNone PNone true
              Examples.query_10 Examples.keys_10_01 Examples.len_1 []
              (AttentionSequencePoolingLayer.Build PNone PNone true false)
              (AttentionSequencePoolingLayer.Build PNone PNone true true)
              eq_refl eq_refl eq_refl eq_refl eq_refl)
    as (_ & oe & om & Hoe & Hom & _ & Heq).
  exists oe, om. split; [exact Hoe|]. split; [exact Hom|].
  apply Heq; simpl; lia.
Defined.

End AttentionPoolingExamples.

(** ** AttentionSequencePoolingLayerv2: the returned scores *)

Section Scores.
Import TF.
Open Scope R_scope.

Variable LocalActivationUnit :
  pyval -> pyval -> tensor3 R -> tensor3 R -> tensor3 R.

(** The similarity stage for the two scoring methods the module can run. *)
Lemma similarity_stage
    (hidden_size activation : pyval) (weight_normalization : bool)
    (sim_type : pyval) (queries keys : tensor3 R) :
  sim_type = PStr "nn" \/ sim_type = PStr "cos" ->
  shape3 (LocalActivationUnit hidden_size activation queries keys)
  = (dim0 keys, dim1 keys, 1%nat) ->
  shape3 queries = (dim0 keys, 1%nat, dim2 keys) ->
  (1 <= dim2 keys)%nat ->
  exists s,
    AttentionSequencePoolingLayerv2.similarity LocalActivationUnit
      (AttentionSequencePoolingLayerv2.Build hidden_size activation
         weight_normalization sim_type) queries keys = Ok (Some s) /\
    shape3 s = (dim0 keys, dim1 keys, 1%nat).
Proof.
  intros Hsim Hs Hq HE. unfold shape3 in Hq. injection Hq as Hq0 Hq1 Hq2.
  destruct Hsim as [-> | ->].
  - eexists. split; [reflexivity | exact Hs].
  - destruct (cosine_distance_explicit queries keys Hq0 Hq1 Hq2 HE)
      as (s & Hcos & Hshape & _).
    exists s. split; [|exact Hshape].
    unfold AttentionSequencePoolingLayerv2.similarity.
    cbn [AttentionSequencePoolingLayerv2.sim_type py_eqb as_number
         String.eqb Ascii.eqb Bool.eqb].
    rewrite Hcos. reflexivity.
Qed.

(** X13. The scores [AttentionSequencePoolingLayerv2.call] returns for
    [sim_type] [nn] or [cos]: with weight normalisation every row is a
    probability vector over its [T >= 1] positions (positive entries of
    total 1), uniform when the row has no valid position; without it every
    masked position holds 0. *)
Theorem v2_scores_distribution
    (hidden_size activation : pyval) (weight_normalization : bool)
    (sim_type : pyval) (queries keys : tensor3 R) (keys_length : tensor2 Z)
    (l : AttentionSequencePoolingLayerv2.t) :
  AttentionSequencePoolingLayerv2.init hidden_size activation
    weight_normalization sim_type = Ok l ->
  sim_type = PStr "nn" \/ sim_type = PStr "cos" ->
  shape3 (LocalActivationUnit hidden_size activation queries keys)
  = (dim0 keys, dim1 keys, 1%nat) ->
  shape3 queries = (dim0 keys, 1%nat, dim2 keys) ->
  rows2 keys_length = dim0 keys -> cols2 keys_length = 1%nat ->
  (1 <= dim2 keys)%nat -> (1 <= dim1 keys)%nat ->
  exists out,
    AttentionSequencePoolingLayerv2.call LocalActivationUnit l
      (QueryKeysLength queries keys keys_length) = Ok out /\
    forall b, (b < dim0 keys)%nat ->
      (weight_normalization = true ->
       (forall t, (t < dim1 keys)%nat -> 0 < at3 out b 0 t) /\
       sum_upto (fun t => at3 out b 0 t) (dim1 keys) = 1 /\
       ((at2 keys_length b 0 <= 0)%Z ->
        forall t, (t < dim1 keys)%nat -> at3 out b 0 t = 1 / INR (dim1 keys)))
      /\
      (weight_normalization = false ->
       forall t, (t < dim1 keys)%nat ->
         (at2 keys_length b 0 <= Z.of_nat t)%Z -> at3 out b 0 t = 0).
Proof.
  intros Hinit Hsim Hs Hq Hr Hc HE HT. injection Hinit as <-.
  destruct (similarity_stage hidden_size activation weight_normalization
              sim_type queries keys Hsim Hs Hq HE) as (s & Hstage & Hshape).
  destruct (v2_call_explicit LocalActivationUnit hidden_size activation
              weight_normalization sim_type queries keys keys_length s
              Hstage Hshape Hr Hc HE) as (out & Hout & _ & Hval).
  exists out. split; [exact Hout|].
  intros b Hb. specialize (Hval b Hb). cbv zeta in Hval.
  split; intros Hwn; subst weight_normalization.
  - pose (scaled := fun t : nat =>
           (if Z.ltb (Z.of_nat t) (at2 keys_length b 0) then at3 s b t 0
            else - 2 ^ 32 + 1) / sqrt (INR (dim2 keys))).
    assert (Hval' : forall t, (t < dim1 keys)%nat ->
              at3 out b 0 t
              = exp (scaled t) / sum_upto (fun j => exp (scaled j)) (dim1 keys))
      by exact Hval.
    clear Hval. rename Hval' into Hval.
    assert (Hpos : 0 < sum_upto (fun j => exp (scaled j)) (dim1 keys)).
    { apply sum_upto_pos; [exact HT | intros; apply exp_pos]. }
    split; [|split].
    + intros t Ht. rewrite (Hval t Ht).
      apply Rdiv_lt_0_compat; [apply exp_pos | exact Hpos].
    + rewrite <- (softmax_row_sums_to_one scaled (dim1 keys) HT).
      apply sum_upto_ext. exact Hval.
    + intros Hlen t Ht. rewrite (Hval t Ht).
      set (c := (- 2 ^ 32 + 1) / sqrt (INR (dim2 keys))).
      assert (Hc' : forall j, scaled j = c).
      { intros j. unfold scaled.
        destruct (Z.ltb_spec (Z.of_nat j) (at2 keys_length b 0));
          [lia | reflexivity]. }
      rewrite (sum_upto_ext _ (fun _ => exp c))
        by (intros j _; rewrite Hc'; reflexivity).
      rewrite Hc', sum_upto_const.
      assert (0 < INR (dim1 keys)) by (apply lt_0_INR; lia).
      pose proof (exp_pos c). field. split; lra.
  - intros t Ht Hlen. rewrite (Hval t Ht).
    destruct (Z.ltb_spec (Z.of_nat t) (at2 keys_length b 0)); [lia|].
    unfold Rdiv. lra.
Qed.

(** X14. [AttentionSequencePoolingLayerv2.compute_output_shape] announces
    [(None, 1, T)], the second entry of the shape of the keys, and the tensor
    [call] returns for [sim_type] [nn] or [cos] has shape [(batch, 1, T)]. *)
Theorem v2_output_shape_as_computed
    (hidden_size activation : pyval) (weight_normalization : bool)
    (sim_type : pyval) (queries keys : tensor3 R) (keys_length : tensor2 Z)
    (l : AttentionSequencePoolingLayerv2.t) :
  AttentionSequencePoolingLayerv2.init hidden_size activation
    weight_normalization sim_type = Ok l ->
  sim_type = PStr "nn" \/ sim_type = PStr "cos" ->
  shape3 (LocalActivationUnit hidden_size activation queries keys)
  = (dim0 keys, dim1 keys, 1%nat) ->
  shape3 queries = (dim0 keys, 1%nat, dim2 keys) ->
  rows2 keys_length = dim0 keys -> cols2 keys_length = 1%nat ->
  (1 <= dim2 keys)%nat ->
  AttentionSequencePoolingLayerv2.compute_output_shape l
    [[dim0 queries; dim1 queries; dim2 queries];
     [dim0 keys; dim1 keys; dim2 keys];
     [rows2 keys_length; cols2 keys_length]]
  = Ok (None, 1%nat, dim1 keys) /\
  exists out,
    AttentionSequencePoolingLayerv2.call LocalActivationUnit l
      (QueryKeysLength queries keys keys_length) = Ok out /\
    shape3 out = (dim0 keys, 1%nat, dim1 keys).
Proof.
  intros Hinit Hsim Hs Hq Hr Hc HE. injection Hinit as <-.
  split; [reflexivity|].
  destruct (similarity_stage hidden_size activation weight_normalization
              sim_type queries keys Hsim Hs Hq HE) as (s & Hstage & Hshape).
  destruct (v2_call_explicit LocalActivationUnit hidden_size activation
              weight_normalization sim_type queries keys keys_length s
              Hstage Hshape Hr Hc HE) as (out & Hout & Hoshape & _).
  exists out. split; assumption.
Qed.

Lemma normalized_square_sum_le_1 (x : nat -> R) (n : nat) :
  let norm := sqrt (Rmax (sum_upto (fun e => x e * x e) n)
                         (/ 1000000000000)) in
  sum_upto (fun e => x e / norm * (x e / norm)) n <= 1.
Proof.
  intros norm.
  set (s := sum_upto (fun e => x e * x e) n) in *.
  set (m := Rmax s (/ 1000000000000)) in *.
  assert (Hm : 0 < m).
  { unfold m. apply Rlt_le_trans with (/ 1000000000000); [lra | apply Rmax_r]. }
  assert (Hnorm : norm * norm = m) by (apply sqrt_sqrt; lra).
  assert (Hsm : s <= m) by apply Rmax_l.
  assert (Hs0 : 0 <= s).
  { unfold s. clear. induction n as [|n IH]; simpl; [lra|].
    pose proof (Rle_0_sqr (x n)) as H. unfold Rsqr in H. lra. }
  rewrite (sum_upto_ext _ (fun e => x e * x e * (/ norm * / norm))).
  - rewrite sum_upto_scal. fold s. rewrite <- Rinv_mult, Hnorm.
    apply Rmult_le_reg_r with m; [exact Hm|].
    rewrite Rmult_assoc, Rinv_l by lra. lra.
  - intros e _. unfold Rdiv. ring.
Qed.

(** X15. With [sim_type = "cos"] the score of every position lies in
    [[-1/embedding_dim, 1/embedding_dim]], and it is 0 when the query or the
    key of the position is the zero vector: the [1e-12] floor of the
    normalisation keeps the division defined. *)
Theorem cosine_score_bounded
    (hidden_size activation : pyval) (weight_normalization : bool)
    (queries keys : tensor3 R) (l : AttentionSequencePoolingLayerv2.t) :
  AttentionSequencePoolingLayerv2.init hidden_size activation
    weight_normalization (PStr "cos") = Ok l ->
  dim0 queries = dim0 keys -> dim1 queries = 1%nat ->
  dim2 queries = dim2 keys -> (1 <= dim2 keys)%nat ->
  exists s,
    AttentionSequencePoolingLayerv2.similarity LocalActivationUnit l
      queries keys = Ok (Some s) /\
    forall b t, (b < dim0 keys)%nat -> (t < dim1 keys)%nat ->
      Rabs (at3 s b t 0) <= 1 / INR (dim2 keys) /\
      ((forall e, (e < dim2 keys)%nat -> at3 queries b 0 e = 0) \/
       (forall e, (e < dim2 keys)%nat -> at3 keys b t e = 0) ->
       at3 s b t 0 = 0).
Proof.
  intros Hinit H0 H1 H2 HE. injection Hinit as <-.
  destruct (cosine_distance_explicit queries keys H0 H1 H2 HE)
    as (s & Hs & _ & Hval).
  exists s. split.
  { unfold AttentionSequencePoolingLayerv2.similarity.
    cbn [AttentionSequencePoolingLayerv2.sim_type py_eqb as_number
         String.eqb Ascii.eqb Bool.eqb].
    rewrite Hs. reflexivity. }
  intros b t Hb Ht. rewrite (Hval b t Hb Ht). cbv zeta.
  set (nq := sqrt (Rmax (sum_upto (fun e => at3 queries b 0 e
                                            * at3 queries b 0 e) (dim2 keys))
                        (/ 1000000000000))).
  set (nk := sqrt (Rmax (sum_upto (fun e => at3 keys b t e * at3 keys b t e)
                                  (dim2 keys))
                        (/ 1000000000000))).
  set (u := fun e => at3 queries b 0 e / nq).
  set (v := fun e => at3 keys b t e / nk).
  assert (HE' : 0 < INR (dim2 keys)) by (apply lt_0_INR; lia).
  pose proof (normalized_square_sum_le_1 (fun e => at3 queries b 0 e)
                (dim2 keys)) as Hu.
  pose proof (normalized_square_sum_le_1 (fun e => at3 keys b t e)
                (dim2 keys)) as Hv.
  cbv zeta in Hu, Hv. fold nq in Hu. fold nk in Hv.
  change (sum_upto (fun e => u e * u e) (dim2 keys) <= 1) in Hu.
  change (sum_upto (fun e => v e * v e) (dim2 keys) <= 1) in Hv.
  change (sum_upto (fun e => at3 queries b 0 e / nq * (at3 keys b t e / nk))
            (dim2 keys))
    with (sum_upto (fun e => u e * v e) (dim2 keys)).
  split.
  - assert (Hup : sum_upto (fun e => u e * v e) (dim2 keys) <= 1).
    { apply Rle_trans
        with (sum_upto (fun e => (u e * u e + v e * v e) / 2) (dim2 keys)).
      - apply sum_upto_le. intros e _.
        pose proof (Rle_0_sqr (u e - v e)) as Hsq. unfold Rsqr in Hsq. lra.
      - replace (sum_upto (fun e => (u e * u e + v e * v e) / 2) (dim2 keys))
          with ((sum_upto (fun e => u e * u e) (dim2 keys)
                 + sum_upto (fun e => v e * v e) (dim2 keys)) * / 2);
          [lra|].
        rewrite <- sum_upto_plus, <- sum_upto_scal. reflexivity. }
    assert (Hlow : - 1 <= sum_upto (fun e => u e * v e) (dim2 keys)).
    { apply Rle_trans
        with (sum_upto (fun e => - ((u e * u e + v e * v e) / 2)) (dim2 keys)).
      - rewrite (sum_upto_ext _ (fun e => (u e * u e + v e * v e) * (- / 2)))
          by (intros; unfold Rdiv; ring).
        rewrite sum_upto_scal, sum_upto_plus. lra.
      - apply sum_upto_le. intros e _.
        pose proof (Rle_0_sqr (u e + v e)) as Hsq. unfold Rsqr in Hsq. lra. }
    apply Rabs_le. unfold Rdiv. split.
    + apply Rmult_le_reg_r with (INR (dim2 keys)); [exact HE'|].
      rewrite Rmult_assoc, Rinv_l by lra.
      replace (- (1 * / INR (dim2 keys)) * INR (dim2 keys)) with (- 1)
        by (field; lra).
      lra.
    + apply Rmult_le_reg_r with (INR (dim2 keys)); [exact HE'|].
      rewrite !Rmult_assoc, Rinv_l by lra. lra.
  - intros Hzero.
    rewrite (sum_upto_zero (fun e => u e * v e)); [unfold Rdiv; lra|].
    intros e He. unfold u, v.
    destruct Hzero as [Hz | Hz]; rewrite (Hz e He); unfold Rdiv; ring.
Qed.

End Scores.

Section ScoresExamples.
Import TF.
Open Scope R_scope.

Lemma v2_scores_distribution_witness :
  exists out,
    AttentionSequencePoolingLayerv2.call Examples.first_coordinate_score
      (AttentionSequencePoolingLayerv2.Build PNone PNone true (PStr "cos"))
      (QueryKeysLength Examples.query_10 Examples.keys_10_01 Examples.len_1)
    = Ok out /\
    at3 out 0 0 0 + at3 out 0 0 1 = 1.
Proof.
  assert (HE : (1 <= dim2 Examples.keys_10_01)%nat) by (simpl; lia).
  assert (HT : (1 <= dim1 Examples.keys_10_01)%nat) by (simpl; lia).
  destruct (v2_scores_distribution Examples.first_coordinate_score
              PNone PNone true (PStr "cos")
              Examples.query_10 Examples.keys_10_01 Examples.len_1
              (AttentionSequencePoolingLayerv2.Build PNone PNone true
                 (PStr "cos"))
              eq_refl (or_intror eq_refl) eq_refl eq_refl eq_refl eq_refl
              HE HT)
    as (out & Hcall & Hval).
  exists out. split; [exact Hcall|].
  destruct (Hval 0%nat) as (Hnorm & _); [simpl; lia|].
  destruct (Hnorm eq_refl) as (_ & Hsum & _).
  simpl in Hsum. lra.
Defined.

Lemma v2_output_shape_as_computed_witness :
  AttentionSequencePoolingLayerv2.compute_output_shape
    (AttentionSequencePoolingLayerv2.Build PNone PNone true (PStr "nn"))
    [[1; 1; 2]; [1; 2; 2]; [1; 1]]%nat
  = Ok (None, 1%nat, 2%nat) /\
  exists out,
    AttentionSequencePoolingLayerv2.call Examples.first_coordinate_score
      (AttentionSequencePoolingLayerv2.Build PNone PNone true (PStr "nn"))
      (QueryKeysLength Examples.query_10 Examples.keys_10_01 Examples.len_1)
    = Ok out /\
    shape3 out = (1%nat, 1%nat, 2%nat).
Proof.
  assert (HE : (1 <= dim2 Examples.keys_10_01)%nat) by (simpl; lia).
  exact (v2_output_shape_as_computed Examples.first_coordinate_score
           PNone PNone true (PStr "nn")
           Examples.query_10 Examples.keys_10_01 Examples.len_1
           (AttentionSequencePoolingLayerv2.Build PNone PNone true (PStr "nn"))
           eq_refl (or_introl eq_refl) eq_refl eq_refl eq_refl eq_refl HE).
Defined.

Lemma cosine_score_bounded_witness :
  exists s,
    AttentionSequencePoolingLayerv2.similarity
      Examples.first_coordinate_score
      (AttentionSequencePoolingLayerv2.Build PNone PNone true (PStr "cos"))
      Examples.query_10 Examples.keys_10_01 = Ok (Some s) /\
    Rabs (at3 s 0 1 0) <= 1 / 2.
Proof.
  assert (HE : (1 <= dim2 Examples.keys_10_01)%nat) by (simpl; lia).
  destruct (cosine_score_bounded Examples.first_coordinate_score
              PNone PNone true Examples.query_10 Examples.keys_10_01
              (AttentionSequencePoolingLayerv2.Build PNone PNone true
                 (PStr "cos"))
              eq_refl eq_refl eq_refl eq_refl HE)
    as (s & Hs & Hval).
  exists s. split; [exact Hs|].
  destruct (Hval 0%nat 1%nat) as (Hbound & _); [simpl; lia ..|].
  simpl in Hbound. replace (1 + 1) with 2 in Hbound by lra. exact Hbound.
Defined.

End ScoresExamples.

(** ** BiLSTM: the levels *)

Section Levels.
Import TF.
Open Scope R_scope.

Variable LSTM : Z -> R -> bool -> nat -> tensor3 R -> tensor3 R.

(** The layer [__init__] and [build] produce. *)
Lemma bilstm_built
    (units layers res_layers : Z) (dropout : R) (merge_mode : pyval)
    (l0 l : BiLSTM.t) (input_shape : list nat) :
  BiLSTM.init units layers res_layers dropout merge_mode = Ok l0 ->
  BiLSTM.build LSTM l0 input_shape = Ok l ->
  List.length input_shape = 3%nat /\
  l = BiLSTM.Build units layers res_layers dropout merge_mode
        (map (LSTM units dropout false) (seq 0 (Z.to_nat layers)))
        (map (LSTM units dropout true) (seq 0 (Z.to_nat layers))).
Proof.
  intros Hinit Hbuild. unfold BiLSTM.init in Hinit.
  destruct (negb _) in Hinit; [discriminate Hinit | injection Hinit as <-].
  unfold BiLSTM.build in Hbuild.
  cbn [BiLSTM.units BiLSTM.layers BiLSTM.res_layers BiLSTM.dropout
       BiLSTM.merge_mode] in Hbuild.
  destruct (Nat.eqb_spec (List.length input_shape) 3) as [H3|H3];
    cbn [negb] in Hbuild; [|discriminate Hbuild].
  injection Hbuild as <-. split; [exact H3 | reflexivity].
Qed.

(** X16. A layer with [layers <= 0] holds no recurrent layer and returns its
    input merged with itself: the input for [fw], [bw] and [ave], the pair of
    the input with itself for [None], its double for [sum], its square for
    [mul], and a tensor of twice its width for [concat]. *)
Theorem bilstm_without_levels
    (units layers res_layers : Z) (dropout : R) (merge_mode : pyval)
    (l0 l : BiLSTM.t) (inputs : tensor3 R) :
  BiLSTM.init units layers res_layers dropout merge_mode = Ok l0 ->
  BiLSTM.build LSTM l0 [dim0 inputs; dim1 inputs; dim2 inputs] = Ok l ->
  (layers <= 0)%Z ->
  BiLSTM.fw_lstm l = [] /\ BiLSTM.bw_lstm l = [] /\
  (merge_mode = PStr "fw" \/ merge_mode = PStr "bw" ->
   BiLSTM.call l inputs = Ok (BiLSTM.Merged inputs)) /\
  (merge_mode = PNone -> BiLSTM.call l inputs = Ok (BiLSTM.Both inputs inputs))
  /\
  (merge_mode = PStr "sum" \/ merge_mode = PStr "ave"
   \/ merge_mode = PStr "mul" ->
   exists output,
     BiLSTM.call l inputs = Ok (BiLSTM.Merged output) /\
     shape3 output = shape3 inputs /\
     forall b t e, (b < dim0 inputs)%nat -> (t < dim1 inputs)%nat ->
       (e < dim2 inputs)%nat ->
       at3 output b t e
       = if py_eqb merge_mode (PStr "sum") then
           at3 inputs b t e + at3 inputs b t e
         else if py_eqb merge_mode (PStr "ave") then at3 inputs b t e
         else at3 inputs b t e * at3 inputs b t e) /\
  (merge_mode = PStr "concat" ->
   exists output,
     BiLSTM.call l inputs = Ok (BiLSTM.Merged output) /\
     shape3 output = (dim0 inputs, dim1 inputs, (2 * dim2 inputs)%nat)).
Proof.
  intros Hinit Hbuild Hlayers.
  destruct (bilstm_built _ _ _ _ _ _ _ _ Hinit Hbuild) as (_ & ->).
  assert (Hn : Z.to_nat layers = O) by lia.
  unfold BiLSTM.call.
  cbn [BiLSTM.fw_lstm BiLSTM.bw_lstm BiLSTM.layers BiLSTM.merge_mode].
  rewrite Hn. cbn [seq map BiLSTM.levels bind].
  split; [reflexivity|]. split; [reflexivity|].
  split; [|split; [|split]].
  - intros [-> | ->]; reflexivity.
  - intros ->. reflexivity.
  - intros [-> | [-> | ->]];
      cbn [py_eqb as_number String.eqb Ascii.eqb Bool.eqb].
    + destruct (binop3_same_shape "add" Rplus inputs inputs eq_refl)
        as (h & -> & Hsh & Hat).
      cbn [bind]. exists h. split; [reflexivity|]. split; [exact Hsh|].
      intros b t e Hb Ht He. apply Hat; assumption.
    + destruct (binop3_same_shape "add" Rplus inputs inputs eq_refl)
        as (h & -> & Hsh & Hat).
      cbn [bind]. eexists. split; [reflexivity|]. split; [exact Hsh|].
      intros b t e Hb Ht He. cbn [map3d at3].
      rewrite Hat by assumption. lra.
    + destruct (binop3_same_shape "mul" Rmult inputs inputs eq_refl)
        as (h & -> & Hsh & Hat).
      cbn [bind]. exists h. split; [reflexivity|]. split; [exact Hsh|].
      intros b t e Hb Ht He. apply Hat; assumption.
  - intros ->. cbn [py_eqb as_number String.eqb Ascii.eqb Bool.eqb].
    unfold concatenate. rewrite !Nat.eqb_refl.
    cbn [andb bind]. eexists. split; [reflexivity|].
    unfold shape3. cbn [dim0 dim1 dim2]. f_equal. lia.
Qed.

(** X17. A layer with one level and no residual connection returns, for
    [merge_mode = None], the forward recurrent layer applied to the input,
    and the backward recurrent layer applied to the input with its output
    reversed in time. *)
Theorem bilstm_single_level
    (units res_layers : Z) (dropout : R)
    (l0 l : BiLSTM.t) (inputs : tensor3 R) :
  BiLSTM.init units 1 res_layers dropout PNone = Ok l0 ->
  BiLSTM.build LSTM l0 [dim0 inputs; dim1 inputs; dim2 inputs] = Ok l ->
  (res_layers <= 0)%Z ->
  exists output_fw output_bw,
    BiLSTM.call l inputs = Ok (BiLSTM.Both output_fw output_bw) /\
    output_fw = LSTM units dropout false 0 inputs /\
    shape3 output_bw = shape3 (LSTM units dropout true 0 inputs) /\
    forall b t e,
      at3 output_bw b t e
      = at3 (LSTM units dropout true 0 inputs) b
          (dim1 (LSTM units dropout true 0 inputs) - 1 - t) e.
Proof.
  intros Hinit Hbuild Hres.
  destruct (bilstm_built _ _ _ _ _ _ _ _ Hinit Hbuild) as (_ & ->).
  unfold BiLSTM.call.
  cbn [BiLSTM.fw_lstm BiLSTM.bw_lstm BiLSTM.layers BiLSTM.merge_mode
       BiLSTM.res_layers BiLSTM.units BiLSTM.dropout].
  change (Z.to_nat 1) with 1%nat.
  cbn [seq map BiLSTM.levels nth_error BiLSTM.fw_lstm BiLSTM.bw_lstm
       BiLSTM.layers BiLSTM.res_layers].
  destruct (Z.geb_spec (Z.of_nat 0) (1 - res_layers)) as [Hge|Hlt];
    [lia|].
  cbn [bind]. eexists _, _. split; [reflexivity|].
  split; [reflexivity|]. split; [reflexivity|].
  intros b t e. reflexivity.
Qed.

Lemma bdim_1_l (a : nat) : bdim 1 a = Some a.
Proof.
  unfold bdim. destruct (Nat.eqb_spec 1 a) as [<-|Ha]; reflexivity.
Qed.

(** Adding a tensor of width 1 to one of any width, batch and time equal:
    the single feature is added to every feature. *)
Lemma binop3_broadcast_last {A B C} (op : string) (f : A -> B -> C)
    (x : tensor3 A) (y : tensor3 B) :
  dim0 y = dim0 x -> dim1 y = dim1 x -> dim2 x = 1%nat ->
  exists h,
    binop3 op f x y = Ok h /\
    shape3 h = shape3 y /\
    forall i j k, (i < dim0 y)%nat -> (j < dim1 y)%nat -> (k < dim2 y)%nat ->
      at3 h i j k = f (at3 x i j 0) (at3 y i j k).
Proof.
  intros H0 H1 H2. unfold binop3. rewrite H0, H1, H2, !bdim_same, bdim_1_l.
  eexists. split; [reflexivity|].
  split; [unfold shape3; cbn [dim0 dim1 dim2]; congruence|].
  intros i j k Hi Hj Hk. cbn [at3].
  rewrite !(bix_lt (dim0 x)), !(bix_lt (dim1 x)), (bix_lt (dim2 y))
    by congruence.
  reflexivity.
Qed.

(** X18. A layer with one level that is residual ([res_layers >= 1]), over
    recurrent layers returning [units] features, for [merge_mode = None]:
    when the input has [units] features each stream is the recurrent output
    plus the input; when [units = 1] and the input is wider, the addition
    broadcasts, and the streams have the width of the input, not [units];
    when the widths differ and neither is 1, the call does not return. *)
Theorem bilstm_residual_level
    (units res_layers : Z) (dropout : R)
    (l0 l : BiLSTM.t) (inputs : tensor3 R) :
  (forall u d g i x,
     shape3 (LSTM u d g i x) = (dim0 x, dim1 x, Z.to_nat u)) ->
  BiLSTM.init units 1 res_layers dropout PNone = Ok l0 ->
  BiLSTM.build LSTM l0 [dim0 inputs; dim1 inputs; dim2 inputs] = Ok l ->
  (1 <= res_layers)%Z ->
  let fw := LSTM units dropout false 0 inputs in
  let bw := LSTM units dropout true 0 inputs in
  (dim2 inputs = Z.to_nat units \/ Z.to_nat units = 1%nat ->
   exists output_fw output_bw,
     BiLSTM.call l inputs = Ok (BiLSTM.Both output_fw output_bw) /\
     shape3 output_fw = shape3 inputs /\
     shape3 output_bw = shape3 inputs /\
     forall b t e, (b < dim0 inputs)%nat -> (t < dim1 inputs)%nat ->
       (e < dim2 inputs)%nat ->
       let e' := if Nat.eqb (Z.to_nat units) 1 then O else e in
       at3 output_fw b t e = at3 fw b t e' + at3 inputs b t e /\
       at3 output_bw b t e
       = at3 bw b (dim1 inputs - 1 - t) e' + at3 inputs b t e) /\
  (dim2 inputs <> Z.to_nat units -> Z.to_nat units <> 1%nat ->
   dim2 inputs <> 1%nat ->
   exists e, BiLSTM.call l inputs = Raise e).
Proof.
  intros LSTM_shape Hinit Hbuild Hres fw bw.
  destruct (bilstm_built _ _ _ _ _ _ _ _ Hinit Hbuild) as (_ & ->).
  pose proof (LSTM_shape units dropout false O inputs) as Hfw.
  pose proof (LSTM_shape units dropout true O inputs) as Hbw.
  fold fw in Hfw. fold bw in Hbw. unfold shape3 in Hfw, Hbw.
  injection Hfw as Hf0 Hf1 Hf2. injection Hbw as Hb0 Hb1 Hb2.
  unfold BiLSTM.call.
  cbn [BiLSTM.fw_lstm BiLSTM.bw_lstm BiLSTM.layers BiLSTM.merge_mode
       BiLSTM.res_layers BiLSTM.units BiLSTM.dropout].
  change (Z.to_nat 1) with 1%nat.
  cbn [seq map BiLSTM.levels nth_error BiLSTM.fw_lstm BiLSTM.bw_lstm
       BiLSTM.layers BiLSTM.res_layers].
  fold fw bw.
  destruct (Z.geb_spec (Z.of_nat 0) (1 - res_layers)) as [Hge|Hlt]; [|lia].
  split.
  - intros Hwidth.
    assert (Hadd : forall (o : tensor3 R),
              dim0 o = dim0 inputs -> dim1 o = dim1 inputs ->
              dim2 o = Z.to_nat units ->
              exists h,
                binop3 "add" Rplus o inputs = Ok h /\
                shape3 h = shape3 inputs /\
                forall b t e, (b < dim0 inputs)%nat -> (t < dim1 inputs)%nat ->
                  (e < dim2 inputs)%nat ->
                  at3 h b t e
                  = at3 o b t (if Nat.eqb (Z.to_nat units) 1 then O else e)
                    + at3 inputs b t e).
    { intros o Ho0 Ho1 Ho2.
      destruct (Nat.eqb_spec (Z.to_nat units) 1) as [H1|H1].
      - destruct (binop3_broadcast_last "add" Rplus o inputs)
          as (h & Hh & Hsh & Hat); [congruence ..|].
        exists h. split; [exact Hh|]. split; [exact Hsh|]. exact Hat.
      - destruct Hwidth as [Hw|Hw]; [|contradiction].
        destruct (binop3_same_shape "add" Rplus o inputs)
          as (h & Hh & Hsh & Hat); [unfold shape3; congruence|].
        exists h. split; [exact Hh|].
        split; [rewrite Hsh; unfold shape3; congruence|].
        intros b t e Hb Ht He. apply Hat; congruence. }
    destruct (Hadd fw Hf0 Hf1 Hf2) as (hf & Hhf & Hsf & Hatf).
    destruct (Hadd (reverse_1 bw)) as (hb & Hhb & Hsb & Hatb);
      [exact Hb0 | exact Hb1 | exact Hb2 |].
    rewrite Hhf, Hhb. cbn [bind].
    exists hf, hb. split; [reflexivity|]. split; [exact Hsf|].
    split; [exact Hsb|].
    intros b t e Hb Ht He. cbv zeta. split.
    + apply Hatf; assumption.
    + rewrite (Hatb b t e Hb Ht He). cbn [reverse_1 at3]. rewrite Hb1.
      reflexivity.
  - intros Hne Hu1 Hd1.
    unfold binop3 at 1. rewrite Hf0, Hf1, Hf2, !bdim_same.
    unfold bdim.
    destruct (Nat.eqb_spec (Z.to_nat units) (dim2 inputs)); [congruence|].
    destruct (Nat.eqb_spec (Z.to_nat units) 1); [contradiction|].
    destruct (Nat.eqb_spec (dim2 inputs) 1); [contradiction|].
    cbn [bind]. eexists. reflexivity.
Qed.

(** The shape of what [call] returns on the streams the loop leaves. *)
Lemma bilstm_call_shape (l : BiLSTM.t) (inputs fw bw : tensor3 R) (B T U : nat) :
  BiLSTM.levels l (seq 0 (Z.to_nat (BiLSTM.layers l))) inputs inputs
  = Ok (fw, bw) ->
  shape3 fw = (B, T, U) -> shape3 bw = (B, T, U) ->
  In (BiLSTM.merge_mode l)
     [PStr "fw"; PStr "bw"; PStr "sum"; PStr "mul"; PStr "ave";
      PStr "concat"; PNone] ->
  exists r,
    BiLSTM.call l inputs = Ok r /\
    match r with
    | BiLSTM.Merged o =>
        BiLSTM.merge_mode l <> PNone /\
        shape3 o
        = (B, T, if py_eqb (BiLSTM.merge_mode l) (PStr "concat")
                 then (U * 2)%nat else U)
    | BiLSTM.Both a b =>
        BiLSTM.merge_mode l = PNone /\
        shape3 a = (B, T, U) /\ shape3 b = (B, T, U)
    end.
Proof.
  intros Hlevels Hsfw Hsbw Hmode.
  unfold BiLSTM.call. rewrite Hlevels. cbn [bind].
  assert (Hsame : shape3 bw = shape3 fw) by congruence.
  pose proof Hsfw as Hsfw'. pose proof Hsbw as Hsbw'.
  unfold shape3 in Hsfw', Hsbw'.
  injection Hsfw' as Hf0 Hf1 Hf2. injection Hsbw' as Hb0 Hb1 Hb2.
  simpl in Hmode.
  destruct Hmode as [H|[H|[H|[H|[H|[H|[H|[]]]]]]]]; rewrite <- H;
    cbn [py_eqb as_number String.eqb Ascii.eqb Bool.eqb].
  - eexists. split; [reflexivity|]. split; [discriminate | exact Hsfw].
  - eexists. split; [reflexivity|]. split; [discriminate | exact Hsbw].
  - destruct (binop3_same_shape "add" Rplus fw bw Hsame)
      as (h & -> & Hsh & _).
    cbn [bind]. eexists. split; [reflexivity|].
    split; [discriminate | congruence].
  - destruct (binop3_same_shape "mul" Rmult fw bw Hsame)
      as (h & -> & Hsh & _).
    cbn [bind]. eexists. split; [reflexivity|].
    split; [discriminate | congruence].
  - destruct (binop3_same_shape "add" Rplus fw bw Hsame)
      as (h & -> & Hsh & _).
    cbn [bind]. eexists. split; [reflexivity|].
    split; [discriminate|].
    unfold shape3 in *. cbn [map3d dim0 dim1 dim2]. congruence.
  - unfold concatenate. rewrite Hf0, Hf1, Hb0, Hb1, !Nat.eqb_refl.
    cbn [andb bind]. eexists. split; [reflexivity|].
    split; [discriminate|].
    unfold shape3. cbn [dim0 dim1 dim2]. rewrite Hf2, Hb2. f_equal. lia.
  - eexists. split; [reflexivity|]. split; [reflexivity|].
    split; assumption.
Qed.

(** X19. When the input has [units] features, [compute_output_shape]
    announces the shapes [call] produces, for every merge mode the
    constructor accepts: one shape for a merged output, with the last entry
    doubled for [concat], and two shapes for [None]. *)
Theorem bilstm_output_shape_as_computed
    (units layers res_layers : Z) (dropout : R) (merge_mode : pyval)
    (l0 l : BiLSTM.t) (inputs : tensor3 R) :
  (forall u d g i x,
     shape3 (LSTM u d g i x) = (dim0 x, dim1 x, Z.to_nat u)) ->
  BiLSTM.init units layers res_layers dropout merge_mode = Ok l0 ->
  BiLSTM.build LSTM l0 [dim0 inputs; dim1 inputs; dim2 inputs] = Ok l ->
  (1 <= layers)%Z ->
  dim2 inputs = Z.to_nat units ->
  exists r,
    BiLSTM.call l inputs = Ok r /\
    BiLSTM.compute_output_shape l [dim0 inputs; dim1 inputs; dim2 inputs]
    = Ok (match r with
          | BiLSTM.Merged o => BiLSTM.OneShape [dim0 o; dim1 o; dim2 o]
          | BiLSTM.Both a b =>
              BiLSTM.TwoShapes [dim0 a; dim1 a; dim2 a]
                               [dim0 b; dim1 b; dim2 b]
          end).
Proof.
  intros LSTM_shape Hinit Hbuild Hlayers Hwidth.
  assert (Hmode : In merge_mode
                    [PStr "fw"; PStr "bw"; PStr "sum"; PStr "mul"; PStr "ave";
                     PStr "concat"; PNone]).
  { unfold BiLSTM.init in Hinit.
    destruct (py_in merge_mode _) eqn:Hin; [|discriminate Hinit].
    apply py_in_literals in Hin; [exact Hin|].
    intros w Hw. simpl in Hw.
    repeat (destruct Hw as [<- | Hw];
            [solve [auto | right; eexists; reflexivity]|]).
    contradiction. }
  destruct (bilstm_built _ _ _ _ _ _ _ _ Hinit Hbuild) as (_ & ->).
  set (l := BiLSTM.Build _ _ _ _ _ _ _).
  destruct (Z.to_nat layers) as [|n] eqn:Hn; [lia|].
  destruct (levels_shape LSTM LSTM_shape l (dim0 inputs) (dim1 inputs) n)
    with (a := O) (input_fw := inputs) (input_bw := inputs)
    as (fw & bw & Hlevels & Hsfw & Hsbw).
  1, 2: cbn [l BiLSTM.fw_lstm BiLSTM.bw_lstm BiLSTM.units BiLSTM.dropout
             BiLSTM.layers]; rewrite Hn; reflexivity.
  1: cbn [l BiLSTM.layers]; lia.
  1, 2, 3, 4: reflexivity.
  1: cbn [l BiLSTM.units]; intros _; split; exact Hwidth.
  destruct (bilstm_call_shape l inputs fw bw (dim0 inputs) (dim1 inputs)
              (Z.to_nat units)) as (r & Hcall & Hr);
    [ cbn [l BiLSTM.layers]; rewrite Hn; exact Hlevels
    | exact Hsfw | exact Hsbw | exact Hmode |].
  exists r. split; [exact Hcall|].
  unfold BiLSTM.compute_output_shape.
  cbn [l BiLSTM.merge_mode BiLSTM.units] in *.
  destruct r as [o | a b].
  - destruct Hr as (Hnone & Hso). unfold shape3 in Hso.
    injection Hso as -> -> ->.
    destruct merge_mode; try contradiction;
      destruct (py_eqb _ (PStr "concat"));
      cbn [rev app removelast]; rewrite ?Hwidth; reflexivity.
  - destruct Hr as (-> & Hsa & Hsb). unfold shape3 in Hsa, Hsb.
    injection Hsa as -> -> ->. injection Hsb as -> -> ->.
    rewrite Hwidth. reflexivity.
Qed.

End Levels.

Section LevelsExamples.
Import TF.
Open Scope R_scope.

Lemma bilstm_without_levels_witness :
  exists l,
    BiLSTM.build Examples.constant_lstm
      (BiLSTM.Build 4 0 0 (2 / 10) (PStr "fw") [] []) [1; 3; 2]%nat = Ok l /\
    BiLSTM.call l Examples.seq_1x3x2 = Ok (BiLSTM.Merged Examples.seq_1x3x2).
Proof.
  eexists. split; [reflexivity|].
  assert (Hlayers : (0 <= 0)%Z) by lia.
  destruct (bilstm_without_levels Examples.constant_lstm
              4%Z 0%Z 0%Z (2 / 10) (PStr "fw") _ _ Examples.seq_1x3x2
              eq_refl eq_refl Hlayers)
    as (_ & _ & Hone & _).
  apply Hone. left. reflexivity.
Defined.

Lemma bilstm_single_level_witness :
  exists l output_bw,
    BiLSTM.build Examples.constant_lstm
      (BiLSTM.Build 4 1 0 (2 / 10) PNone [] []) [1; 3; 2]%nat = Ok l /\
    BiLSTM.call l Examples.seq_1x3x2
    = Ok (BiLSTM.Both
            (Examples.constant_lstm 4 (2 / 10) false 0 Examples.seq_1x3x2)
            output_bw).
Proof.
  eexists.
  assert (Hres : (0 <= 0)%Z) by lia.
  destruct (bilstm_single_level Examples.constant_lstm
              4%Z 0%Z (2 / 10) _ _ Examples.seq_1x3x2
              eq_refl eq_refl Hres)
    as (fw & bw & Hcall & -> & _).
  exists bw. split; [reflexivity | exact Hcall].
Defined.

Lemma bilstm_residual_level_witness :
  exists l output_fw output_bw,
    BiLSTM.build Examples.constant_lstm
      (BiLSTM.Build 1 1 1 (2 / 10) PNone [] []) [1; 3; 2]%nat = Ok l /\
    BiLSTM.call l Examples.seq_1x3x2 = Ok (BiLSTM.Both output_fw output_bw) /\
    shape3 output_fw = (1%nat, 3%nat, 2%nat) /\
    at3 output_fw 0 1 1 = 1 + 4.
Proof.
  eexists.
  assert (Hres : (1 <= 1)%Z) by lia.
  destruct (bilstm_residual_level Examples.constant_lstm
              1%Z 1%Z (2 / 10) _ _ Examples.seq_1x3x2
              (fun _ _ _ _ _ => eq_refl) eq_refl eq_refl Hres)
    as (Hbroadcast & _).
  destruct Hbroadcast as (fw & bw & Hcall & Hsfw & _ & Hval);
    [right; reflexivity|].
  exists fw, bw. split; [reflexivity|]. split; [exact Hcall|].
  split; [exact Hsfw|].
  destruct (Hval 0%nat 1%nat 1%nat) as (-> & _); [simpl; lia ..|].
  reflexivity.
Defined.

Lemma bilstm_output_shape_as_computed_witness :
  exists l output,
    BiLSTM.build Examples.constant_lstm
      (BiLSTM.Build 2 2 1 (2 / 10) (PStr "concat") [] []) [1; 3; 2]%nat
    = Ok l /\
    BiLSTM.call l Examples.seq_1x3x2 = Ok (BiLSTM.Merged output) /\
    BiLSTM.compute_output_shape l [1; 3; 2]%nat
    = Ok (BiLSTM.OneShape [dim0 output; dim1 output; dim2 output]).
Proof.
  eexists.
  assert (Hlayers : (1 <= 2)%Z) by lia.
  destruct (bilstm_output_shape_as_computed Examples.constant_lstm
              2%Z 2%Z 1%Z (2 / 10) (PStr "concat") _ _ Examples.seq_1x3x2
              (fun _ _ _ _ _ => eq_refl) eq_refl eq_refl Hlayers eq_refl)
    as (r & Hcall & Hshape).
  destruct r as [o | a b].
  - exists o. split; [reflexivity|]. split; [exact Hcall | exact Hshape].
  - exfalso. simpl in Hshape. discriminate Hshape.
Defined.

End LevelsExamples.

(** ** Configuration dictionaries *)

Section Configurations.

Lemma fold_absent (k : string) (config : list (string * pyval))
    (acc : option pyval) :
  ~ In k (map fst config) ->
  fold_left (fun acc kv => if String.eqb k (fst kv) then Some (snd kv)
                           else acc) config acc = acc.
Proof.
  revert acc. induction config as [|[k' v] config IH]; intros acc Hk.
  - reflexivity.
  - simpl in *. destruct (String.eqb_spec k k') as [->|Hne].
    + exfalso. apply Hk. left. reflexivity.
    + apply IH. intros Hin. apply Hk. right. exact Hin.
Qed.

(** X20. [get_config] keeps what the base class reports: for each of the
    four layers, a key that is not one of the layer's own configuration keys
    has in the result the value it has in the base configuration. *)
Theorem get_config_keeps_base_entries (k : string) (base_config : pydict) :
  (forall l,
     ~ In k ["mode"; "supports_masking"] ->
     dict_get k (SequencePoolingLayer.get_config l base_config)
     = dict_get k (dict base_config)) /\
  (forall l,
     ~ In k ["hidden_size"; "activation"; "weight_normalization";
             "supports_masking"] ->
     dict_get k (AttentionSequencePoolingLayer.get_config l base_config)
     = dict_get k (dict base_config)) /\
  (forall l,
     ~ In k ["units"; "layers"; "res_layers"; "dropout"; "merge_mode"] ->
     dict_get k (BiLSTM.get_config l base_config)
     = dict_get k (dict base_config)) /\
  (forall l,
     ~ In k ["hidden_size"; "activation"; "weight_normalization"] ->
     dict_get k (AttentionSequencePoolingLayerv2.get_config l base_config)
     = dict_get k (dict base_config)).
Proof.
  repeat split; intros l Hk.
  all: unfold SequencePoolingLayer.get_config,
         AttentionSequencePoolingLayer.get_config, BiLSTM.get_config,
         AttentionSequencePoolingLayerv2.get_config, items.
  all: rewrite dict_get_dict_app; apply fold_absent; exact Hk.
Qed.

Lemma get_config_keeps_base_entries_witness :
  dict_get "name"
    (BiLSTM.get_config (BiLSTM.Build 4 2 0 (2 / 10)%R (PStr "ave") [] [])
       Examples.keras_base_config)
  = Some (PStr "attention_sequence_pooling_layerv2").
Proof.
  destruct (get_config_keeps_base_entries "name" Examples.keras_base_config)
    as (_ & _ & Hbilstm & _).
  rewrite Hbilstm; [reflexivity|].
  simpl. intros [H|[H|[H|[H|[H|[]]]]]]; discriminate H.
Defined.

End Configurations.
